(** * Modmail cog: thread lifecycle, admission control and hook dispatch

    A shallow embedding of [modmail/modmail.py] (class [ModMail]) and the
    properties of its message-routing core.

    Conventions of the embedding.
    - Discord snowflakes (guild, user, channel, role ids) are [Z].
    - A [datetime] is the number of microseconds since the epoch, a [Z];
      [timedelta(seconds=s)] is [s * 1000000].  An ISO string stored in the
      Config ([created_at], [closed_at]) is kept as the instant it denotes.
    - Red's [Config] merges the registered defaults into what it reads, so a
      stored document is a record with every registered key; [d.get(k, dflt)]
      on such a document returns the stored value.
    - Every [async def] is a computation of the monad [M]: it threads the
      [World] (Config storage, cog attributes, Discord cache, the list of
      effects performed so far) and may raise a Python [Exception].  Awaits
      are run to completion one after the other: no interleaving of tasks is
      modelled. *)

From Stdlib Require Import ZArith String List Lia DecimalString.
From stdpp Require Import base gmap strings list.

Open Scope string_scope.
Open Scope list_scope.
Open Scope Z_scope.

(** ** Python values shared by the whole file *)

(** [str(n)] for an [int]. *)
Definition str_Z (z : Z) : string := NilZero.string_of_int (Z.to_int z).

(** [timedelta(seconds=s)], in microseconds. *)
Definition timedelta_seconds (s : Z) : Z := s * 1000000.

(** Truth value of an optional id ([if category_id:], [if guild_id:]):
    [None] and [0] are falsy. *)
Definition truthy_id (o : option Z) : bool :=
  match o with
  | Some z => negb (z =? 0)
  | None => false
  end.

(** Truth value of an optional string ([if reason:], [not reason]). *)
Definition truthy_str (o : option string) : bool :=
  match o with
  | Some s => negb (String.eqb s EmptyString)
  | None => false
  end.

(** The exceptions the code can meet; all of them derive from [Exception].
    [discord.Forbidden] is a subclass of [discord.HTTPException]. *)
Inductive PyExn : Type :=
| Forbidden
| HTTPException
| NotFound
| TypeError (msg : string)
| RuntimeError (msg : string)
| OtherException (msg : string).

Definition is_HTTPException (e : PyExn) : bool :=
  match e with
  | Forbidden | HTTPException | NotFound => true
  | _ => false
  end.

Definition is_Forbidden (e : PyExn) : bool :=
  match e with
  | Forbidden => true
  | _ => false
  end.

(** ** Config documents (the defaults registered in [_init_config]) *)

Record AutoResponse := {
  ar_enabled : bool;
  ar_message : string;
  ar_embed_enabled : bool;
  ar_embed_title : string;
  ar_embed_color : Z;
  ar_embed_footer : string
}.

Record ThreadSettings := {
  auto_close_after : Z;
  require_close_reason : bool;
  notify_user_on_close : bool;
  delete_on_close : bool;
  close_confirmation : bool
}.

Record UserRequirements := {
  min_account_age : Z;
  min_server_age : Z;
  require_server_member : bool;
  blocked_new_accounts : bool
}.

Record RateLimiting := {
  rl_enabled : bool;
  max_messages : Z;
  time_window : Z;
  cooldown_message : string
}.

Record GuildConfig := {
  enabled : bool;
  category_id : option Z;
  log_channel_id : option Z;
  staff_roles : list Z;
  blocked_users : list Z;
  auto_response : AutoResponse;
  thread_settings : ThreadSettings;
  user_requirements : UserRequirements;
  rate_limiting : RateLimiting;
  anonymous_staff : bool;
  show_user_info : bool
}.

Definition default_guild : GuildConfig := {|
  enabled := false;
  category_id := None;
  log_channel_id := None;
  staff_roles := [];
  blocked_users := [];
  auto_response := {|
    ar_enabled := true;
    ar_message :=
      "Thank you for contacting us! A staff member will be with you shortly.";
    ar_embed_enabled := false;
    ar_embed_title := "Modmail Received";
    ar_embed_color := 3447003;
    ar_embed_footer := "Response time: Usually within 24 hours" |};
  thread_settings := {|
    auto_close_after := 7200;
    require_close_reason := true;
    notify_user_on_close := true;
    delete_on_close := false;
    close_confirmation := true |};
  user_requirements := {|
    min_account_age := 86400;
    min_server_age := 0;
    require_server_member := false;
    blocked_new_accounts := false |};
  rate_limiting := {|
    rl_enabled := true;
    max_messages := 5;
    time_window := 300;
    cooldown_message :=
      "You're sending messages too quickly. Please wait before sending another message." |};
  anonymous_staff := false;
  show_user_info := true
|}.

Record UserData := {
  blocked : bool;
  block_reason : option string;
  blocked_at : option Z;
  blocked_by : option Z;
  total_threads : Z;
  last_thread_at : option Z;
  user_notes : list string
}.

Definition default_user : UserData := {|
  blocked := false;
  block_reason := None;
  blocked_at := None;
  blocked_by := None;
  total_threads := 0;
  last_thread_at := None;
  user_notes := []
|}.

Inductive ThreadStatus : Type := st_open | st_closed | st_archived.

Definition status_eqb (a b : ThreadStatus) : bool :=
  match a, b with
  | st_open, st_open | st_closed, st_closed | st_archived, st_archived => true
  | _, _ => false
  end.

Record ThreadData := {
  td_user_id : option Z;
  td_channel_id : option Z;
  td_guild_id : option Z;
  td_created_at : option Z;
  td_closed_at : option Z;
  td_status : ThreadStatus;
  td_priority : string;
  td_category : string;
  td_staff_assigned : list Z;
  td_participants : list Z;
  td_message_count : Z;
  td_close_reason : option string;
  td_closed_by : option Z;
  td_escalated : bool;
  td_tags : list string;
  td_notes : list string
}.

Definition default_thread : ThreadData := {|
  td_user_id := None;
  td_channel_id := None;
  td_guild_id := None;
  td_created_at := None;
  td_closed_at := None;
  td_status := st_open;
  td_priority := "normal";
  td_category := "general";
  td_staff_assigned := [];
  td_participants := [];
  td_message_count := 0;
  td_close_reason := None;
  td_closed_by := None;
  td_escalated := false;
  td_tags := [];
  td_notes := []
|}.

(** The custom group [UserConversations], keyed by (guild id, user id).
    [active_thread] holds the id of the thread's channel. *)
Record UserConversations := {
  thread_history : list string;
  active_thread : option Z
}.

Definition default_conv : UserConversations :=
  {| thread_history := []; active_thread := None |}.

(** Global settings.  Of [globally_blocked_users] (a dict keyed by
    [str(user_id)]) only the keys are ever read. *)
Record GlobalData := {
  globally_blocked_users : gset string;
  total_threads_created : Z
}.

Definition default_global : GlobalData :=
  {| globally_blocked_users := ∅; total_threads_created := 0 |}.

(** ** Discord objects *)

Inductive ChannelKind : Type := TextChannel | CategoryChannel | DMChannel.

Inductive OverwriteTarget : Type :=
| TargetRole (role : Z)
| TargetMember (member : Z).

Definition target_eqb (a b : OverwriteTarget) : bool :=
  match a, b with
  | TargetRole x, TargetRole y => x =? y
  | TargetMember x, TargetMember y => x =? y
  | _, _ => false
  end.

(** [discord.PermissionOverwrite]: each permission is allowed, denied or
    left to inherit. *)
Record PermissionOverwrite := {
  read_messages : option bool;
  send_messages : option bool;
  manage_messages : option bool
}.

Record Channel := {
  channel_id : Z;
  channel_guild : Z;
  channel_name : string;
  channel_kind : ChannelKind;
  channel_category : option Z;
  channel_topic : string;
  channel_overwrites : list (OverwriteTarget * PermissionOverwrite)
}.

(** [member_str] is [str(member)]; [member_roles] starts with @everyone. *)
Record Member := {
  member_id : Z;
  member_str : string;
  member_joined_at : Z;
  member_roles : list Z
}.

Record Guild := {
  guild_id : Z;
  guild_name : string;
  guild_me : Member;
  guild_default_role : Z;
  guild_roles : list Z;
  guild_members : list Member;
  guild_channels : list Channel
}.

Record User := {
  user_id : Z;
  user_name : string;
  user_discriminator : string;
  user_created_at : Z;
  user_bot : bool
}.

(** [str(user)] *)
Definition str_user (u : User) : string :=
  user_name u +:+ "#" +:+ user_discriminator u.

Record Attachment := {
  att_filename : string;
  att_url : string
}.

Record Message := {
  msg_author : User;
  msg_channel_kind : ChannelKind;
  msg_content : string;
  msg_attachments : list Attachment;
  msg_created_at : Z
}.

(** What is sent over the transport: plain text, an embed or a file. *)
Record Embed := {
  emb_title : string;
  emb_description : string;
  emb_author : string;
  emb_fields : list (string * string);
  emb_footer : string;
  emb_image : string
}.

Inductive Payload : Type :=
| PText (s : string)
| PEmbed (e : Embed)
| PFile (filename : string).

(** ** Hooks and effects *)

(** The dict built in [_process_modmail_message] for [message_processed]. *)
Record MessageData := {
  md_thread_id : string;
  md_user_id : Z;
  md_guild_id : Z;
  md_content : string;
  md_attachments : list string;
  md_timestamp : Z
}.

(** Positional arguments of a hook call. *)
Inductive HookArgs : Type :=
| ArgsThreadCreated (thread_data : ThreadData)
| ArgsMessageProcessed (message_data : MessageData)
| ArgsThreadClosed (thread_data : ThreadData) (reason : option string).

(** A registered hook is a bound coroutine method of an extension.  In
    the world model a hook keeps to itself: awaited, it returns or raises
    an [Exception], and it does not call back into the cog (it neither
    registers nor unregisters an extension while it runs).  [hook_owner]
    names the extension.  Hooks that unregister during the dispatch or
    raise a [BaseException] are the subject of the module [Live]. *)
Record Hook := {
  hook_owner : string;
  hook_call : HookArgs -> option PyExn
}.

Inductive LogLevel : Type := LogInfo | LogError | LogException.

(** The calls into Discord and Red that can fail. *)
Inductive ExtCall : Type :=
| CallCreateTextChannel (guild : Z)
| CallUserSend (user : Z)
| CallChannelSend (channel : Z)
| CallChannelEdit (channel : Z)
| CallChannelDelete (channel : Z)
| CallSetPermissions (channel : Z)
| CallAddReaction (channel : Z)
| CallAttachmentToFile (url : string)
| CallModlogCreateCase (guild : Z).

(** Effects in the order they were performed. *)
Inductive Event : Type :=
| EvHookCall (hook_name : string) (owner : string) (args : HookArgs)
| EvLog (level : LogLevel) (msg : string) (exn : option PyExn)
| EvUserSend (user : Z) (p : Payload)
| EvChannelSend (channel : Z) (p : Payload)
| EvChannelCreate (guild : Z) (channel : Z) (name : string)
| EvChannelEdit (channel : Z) (name : string)
| EvChannelDelete (channel : Z) (reason : string)
| EvSetPermissions (channel : Z) (target : OverwriteTarget)
| EvAddReaction (channel : Z) (emoji : string)
| EvSleep (seconds : Z)
| EvModlogCase (guild : Z) (action_type : string) (user : option Z)
               (moderator : option Z) (reason : string).

(** ** The world a coroutine runs in *)

Record World := {
  (* Red Config *)
  cfg_guild : gmap Z GuildConfig;
  cfg_user : gmap Z UserData;
  cfg_global : GlobalData;
  (* custom group "Thread": per guild, a dict in insertion order *)
  cfg_thread : gmap Z (list (string * ThreadData));
  (* custom group "UserConversations", keyed by (guild, user) *)
  cfg_conv : gmap (Z * Z) UserConversations;
  (* attributes of the cog *)
  hooks : gmap string (list Hook);
  rate_limits : gmap string (list Z);
  (* the bot's cache *)
  bot_guilds : list Guild;
  bot_users : list User;
  (* environment: the clock, the uuid4 generator, Discord's id allocator
     and which external calls fail *)
  now : Z;
  uuid4_hex : nat -> string;
  uuid_count : nat;
  next_snowflake : Z;
  ext_fail : ExtCall -> option PyExn;
  (* effects performed so far *)
  trace : list Event
}.

Definition set_cfg_global (x : GlobalData) (w : World) : World :=
  {| cfg_guild := cfg_guild w; cfg_user := cfg_user w; cfg_global := x;
     cfg_thread := cfg_thread w; cfg_conv := cfg_conv w; hooks := hooks w;
     rate_limits := rate_limits w; bot_guilds := bot_guilds w;
     bot_users := bot_users w; now := now w; uuid4_hex := uuid4_hex w;
     uuid_count := uuid_count w; next_snowflake := next_snowflake w;
     ext_fail := ext_fail w; trace := trace w |}.

Definition set_cfg_thread (x : gmap Z (list (string * ThreadData)))
    (w : World) : World :=
  {| cfg_guild := cfg_guild w; cfg_user := cfg_user w;
     cfg_global := cfg_global w; cfg_thread := x; cfg_conv := cfg_conv w;
     hooks := hooks w; rate_limits := rate_limits w;
     bot_guilds := bot_guilds w; bot_users := bot_users w; now := now w;
     uuid4_hex := uuid4_hex w; uuid_count := uuid_count w;
     next_snowflake := next_snowflake w; ext_fail := ext_fail w;
     trace := trace w |}.

Definition set_cfg_conv (x : gmap (Z * Z) UserConversations)
    (w : World) : World :=
  {| cfg_guild := cfg_guild w; cfg_user := cfg_user w;
     cfg_global := cfg_global w; cfg_thread := cfg_thread w; cfg_conv := x;
     hooks := hooks w; rate_limits := rate_limits w;
     bot_guilds := bot_guilds w; bot_users := bot_users w; now := now w;
     uuid4_hex := uuid4_hex w; uuid_count := uuid_count w;
     next_snowflake := next_snowflake w; ext_fail := ext_fail w;
     trace := trace w |}.

Definition set_hooks (x : gmap string (list Hook)) (w : World) : World :=
  {| cfg_guild := cfg_guild w; cfg_user := cfg_user w;
     cfg_global := cfg_global w; cfg_thread := cfg_thread w;
     cfg_conv := cfg_conv w; hooks := x; rate_limits := rate_limits w;
     bot_guilds := bot_guilds w; bot_users := bot_users w; now := now w;
     uuid4_hex := uuid4_hex w; uuid_count := uuid_count w;
     next_snowflake := next_snowflake w; ext_fail := ext_fail w;
     trace := trace w |}.

Definition set_rate_limits (x : gmap string (list Z)) (w : World) : World :=
  {| cfg_guild := cfg_guild w; cfg_user := cfg_user w;
     cfg_global := cfg_global w; cfg_thread := cfg_thread w;
     cfg_conv := cfg_conv w; hooks := hooks w; rate_limits := x;
     bot_guilds := bot_guilds w; bot_users := bot_users w; now := now w;
     uuid4_hex := uuid4_hex w; uuid_count := uuid_count w;
     next_snowflake := next_snowflake w; ext_fail := ext_fail w;
     trace := trace w |}.

Definition set_bot_guilds (x : list Guild) (w : World) : World :=
  {| cfg_guild := cfg_guild w; cfg_user := cfg_user w;
     cfg_global := cfg_global w; cfg_thread := cfg_thread w;
     cfg_conv := cfg_conv w; hooks := hooks w; rate_limits := rate_limits w;
     bot_guilds := x; bot_users := bot_users w; now := now w;
     uuid4_hex := uuid4_hex w; uuid_count := uuid_count w;
     next_snowflake := next_snowflake w; ext_fail := ext_fail w;
     trace := trace w |}.

Definition set_now (x : Z) (w : World) : World :=
  {| cfg_guild := cfg_guild w; cfg_user := cfg_user w;
     cfg_global := cfg_global w; cfg_thread := cfg_thread w;
     cfg_conv := cfg_conv w; hooks := hooks w; rate_limits := rate_limits w;
     bot_guilds := bot_guilds w; bot_users := bot_users w; now := x;
     uuid4_hex := uuid4_hex w; uuid_count := uuid_count w;
     next_snowflake := next_snowflake w; ext_fail := ext_fail w;
     trace := trace w |}.

Definition set_uuid_count (x : nat) (w : World) : World :=
  {| cfg_guild := cfg_guild w; cfg_user := cfg_user w;
     cfg_global := cfg_global w; cfg_thread := cfg_thread w;
     cfg_conv := cfg_conv w; hooks := hooks w; rate_limits := rate_limits w;
     bot_guilds := bot_guilds w; bot_users := bot_users w; now := now w;
     uuid4_hex := uuid4_hex w; uuid_count := x;
     next_snowflake := next_snowflake w; ext_fail := ext_fail w;
     trace := trace w |}.

Definition set_next_snowflake (x : Z) (w : World) : World :=
  {| cfg_guild := cfg_guild w; cfg_user := cfg_user w;
     cfg_global := cfg_global w; cfg_thread := cfg_thread w;
     cfg_conv := cfg_conv w; hooks := hooks w; rate_limits := rate_limits w;
     bot_guilds := bot_guilds w; bot_users := bot_users w; now := now w;
     uuid4_hex := uuid4_hex w; uuid_count := uuid_count w;
     next_snowflake := x; ext_fail := ext_fail w; trace := trace w |}.

Definition set_trace (x : list Event) (w : World) : World :=
  {| cfg_guild := cfg_guild w; cfg_user := cfg_user w;
     cfg_global := cfg_global w; cfg_thread := cfg_thread w;
     cfg_conv := cfg_conv w; hooks := hooks w; rate_limits := rate_limits w;
     bot_guilds := bot_guilds w; bot_users := bot_users w; now := now w;
     uuid4_hex := uuid4_hex w; uuid_count := uuid_count w;
     next_snowflake := next_snowflake w; ext_fail := ext_fail w;
     trace := x |}.

(** Appends effects to the trace. *)
Definition emit_all (evs : list Event) (w : World) : World :=
  set_trace (trace w ++ evs) w.

(** ** The coroutine monad: state and exceptions *)

Inductive Res (A : Type) : Type :=
| Ok (a : A)
| Raise (e : PyExn).
Arguments Ok {A} a.
Arguments Raise {A} e.

Definition M (A : Type) : Type := World -> Res A * World.

Definition ret {A} (a : A) : M A := fun w => (Ok a, w).

Definition bind {A B} (m : M A) (k : A -> M B) : M B := fun w =>
  match m w with
  | (Ok a, w') => k a w'
  | (Raise e, w') => (Raise e, w')
  end.

Declare Scope py_scope.
Delimit Scope py_scope with py.
Notation "'let*' x ':=' m 'in' k" := (bind m (fun x => k))
  (at level 10, x pattern, m at level 100, k at level 200) : py_scope.
Notation "m1 ';;;' m2" := (bind m1 (fun _ => m2))
  (at level 100, m2 at level 200, right associativity) : py_scope.
Open Scope py_scope.

Definition raise {A} (e : PyExn) : M A := fun w => (Raise e, w).

(** [try: body  except <handles> as e: handler e] *)
Definition try_except {A} (body : M A) (handles : PyExn -> bool)
    (handler : PyExn -> M A) : M A := fun w =>
  match body w with
  | (Ok a, w') => (Ok a, w')
  | (Raise e, w') => if handles e then handler e w' else (Raise e, w')
  end.

(** [except Exception] catches every exception of the model. *)
Definition any_exception (e : PyExn) : bool := true.

Definition gets {A} (f : World -> A) : M A := fun w => (Ok (f w), w).

Definition modify (f : World -> World) : M unit := fun w => (Ok tt, f w).

Definition emit (ev : Event) : M unit := modify (emit_all [ev]).

(** [for x in l: body x] *)
Fixpoint for_each {A} (l : list A) (body : A -> M unit) : M unit :=
  match l with
  | [] => ret tt
  | x :: l' => body x ;;; for_each l' body
  end.

(** A call into Discord or Red: it raises when the environment says so and
    otherwise performs its effect.  [ext_fail] is fixed for the run and
    keyed by the call alone: a call that goes through once goes through
    each time, whatever the payload and whatever the run did in between.
    Runs in which Discord changes its answer (a send that follows the
    deletion of its channel is answered with [NotFound]) are outside the
    model. *)
Definition ext_call (c : ExtCall) (ev : Event) : M unit := fun w =>
  match ext_fail w c with
  | Some e => (Raise e, w)
  | None => (Ok tt, emit_all [ev] w)
  end.

Definition log (level : LogLevel) (msg : string) (e : option PyExn) : M unit :=
  emit (EvLog level msg e).

(** [datetime.utcnow()] and [discord.utils.utcnow()] *)
Definition utcnow : M Z := gets now.

(** ** Config accessors *)

(** [await self.config.guild_from_id(guild_id).all()] *)
Definition guild_config (guild : Z) (w : World) : GuildConfig :=
  default default_guild (cfg_guild w !! guild).

(** [await self.config.user_from_id(user_id).all()] *)
Definition user_data (user : Z) (w : World) : UserData :=
  default default_user (cfg_user w !! user).

(** [await self.config.custom("Thread", guild_id).all()]: the raw dict of
    the guild's thread documents. *)
Definition all_threads (guild : Z) (w : World) : list (string * ThreadData) :=
  default [] (cfg_thread w !! guild).

(** [d.get(k)] on a dict kept in insertion order. *)
Fixpoint dict_get {V} (k : string) (d : list (string * V)) : option V :=
  match d with
  | [] => None
  | (k', v) :: d' => if String.eqb k k' then Some v else dict_get k d'
  end.

(** [d[k] = v]: replaces the value in place, or appends a new key. *)
Fixpoint dict_set {V} (k : string) (v : V) (d : list (string * V))
    : list (string * V) :=
  match d with
  | [] => [(k, v)]
  | (k', v') :: d' =>
      if String.eqb k k' then (k, v) :: d' else (k', v') :: dict_set k v d'
  end.

(** [await self.config.custom("Thread", guild_id, thread_id).all()] *)
Definition thread_all (guild : Z) (thread_id : string) (w : World)
    : ThreadData :=
  default default_thread (dict_get thread_id (all_threads guild w)).

(** [await self.config.custom("Thread", guild_id, thread_id).set(data)] *)
Definition thread_set (guild : Z) (thread_id : string) (data : ThreadData)
    (w : World) : World :=
  set_cfg_thread
    (<[guild := dict_set thread_id data (all_threads guild w)]> (cfg_thread w))
    w.

(** [self.config.custom("UserConversations", guild_id, user_id)] *)
Definition user_conv (guild user : Z) (w : World) : UserConversations :=
  default default_conv (cfg_conv w !! (guild, user)).

(** [....active_thread.set(value)] *)
Definition set_active_thread (guild user : Z) (value : option Z) (w : World)
    : World :=
  set_cfg_conv
    (<[(guild, user) :=
         {| thread_history := thread_history (user_conv guild user w);
            active_thread := value |}]> (cfg_conv w))
    w.

(** ** Extension system *)

(** [_trigger_hook]: awaiting a hook performs the call, which then returns
    or raises.  The hooks of the world model leave [self.hooks] alone, so
    the loop over the list object is a loop over the list read at entry. *)
Definition await_hook (hook_name : string) (hook : Hook) (args : HookArgs)
    : M unit := fun w =>
  let w' := emit_all [EvHookCall hook_name (hook_owner hook) args] w in
  match hook_call hook args with
  | None => (Ok tt, w')
  | Some e => (Raise e, w')
  end.

Definition _trigger_hook (hook_name : string) (args : HookArgs) : M unit :=
  let* registered := gets (fun w => default [] (hooks w !! hook_name)) in
  for_each registered (fun hook =>
    try_except (await_hook hook_name hook args) any_exception
      (fun e => log LogError ("Error in extension hook " +:+ hook_name)
                    (Some e))).

(** An extension object: [ext_method name] is [getattr(extension,
    "on_" + name)] when [hasattr] holds. *)
Record Extension := {
  ext_method : string -> option (HookArgs -> option PyExn)
}.

(** [register_extension]: for every hook name of [self.hooks] the
    extension has a method for, append the bound method to that list.
    ([self.extensions] itself is read only by [unregister_extension].) *)
Definition register_extension (name : string) (extension : Extension)
    (w : World) : World :=
  set_hooks
    (map_imap (fun hook_name registered =>
       match ext_method extension hook_name with
       | Some f =>
           Some (registered ++ [{| hook_owner := name; hook_call := f |}])
       | None => Some registered
       end) (hooks w))
    (emit_all [EvLog LogInfo ("Registered modmail extension: " +:+ name) None]
       w).

(** The hook table created by [__init__]. *)
Definition initial_hooks : gmap string (list Hook) :=
  {[ "thread_created" := []; "message_processed" := [];
     "thread_closed" := []; "user_blocked" := []; "snippet_used" := [] ]}.

(** ** Rate limiting *)

Definition rate_key (guild user : Z) : string :=
  str_Z guild +:+ ":" +:+ str_Z user.

(** [self.rate_limits[key]] once the key is present. *)
Definition rate_entries (key : string) (w : World) : list Z :=
  default [] (rate_limits w !! key).

Definition _is_rate_limited (user guild : Z) : M bool :=
  let* guild_cfg := gets (guild_config guild) in
  let rate_config := rate_limiting guild_cfg in
  if negb (rl_enabled rate_config) then ret false
  else
    let key := rate_key guild user in
    let* now := utcnow in
    modify (fun w =>
      match rate_limits w !! key with
      | None => set_rate_limits (<[key := []]> (rate_limits w)) w
      | Some _ => w
      end) ;;;
    (* Clean old entries *)
    let cutoff := now - timedelta_seconds (time_window rate_config) in
    modify (fun w =>
      set_rate_limits
        (<[key := List.filter (fun timestamp => cutoff <? timestamp)
                    (rate_entries key w)]> (rate_limits w)) w) ;;;
    (* Check rate limit *)
    let* kept := gets (rate_entries key) in
    if max_messages rate_config <=? Z.of_nat (length kept) then ret true
    else
      (* Add current timestamp *)
      modify (fun w =>
        set_rate_limits
          (<[key := rate_entries key w ++ [now]]> (rate_limits w)) w) ;;;
      ret false.

(** ** The Discord cache and the calls into Discord *)

Definition find_guild (guild : Z) (w : World) : option Guild :=
  List.find (fun g => guild_id g =? guild) (bot_guilds w).

(** [guild.get_channel(id)]; [get_channel(None)] finds nothing. *)
Definition guild_get_channel (guild : Z) (id : option Z) (w : World)
    : option Channel :=
  match id, find_guild guild w with
  | Some c, Some g => List.find (fun ch => channel_id ch =? c) (guild_channels g)
  | _, _ => None
  end.

(** [guild.get_member(id)] *)
Definition guild_get_member (guild : Guild) (id : Z) : option Member :=
  List.find (fun m => member_id m =? id) (guild_members guild).

(** [guild.get_role(id)] *)
Definition guild_get_role (guild : Guild) (id : Z) : option Z :=
  List.find (fun r => r =? id) (guild_roles guild).

(** [self.bot.get_user(id)] *)
Definition bot_get_user (id : Z) (w : World) : option User :=
  List.find (fun u => user_id u =? id) (bot_users w).

(** Rewrites the channel list of one guild of the cache. *)
Definition map_guild_channels (guild : Z) (f : list Channel -> list Channel)
    (w : World) : World :=
  set_bot_guilds
    (List.map (fun g =>
       if guild_id g =? guild then
         {| guild_id := guild_id g; guild_name := guild_name g;
            guild_me := guild_me g; guild_default_role := guild_default_role g;
            guild_roles := guild_roles g; guild_members := guild_members g;
            guild_channels := f (guild_channels g) |}
       else g) (bot_guilds w))
    w.

Definition rename_channel (name : string) (ch : Channel) : Channel :=
  {| channel_id := channel_id ch; channel_guild := channel_guild ch;
     channel_name := name; channel_kind := channel_kind ch;
     channel_category := channel_category ch;
     channel_topic := channel_topic ch;
     channel_overwrites := channel_overwrites ch |}.

(** [d[target] = overwrite] on the overwrites dict. *)
Fixpoint overwrites_set (target : OverwriteTarget) (o : PermissionOverwrite)
    (d : list (OverwriteTarget * PermissionOverwrite))
    : list (OverwriteTarget * PermissionOverwrite) :=
  match d with
  | [] => [(target, o)]
  | (t, o') :: d' =>
      if target_eqb target t then (target, o) :: d'
      else (t, o') :: overwrites_set target o d'
  end.

Definition set_channel_overwrite (target : OverwriteTarget)
    (o : PermissionOverwrite) (ch : Channel) : Channel :=
  {| channel_id := channel_id ch; channel_guild := channel_guild ch;
     channel_name := channel_name ch; channel_kind := channel_kind ch;
     channel_category := channel_category ch;
     channel_topic := channel_topic ch;
     channel_overwrites := overwrites_set target o (channel_overwrites ch) |}.

Definition on_channel (id : Z) (f : Channel -> Channel) (l : list Channel)
    : list Channel :=
  List.map (fun ch => if channel_id ch =? id then f ch else ch) l.

(** [await user.send(...)] *)
Definition user_send (user : Z) (p : Payload) : M unit :=
  ext_call (CallUserSend user) (EvUserSend user p).

(** [await channel.send(...)] *)
Definition channel_send (channel : Z) (p : Payload) : M unit :=
  ext_call (CallChannelSend channel) (EvChannelSend channel p).

(** [await category.create_text_channel(name=..., overwrites=...,
    topic=...)]: Discord allots the id of the new channel. *)
Definition create_text_channel (guild : Z) (category : Channel)
    (name : string) (overwrites : list (OverwriteTarget * PermissionOverwrite))
    (topic : string) : M Channel := fun w =>
  match ext_fail w (CallCreateTextChannel guild) with
  | Some e => (Raise e, w)
  | None =>
      let ch := {| channel_id := next_snowflake w; channel_guild := guild;
                   channel_name := name; channel_kind := TextChannel;
                   channel_category := Some (channel_id category);
                   channel_topic := topic;
                   channel_overwrites := overwrites |} in
      (Ok ch,
       emit_all [EvChannelCreate guild (channel_id ch) name]
         (map_guild_channels guild (fun l => l ++ [ch])
            (set_next_snowflake (next_snowflake w + 1) w)))
  end.

(** [await channel.edit(name=...)] *)
Definition channel_edit (ch : Channel) (name : string) : M unit :=
  ext_call (CallChannelEdit (channel_id ch)) (EvChannelEdit (channel_id ch) name) ;;;
  modify (map_guild_channels (channel_guild ch)
            (on_channel (channel_id ch) (rename_channel name))).

(** [await channel.delete(reason=...)] *)
Definition channel_delete (ch : Channel) (reason : string) : M unit :=
  ext_call (CallChannelDelete (channel_id ch))
    (EvChannelDelete (channel_id ch) reason) ;;;
  modify (map_guild_channels (channel_guild ch)
            (List.filter (fun c => negb (channel_id c =? channel_id ch)))).

(** [await channel.set_permissions(target, overwrite=overwrite)] *)
Definition channel_set_permissions (ch : Channel) (target : OverwriteTarget)
    (o : PermissionOverwrite) : M unit :=
  ext_call (CallSetPermissions (channel_id ch))
    (EvSetPermissions (channel_id ch) target) ;;;
  modify (map_guild_channels (channel_guild ch)
            (on_channel (channel_id ch) (set_channel_overwrite target o))).

(** [await attachment.to_file()]: downloads the file, nothing to see when
    it succeeds. *)
Definition attachment_to_file (att : Attachment) : M unit := fun w =>
  match ext_fail w (CallAttachmentToFile (att_url att)) with
  | Some e => (Raise e, w)
  | None => (Ok tt, w)
  end.

(** [await modlog.create_case(...)] *)
Definition modlog_create_case (guild : Z) (action_type : string)
    (user moderator : option Z) (reason : string) : M unit :=
  ext_call (CallModlogCreateCase guild)
    (EvModlogCase guild action_type user moderator reason).

(** [datetime.fromisoformat(s)]: a [TypeError] unless [s] is a string. *)
Definition fromisoformat (s : option Z) : M Z :=
  match s with
  | Some t => ret t
  | None => raise (TypeError "fromisoformat: argument must be str")
  end.

(** ** Strings of the presentation layer *)

Definition newline : string := String (Ascii.ascii_of_nat 10) EmptyString.

(** [sep.join(l)] *)
Fixpoint str_join (sep : string) (l : list string) : string :=
  match l with
  | [] => EmptyString
  | [s] => s
  | s :: l' => s +:+ sep +:+ str_join sep l'
  end.

Definition ascii_lower (c : Ascii.ascii) : Ascii.ascii :=
  let n := Ascii.nat_of_ascii c in
  if (Nat.leb 65 n && Nat.leb n 90)%bool then Ascii.ascii_of_nat (n + 32) else c.

(** [s.lower()] on ASCII text. *)
Fixpoint str_lower (s : string) : string :=
  match s with
  | EmptyString => EmptyString
  | String c s' => String (ascii_lower c) (str_lower s')
  end.

(** [s.endswith(suffix)] *)
Definition str_endswith (s suffix : string) : bool :=
  let n := String.length s in
  let k := String.length suffix in
  (Nat.leb k n && String.eqb (substring (n - k) k s) suffix)%bool.

(** [url.lower().endswith(('png', 'jpg', 'jpeg', 'gif', 'webp'))] *)
Definition is_image_url (url : string) : bool :=
  existsb (str_endswith (str_lower url)) ["png"; "jpg"; "jpeg"; "gif"; "webp"].

(** [f"<t:{int(dt.timestamp())}:R>"] *)
Definition discord_timestamp (t : Z) : string :=
  "<t:" +:+ str_Z (t / 1000000) +:+ ":R>".

(** ** Message processing *)

Definition _check_user_requirements (user : User) (guild : Guild)
    (config : GuildConfig) : M bool :=
  let requirements := user_requirements config in
  (* Check account age *)
  let min_age := min_account_age requirements in
  let* now1 := utcnow in
  if ((0 <? min_age)
      && (now1 - user_created_at user <? timedelta_seconds min_age))%bool
  then ret false
  else
    (* Check server membership if required *)
    if require_server_member requirements then
      match guild_get_member guild (user_id user) with
      | None => ret false
      | Some member =>
          (* Check server join age *)
          let min_server_age := min_server_age requirements in
          let* now2 := utcnow in
          if ((0 <? min_server_age)
              && (now2 - member_joined_at member
                  <? timedelta_seconds min_server_age))%bool
          then ret false
          else ret true
      end
    else ret true.

Definition _is_user_blocked (user : Z) (guild : option Z) : M bool :=
  (* Check global blocks *)
  let* global_blocks := gets (fun w => globally_blocked_users (cfg_global w)) in
  if bool_decide (str_Z user ∈ global_blocks) then ret true
  else
    (* Check user-specific block *)
    let* data := gets (user_data user) in
    if blocked data then ret true
    else
      (* Check guild-specific blocks *)
      match guild with
      | Some g =>
          if truthy_id guild then
            let* guild_blocks := gets (fun w => blocked_users (guild_config g w)) in
            if existsb (Z.eqb user) guild_blocks then ret true else ret false
          else ret false
      | None => ret false
      end.

(** [uuid.uuid4().hex]: the next value of the generator. *)
Definition uuid4 : M string := fun w =>
  (Ok (uuid4_hex w (uuid_count w)), set_uuid_count (S (uuid_count w)) w).

Definition _get_thread_id (user guild : Z) : M string :=
  let* hex := uuid4 in
  ret (str_Z user +:+ "-" +:+ str_Z guild +:+ "-" +:+ substring 0 8 hex).

Definition allow : option bool := Some true.
Definition deny : option bool := Some false.

(** The dict built under [# Initialize thread data]; it has six keys, the
    other fields show the registered defaults. *)
Definition new_thread_data (user channel guild created_at : Z) : ThreadData :=
  {| td_user_id := Some user;
     td_channel_id := Some channel;
     td_guild_id := Some guild;
     td_created_at := Some created_at;
     td_closed_at := td_closed_at default_thread;
     td_status := st_open;
     td_priority := td_priority default_thread;
     td_category := td_category default_thread;
     td_staff_assigned := td_staff_assigned default_thread;
     td_participants := [user];
     td_message_count := td_message_count default_thread;
     td_close_reason := td_close_reason default_thread;
     td_closed_by := td_closed_by default_thread;
     td_escalated := td_escalated default_thread;
     td_tags := td_tags default_thread;
     td_notes := td_notes default_thread |}.

Definition set_total_threads_created (n : Z) (w : World) : World :=
  set_cfg_global
    {| globally_blocked_users := globally_blocked_users (cfg_global w);
       total_threads_created := n |} w.

Definition _create_new_thread (user : User) (guild : Guild)
    (thread_id : string) : M (option Channel) :=
  let gid := guild_id guild in
  let* config := gets (guild_config gid) in
  let category_id := category_id config in
  if negb (truthy_id category_id) then
    log LogError ("No modmail category set for guild " +:+ str_Z gid) None ;;;
    ret None
  else
    let* category := gets (guild_get_channel gid category_id) in
    match category with
    | Some cat =>
        match channel_kind cat with
        | CategoryChannel =>
            (* Create channel *)
            let channel_name :=
              "modmail-" +:+ user_name user +:+ "-" +:+ user_discriminator user in
            try_except
              (let overwrites :=
                 overwrites_set (TargetMember (member_id (guild_me guild)))
                   {| read_messages := allow; send_messages := allow;
                      manage_messages := allow |}
                   (overwrites_set (TargetRole (guild_default_role guild))
                      {| read_messages := deny; send_messages := None;
                         manage_messages := None |} []) in
               (* Add staff role permissions *)
               let overwrites :=
                 fold_left (fun ov role_id =>
                   match guild_get_role guild role_id with
                   | Some role =>
                       overwrites_set (TargetRole role)
                         {| read_messages := allow; send_messages := allow;
                            manage_messages := None |} ov
                   | None => ov
                   end) (staff_roles config) overwrites in
               let* channel :=
                 create_text_channel gid cat channel_name overwrites
                   ("Modmail thread for " +:+ str_user user +:+ " (ID: "
                    +:+ str_Z (user_id user) +:+ ")") in
               (* Initialize thread data *)
               let* created := utcnow in
               let thread_data :=
                 new_thread_data (user_id user) (channel_id channel) gid created in
               modify (thread_set gid thread_id thread_data) ;;;
               modify (set_active_thread gid (user_id user)
                         (Some (channel_id channel))) ;;;
               (* Update global counter *)
               let* total := gets (fun w => total_threads_created (cfg_global w)) in
               modify (set_total_threads_created (total + 1)) ;;;
               (* Trigger extension hook *)
               _trigger_hook "thread_created" (ArgsThreadCreated thread_data) ;;;
               ret (Some channel))
              any_exception
              (fun e =>
                 if is_Forbidden e then
                   log LogError
                     ("No permission to create modmail channel in guild "
                      +:+ str_Z gid) None ;;;
                   ret None
                 else
                   log LogException "Error creating modmail channel" (Some e) ;;;
                   ret None)
        | _ =>
            log LogError ("Invalid modmail category for guild " +:+ str_Z gid)
              None ;;;
            ret None
        end
    | None =>
        log LogError ("Invalid modmail category for guild " +:+ str_Z gid) None ;;;
        ret None
    end.

Definition _get_or_create_thread (user : User) (guild : Guild)
    : M (option Channel) :=
  let gid := guild_id guild in
  let* thread_id := _get_thread_id (user_id user) gid in
  (* Check for existing active thread *)
  let* existing_thread :=
    gets (fun w => active_thread (user_conv gid (user_id user) w)) in
  let* channel :=
    if truthy_id existing_thread
    then gets (guild_get_channel gid existing_thread)
    else ret None in
  match channel with
  | Some ch => ret (Some ch)
  | None =>
      (* Create new thread *)
      _create_new_thread user guild thread_id
  end.

Definition empty_embed : Embed :=
  {| emb_title := EmptyString; emb_description := EmptyString; emb_author := EmptyString;
     emb_fields := []; emb_footer := EmptyString; emb_image := EmptyString |}.

(** [embed.add_field(name=..., value=...)] *)
Definition add_field (name value : string) (e : Embed) : Embed :=
  {| emb_title := emb_title e; emb_description := emb_description e;
     emb_author := emb_author e;
     emb_fields := emb_fields e ++ [(name, value)];
     emb_footer := emb_footer e; emb_image := emb_image e |}.

(** [embed.set_footer(text=...)] *)
Definition set_footer (text : string) (e : Embed) : Embed :=
  {| emb_title := emb_title e; emb_description := emb_description e;
     emb_author := emb_author e; emb_fields := emb_fields e;
     emb_footer := text; emb_image := emb_image e |}.

(** [embed.set_image(url=...)] *)
Definition set_image (url : string) (e : Embed) : Embed :=
  {| emb_title := emb_title e; emb_description := emb_description e;
     emb_author := emb_author e; emb_fields := emb_fields e;
     emb_footer := emb_footer e; emb_image := url |}.

Definition role_mention (role : Z) : string := "<@&" +:+ str_Z role +:+ ">".
Definition user_mention (user : Z) : string := "<@" +:+ str_Z user +:+ ">".

Definition _create_user_info_embed (user : User) (guild : Guild) : M Embed :=
  let embed :=
    {| emb_title := "User Information"; emb_description := EmptyString;
       emb_author := EmptyString; emb_fields := []; emb_footer := EmptyString;
       emb_image := EmptyString |} in
  (* Basic info *)
  let embed :=
    add_field "User" (str_user user +:+ " (" +:+ str_Z (user_id user) +:+ ")")
      embed in
  let embed :=
    add_field "Account Created" (discord_timestamp (user_created_at user))
      embed in
  (* Server member info *)
  let embed :=
    match guild_get_member guild (user_id user) with
    | Some member =>
        let embed :=
          add_field "Joined Server"
            (discord_timestamp (member_joined_at member)) embed in
        match tail (member_roles member) with
        | [] => embed
        | others =>
            let roles := str_join ", " (List.map role_mention (firstn 5 others)) in
            let roles :=
              if (6 <? length (member_roles member))%nat then
                roles +:+ " (+"
                +:+ str_Z (Z.of_nat (length (member_roles member)) - 6)
                +:+ " more)"
              else roles in
            add_field "Roles" roles embed
        end
    | None => add_field "Server Member" "No" embed
    end in
  (* Modmail history *)
  let* data := gets (user_data (user_id user)) in
  let embed :=
    add_field "Previous Threads" (str_Z (total_threads data)) embed in
  match last_thread_at data with
  | Some last_thread =>
      ret (add_field "Last Thread" (discord_timestamp last_thread) embed)
  | None => ret embed
  end.

Definition _forward_message_to_thread (message : Message)
    (thread_channel : Channel) (user_embed : option Embed) : M unit :=
  (* Send user info embed for new threads *)
  match user_embed with
  | Some e => channel_send (channel_id thread_channel) (PEmbed e)
  | None => ret tt
  end ;;;
  (* Create message embed *)
  let embed :=
    {| emb_title := EmptyString; emb_description := msg_content message;
       emb_author := str_user (msg_author message); emb_fields := [];
       emb_footer := EmptyString; emb_image := EmptyString |} in
  let embed :=
    match msg_attachments message with
    | [] => embed
    | [att] =>
        if is_image_url (att_url att) then set_image (att_url att) embed
        else
          add_field "Attachments"
            ("[" +:+ att_filename att +:+ "](" +:+ att_url att +:+ ")") embed
    | atts =>
        add_field "Attachments"
          (str_join newline
             (List.map (fun att =>
                "[" +:+ att_filename att +:+ "](" +:+ att_url att +:+ ")") atts))
          embed
    end in
  channel_send (channel_id thread_channel) (PEmbed embed) ;;;
  (* Forward attachments if they're not images *)
  for_each (msg_attachments message) (fun attachment =>
    if negb (is_image_url (att_url attachment)) then
      try_except
        (attachment_to_file attachment ;;;
         channel_send (channel_id thread_channel)
           (PFile (att_filename attachment)))
        is_HTTPException (fun _ => ret tt)
    else ret tt).

Definition _send_auto_response (user : User) (guild : Guild) : M unit :=
  let* config := gets (fun w => auto_response (guild_config (guild_id guild) w)) in
  if negb (ar_enabled config) then ret tt
  else
    let message := ar_message config in
    if ar_embed_enabled config then
      let embed :=
        {| emb_title := ar_embed_title config; emb_description := message;
           emb_author := EmptyString; emb_fields := []; emb_footer := EmptyString;
           emb_image := EmptyString |} in
      let embed :=
        if negb (String.eqb (ar_embed_footer config) EmptyString)
        then set_footer (ar_embed_footer config) embed
        else embed in
      user_send (user_id user) (PEmbed embed)
    else user_send (user_id user) (PText message).

(** [_update_thread_data]: [updates] is the dict merged into the stored
    document, here the function that overwrites its keys. *)
Definition _update_thread_data (thread_id : string) (guild : Z)
    (updates : ThreadData -> ThreadData) : M unit :=
  modify (fun w => thread_set guild thread_id (updates (thread_all guild thread_id w)) w).

Definition _log_thread_created (user : User) (guild : Guild)
    (channel : Channel) : M unit :=
  try_except
    (modlog_create_case (guild_id guild) "modmail_thread_created"
       (Some (user_id user)) None
       ("Modmail thread created in <#" +:+ str_Z (channel_id channel) +:+ ">"))
    any_exception
    (fun e => log LogError "Failed to log thread creation" (Some e)).

(** [{"message_count": n}] as an update. *)
Definition with_message_count (n : Z) (d : ThreadData) : ThreadData :=
  {| td_user_id := td_user_id d; td_channel_id := td_channel_id d;
     td_guild_id := td_guild_id d; td_created_at := td_created_at d;
     td_closed_at := td_closed_at d; td_status := td_status d;
     td_priority := td_priority d; td_category := td_category d;
     td_staff_assigned := td_staff_assigned d;
     td_participants := td_participants d; td_message_count := n;
     td_close_reason := td_close_reason d; td_closed_by := td_closed_by d;
     td_escalated := td_escalated d; td_tags := td_tags d;
     td_notes := td_notes d |}.

(** [_process_modmail_message] returns [None] on both of its paths; the
    embedding returns the thread id it worked with, or [None] when no
    channel could be had. *)
Definition _process_modmail_message (message : Message) (guild : Guild)
    : M (option string) :=
  let author := msg_author message in
  let gid := guild_id guild in
  (* Get or create thread *)
  let* thread_channel := _get_or_create_thread author guild in
  match thread_channel with
  | None =>
      user_send (user_id author)
        (PText "Unable to create modmail thread. Please contact an administrator.") ;;;
      ret None
  | Some thread_channel =>
      (* Get thread data *)
      let* thread_id := _get_thread_id (user_id author) gid in
      let* thread_data := gets (thread_all gid thread_id) in
      (* Create user info embed *)
      let* user_embed := _create_user_info_embed author guild in
      (* Forward message to thread *)
      _forward_message_to_thread message thread_channel (Some user_embed) ;;;
      (* Update thread data *)
      _update_thread_data thread_id gid
        (with_message_count (td_message_count thread_data + 1)) ;;;
      (* Send auto-response if this is the first message *)
      (if td_message_count thread_data =? 0
       then _send_auto_response author guild
       else ret tt) ;;;
      (* Trigger extension hooks *)
      let message_data :=
        {| md_thread_id := thread_id; md_user_id := user_id author;
           md_guild_id := gid; md_content := msg_content message;
           md_attachments := List.map att_url (msg_attachments message);
           md_timestamp := msg_created_at message |} in
      _trigger_hook "message_processed" (ArgsMessageProcessed message_data) ;;;
      (* Log to modlog if first message in thread *)
      (if td_message_count thread_data =? 0
       then _log_thread_created author guild thread_channel
       else ret tt) ;;;
      ret (Some thread_id)
  end.

(** Where [on_message_without_command] returned.  Python returns [None]
    at each of these points; the names are those of the routing outcomes:
    the message is not a DM of a human ([Ignored]), no guild is eligible
    ([NoTarget]), the author is blocked ([Blocked]), over the rate limit
    ([RateLimited]), the message went through ([Delivered]), no thread
    channel could be provided ([NoThread]) or processing raised
    ([DeliveryFailed]). *)
Inductive RouteResult : Type :=
| Ignored
| NoTarget
| Blocked
| RateLimited (cooldown : string)
| Delivered (thread_id : string)
| NoThread
| DeliveryFailed (e : PyExn).

(** [[x for x in l if await keep x]] *)
Fixpoint filter_m {A} (keep : A -> M bool) (l : list A) : M (list A) :=
  match l with
  | [] => ret []
  | x :: l' =>
      let* b := keep x in
      let* rest := filter_m keep l' in
      ret (if b then x :: rest else rest)
  end.

(** The loop of [on_message_without_command] that collects
    [eligible_guilds]. *)
Definition find_eligible_guilds (author : User) : M (list Guild) :=
  let* guilds := gets bot_guilds in
  filter_m (fun guild =>
    let* config := gets (guild_config (guild_id guild)) in
    if negb (enabled config) then ret false
    else
      (* Check if user meets requirements *)
      _check_user_requirements author guild config) guilds.

Definition on_message_without_command (message : Message) : M RouteResult :=
  let author := msg_author message in
  (* Only process DMs from non-bots *)
  match msg_channel_kind message with
  | DMChannel =>
      if user_bot author then ret Ignored
      else
        (* Find all guilds where modmail is enabled and user has access *)
        let* eligible_guilds := find_eligible_guilds author in
        match eligible_guilds with
        | [] => ret NoTarget
        | target_guild :: _ =>
            let gid := guild_id target_guild in
            (* Check blocks and rate limits *)
            let* is_blocked := _is_user_blocked (user_id author) (Some gid) in
            if is_blocked then ret Blocked
            else
              let* limited := _is_rate_limited (user_id author) gid in
              if limited then
                let* rate_config :=
                  gets (fun w => rate_limiting (guild_config gid w)) in
                user_send (user_id author)
                  (PText (cooldown_message rate_config)) ;;;
                ret (RateLimited (cooldown_message rate_config))
              else
                (* Process the modmail *)
                try_except
                  (let* r := _process_modmail_message message target_guild in
                   ret match r with
                       | Some thread_id => Delivered thread_id
                       | None => NoThread
                       end)
                  any_exception
                  (fun e =>
                     log LogException
                       ("Error processing modmail from "
                        +:+ str_Z (user_id author)) (Some e) ;;;
                     user_send (user_id author)
                       (PText "An error occurred while processing your message. Please try again later.") ;;;
                     ret (DeliveryFailed e))
        end
  | _ => ret Ignored
  end.

(** ** Closing threads *)

Definition _is_modmail_channel (channel : Channel) : bool :=
  String.prefix "modmail-" (channel_name channel).

(** [data.get("channel_id") == channel.id] *)
Definition has_channel (channel : Z) (data : ThreadData) : bool :=
  match td_channel_id data with
  | Some c => c =? channel
  | None => false
  end.

Definition _get_thread_data_from_channel (channel : Channel)
    : M (option ThreadData) :=
  (* Search through all threads for this channel *)
  let* threads := gets (all_threads (channel_guild channel)) in
  ret (option_map snd
         (List.find (fun '(_, data) => has_channel (channel_id channel) data)
            threads)).

(** The [updates] dict of [_close_thread]. *)
Definition close_updates (closed_at : Z) (reason : option string)
    (closer : Z) (d : ThreadData) : ThreadData :=
  {| td_user_id := td_user_id d; td_channel_id := td_channel_id d;
     td_guild_id := td_guild_id d; td_created_at := td_created_at d;
     td_closed_at := Some closed_at; td_status := st_closed;
     td_priority := td_priority d; td_category := td_category d;
     td_staff_assigned := td_staff_assigned d;
     td_participants := td_participants d;
     td_message_count := td_message_count d;
     td_close_reason := reason; td_closed_by := Some closer;
     td_escalated := td_escalated d; td_tags := td_tags d;
     td_notes := td_notes d |}.

(** The two assignments on the caller's dict before [thread_closed]. *)
Definition note_closer (reason : option string) (closer : Z)
    (d : ThreadData) : ThreadData :=
  {| td_user_id := td_user_id d; td_channel_id := td_channel_id d;
     td_guild_id := td_guild_id d; td_created_at := td_created_at d;
     td_closed_at := td_closed_at d; td_status := td_status d;
     td_priority := td_priority d; td_category := td_category d;
     td_staff_assigned := td_staff_assigned d;
     td_participants := td_participants d;
     td_message_count := td_message_count d;
     td_close_reason := reason; td_closed_by := Some closer;
     td_escalated := td_escalated d; td_tags := td_tags d;
     td_notes := td_notes d |}.

Definition with_send_messages (v : option bool) (o : PermissionOverwrite)
    : PermissionOverwrite :=
  {| read_messages := read_messages o; send_messages := v;
     manage_messages := manage_messages o |}.

(** [reason or "No reason provided"] *)
Definition reason_or_default (reason : option string) : string :=
  match reason with
  | Some r => if String.eqb r EmptyString then "No reason provided" else r
  | None => "No reason provided"
  end.

Definition _close_thread (channel : Channel) (closer : Member)
    (reason : option string) (thread_data : ThreadData) : M unit :=
  let gid := channel_guild channel in
  let cid := channel_id channel in
  try_except
    ((* Update thread data *)
     let* threads := gets (all_threads gid) in
     let thread_id :=
       option_map fst
         (List.find (fun '(_, data) => has_channel cid data) threads) in
     match thread_id with
     | Some t_id =>
         if negb (String.eqb t_id EmptyString) then
           let* closed_at := utcnow in
           _update_thread_data t_id gid
             (close_updates closed_at reason (member_id closer))
         else ret tt
     | None => ret tt
     end ;;;
     (* Notify user if configured *)
     let* config := gets (fun w => thread_settings (guild_config gid w)) in
     (if (notify_user_on_close config && truthy_id (td_user_id thread_data))%bool
      then
        let* user :=
          gets (fun w =>
            match td_user_id thread_data with
            | Some u => bot_get_user u w
            | None => None
            end) in
        match user with
        | Some user =>
            let* guild := gets (find_guild gid) in
            let embed :=
              {| emb_title := "Thread Closed";
                 emb_description :=
                   "Your modmail thread in **"
                   +:+ match guild with Some g => guild_name g | None => EmptyString end
                   +:+ "** has been closed.";
                 emb_author := EmptyString; emb_fields := []; emb_footer := EmptyString;
                 emb_image := EmptyString |} in
            let embed :=
              if truthy_str reason
              then add_field "Reason" (default EmptyString reason) embed
              else embed in
            let embed := add_field "Closed by" (member_str closer) embed in
            let embed := set_footer "Thank you for contacting us!" embed in
            try_except (user_send (user_id user) (PEmbed embed))
              is_Forbidden (fun _ => ret tt)
        | None => ret tt
        end
      else ret tt) ;;;
     (* Send close message in channel *)
     let embed :=
       {| emb_title := "Thread Closed";
          emb_description :=
            "This thread has been closed by "
            +:+ user_mention (member_id closer) +:+ ".";
          emb_author := EmptyString; emb_fields := []; emb_footer := EmptyString;
          emb_image := EmptyString |} in
     let embed :=
       if truthy_str reason
       then add_field "Reason" (default EmptyString reason) embed
       else embed in
     channel_send cid (PEmbed embed) ;;;
     (* Clear active thread for user *)
     match td_user_id thread_data with
     | Some u =>
         if truthy_id (td_user_id thread_data)
         then modify (set_active_thread gid u None)
         else ret tt
     | None => ret tt
     end ;;;
     (* Delete channel if configured *)
     (if delete_on_close config then
        emit (EvSleep 5) ;;;
        channel_delete channel
          ("Modmail thread closed by " +:+ member_str closer)
      else
        (* Archive the channel *)
        channel_edit channel ("closed-" +:+ channel_name channel) ;;;
        (* Remove send permissions for staff *)
        for_each (channel_overwrites channel) (fun '(target, overwrite) =>
          match target with
          | TargetRole _ =>
              channel_set_permissions channel target
                (with_send_messages deny overwrite)
          | TargetMember _ => ret tt
          end)) ;;;
     (* Log to modlog *)
     let* case_user :=
       gets (fun w =>
         match td_user_id thread_data with
         | Some u =>
             if truthy_id (td_user_id thread_data)
             then option_map user_id (bot_get_user u w)
             else None
         | None => None
         end) in
     modlog_create_case gid "modmail_thread_closed" case_user
       (Some (member_id closer)) (reason_or_default reason) ;;;
     (* Trigger extension hooks *)
     let thread_data := note_closer reason (member_id closer) thread_data in
     _trigger_hook "thread_closed" (ArgsThreadClosed thread_data reason))
    any_exception
    (fun e =>
       log LogException "Error closing thread" (Some e) ;;;
       channel_send cid (PText "An error occurred while closing the thread.")).

(** The command context of [modmail close]. *)
Record Context := {
  ctx_channel : Channel;
  ctx_guild : Guild;
  ctx_author : Member
}.

(** What [wait_for("reaction_add", ...)] brings within 30 seconds. *)
Inductive Reaction : Type := ReactConfirm | ReactCancel | ReactTimeout.

(** Where [modmail_close] returned.  [ReasonRequired] is the refusal of a
    close without the reason the guild requires. *)
Inductive CloseResult : Type :=
| NotModmailChannel
| NoThreadData
| ReasonRequired
| CloseCancelled
| CloseTimedOut
| CloseDone.

Definition modmail_close (ctx : Context) (reason : option string)
    (reaction : Reaction) : M CloseResult :=
  let cid := channel_id (ctx_channel ctx) in
  if negb (_is_modmail_channel (ctx_channel ctx)) then
    channel_send cid (PText "This command can only be used in modmail threads.") ;;;
    ret NotModmailChannel
  else
    (* Get thread data *)
    let* thread_data := _get_thread_data_from_channel (ctx_channel ctx) in
    match thread_data with
    | None =>
        channel_send cid (PText "Could not find thread data.") ;;;
        ret NoThreadData
    | Some thread_data =>
        let* config :=
          gets (fun w => thread_settings (guild_config (guild_id (ctx_guild ctx)) w)) in
        (* Require reason if configured *)
        if (require_close_reason config && negb (truthy_str reason))%bool then
          channel_send cid (PText "Please provide a reason for closing this thread.") ;;;
          ret ReasonRequired
        else
          (* Confirmation if configured *)
          let* refused :=
            if close_confirmation config then
              let embed :=
                {| emb_title := "Close Thread?";
                   emb_description :=
                     "Are you sure you want to close this modmail thread?"
                     +:+ newline +:+ newline +:+ "**Reason:** "
                     +:+ reason_or_default reason;
                   emb_author := EmptyString; emb_fields := []; emb_footer := EmptyString;
                   emb_image := EmptyString |} in
              channel_send cid (PEmbed embed) ;;;
              ext_call (CallAddReaction cid) (EvAddReaction cid "white_check_mark") ;;;
              ext_call (CallAddReaction cid) (EvAddReaction cid "x") ;;;
              match reaction with
              | ReactConfirm => ret None
              | ReactCancel =>
                  channel_send cid (PText "Thread close cancelled.") ;;;
                  ret (Some CloseCancelled)
              | ReactTimeout =>
                  channel_send cid (PText "Thread close cancelled (timed out).") ;;;
                  ret (Some CloseTimedOut)
              end
            else ret None in
          match refused with
          | Some r => ret r
          | None =>
              (* Close the thread *)
              _close_thread (ctx_channel ctx) (ctx_author ctx) reason
                thread_data ;;;
              ret CloseDone
          end
    end.

(** ** Background tasks *)

(** The reason the sweep closes with. *)
Definition auto_close_reason : string := "Auto-closed due to inactivity".

(** The body of the inner loop of [_auto_close_threads], for one thread
    document of the guild. *)
Definition auto_close_thread (guild : Guild) (cutoff_time : Z)
    (item : string * ThreadData) : M unit :=
  let '(thread_id, thread_data) := item in
  if negb (status_eqb (td_status thread_data) st_open) then ret tt
  else
    (* Check last activity (simplified - could track actual last message) *)
    let* created_at := fromisoformat (td_created_at thread_data) in
    if created_at <? cutoff_time then
      let* channel :=
        gets (guild_get_channel (guild_id guild) (td_channel_id thread_data)) in
      match channel with
      | Some channel =>
          (* Close the thread *)
          _close_thread channel (guild_me guild) (Some auto_close_reason)
            thread_data
      | None => ret tt
      end
    else ret tt.

(** The body of the outer loop of [_auto_close_threads], for one guild. *)
Definition auto_close_guild (guild : Guild) : M unit :=
  let gid := guild_id guild in
  let* config := gets (guild_config gid) in
  if negb (enabled config) then ret tt
  else
    let auto_close_time := auto_close_after (thread_settings config) in
    if auto_close_time <=? 0 then ret tt
    else
      (* Find threads to close *)
      let* threads := gets (all_threads gid) in
      let* now0 := utcnow in
      let cutoff_time := now0 - timedelta_seconds auto_close_time in
      for_each threads (auto_close_thread guild cutoff_time).

Definition _auto_close_threads : M unit :=
  let* guilds := gets bot_guilds in
  for_each guilds auto_close_guild.

Definition _cleanup_old_data : M unit := ret tt.

Definition cleanup_task : M unit :=
  try_except (_auto_close_threads ;;; _cleanup_old_data) any_exception
    (fun e => log LogException "Error in cleanup task" (Some e)).
(** ** Maintenance of the rate limiter *)

(** [timedelta(minutes=m)], in microseconds. *)
Definition timedelta_minutes (m : Z) : Z := timedelta_seconds (m * 60).

(** [rate_limit_cleanup], the task that runs every five minutes.  Its
    first loop visits the entries of [self.rate_limits], writes back the
    timestamps of the last ten minutes and notes the keys it leaves empty;
    its second loop deletes those keys.  (The entries are visited in the
    order of the map; no step reads what another step wrote.) *)
Definition rate_limit_cleanup : M unit :=
  let* now := utcnow in
  let cutoff := now - timedelta_minutes 10 in
  let* entries := gets (fun w => map_to_list (rate_limits w)) in
  let* emptied :=
    filter_m (fun '(key, timestamps) =>
      (* Filter out old timestamps *)
      modify (fun w =>
        set_rate_limits
          (<[key := List.filter (fun ts => cutoff <? ts) timestamps]>
             (rate_limits w)) w) ;;;
      (* Remove empty entries *)
      let* kept := gets (rate_entries key) in
      ret match kept with
          | [] => true
          | _ => false
          end) entries in
  let keys_to_remove := List.map fst emptied in
  for_each keys_to_remove (fun key =>
    modify (fun w => set_rate_limits (delete key (rate_limits w)) w)).

(** ** Writing the guild and user settings *)

Definition set_cfg_guild (x : gmap Z GuildConfig) (w : World) : World :=
  {| cfg_guild := x; cfg_user := cfg_user w; cfg_global := cfg_global w;
     cfg_thread := cfg_thread w; cfg_conv := cfg_conv w; hooks := hooks w;
     rate_limits := rate_limits w; bot_guilds := bot_guilds w;
     bot_users := bot_users w; now := now w; uuid4_hex := uuid4_hex w;
     uuid_count := uuid_count w; next_snowflake := next_snowflake w;
     ext_fail := ext_fail w; trace := trace w |}.

Definition set_cfg_user (x : gmap Z UserData) (w : World) : World :=
  {| cfg_guild := cfg_guild w; cfg_user := x; cfg_global := cfg_global w;
     cfg_thread := cfg_thread w; cfg_conv := cfg_conv w; hooks := hooks w;
     rate_limits := rate_limits w; bot_guilds := bot_guilds w;
     bot_users := bot_users w; now := now w; uuid4_hex := uuid4_hex w;
     uuid_count := uuid_count w; next_snowflake := next_snowflake w;
     ext_fail := ext_fail w; trace := trace w |}.

(** [await self.config.guild(guild).<key>.set(value)]: [update] overwrites
    the key in the document of the guild. *)
Definition guild_set (guild : Z) (update : GuildConfig -> GuildConfig)
    (w : World) : World :=
  set_cfg_guild (<[guild := update (guild_config guild w)]> (cfg_guild w)) w.

(** [await self.config.user(user).<key>.set(value)], and [.clear()], which
    puts the registered default back. *)
Definition user_set (user : Z) (update : UserData -> UserData) (w : World)
    : World :=
  set_cfg_user (<[user := update (user_data user w)]> (cfg_user w)) w.

Definition with_enabled (v : bool) (c : GuildConfig) : GuildConfig :=
  {| enabled := v; category_id := category_id c;
     log_channel_id := log_channel_id c; staff_roles := staff_roles c;
     blocked_users := blocked_users c; auto_response := auto_response c;
     thread_settings := thread_settings c;
     user_requirements := user_requirements c;
     rate_limiting := rate_limiting c; anonymous_staff := anonymous_staff c;
     show_user_info := show_user_info c |}.

Definition with_category_id (v : option Z) (c : GuildConfig) : GuildConfig :=
  {| enabled := enabled c; category_id := v;
     log_channel_id := log_channel_id c; staff_roles := staff_roles c;
     blocked_users := blocked_users c; auto_response := auto_response c;
     thread_settings := thread_settings c;
     user_requirements := user_requirements c;
     rate_limiting := rate_limiting c; anonymous_staff := anonymous_staff c;
     show_user_info := show_user_info c |}.

Definition with_staff_roles (v : list Z) (c : GuildConfig) : GuildConfig :=
  {| enabled := enabled c; category_id := category_id c;
     log_channel_id := log_channel_id c; staff_roles := v;
     blocked_users := blocked_users c; auto_response := auto_response c;
     thread_settings := thread_settings c;
     user_requirements := user_requirements c;
     rate_limiting := rate_limiting c; anonymous_staff := anonymous_staff c;
     show_user_info := show_user_info c |}.

Definition with_blocked_users (v : list Z) (c : GuildConfig) : GuildConfig :=
  {| enabled := enabled c; category_id := category_id c;
     log_channel_id := log_channel_id c; staff_roles := staff_roles c;
     blocked_users := v; auto_response := auto_response c;
     thread_settings := thread_settings c;
     user_requirements := user_requirements c;
     rate_limiting := rate_limiting c; anonymous_staff := anonymous_staff c;
     show_user_info := show_user_info c |}.

Definition with_auto_close_after (v : Z) (c : GuildConfig) : GuildConfig :=
  {| enabled := enabled c; category_id := category_id c;
     log_channel_id := log_channel_id c; staff_roles := staff_roles c;
     blocked_users := blocked_users c; auto_response := auto_response c;
     thread_settings :=
       {| auto_close_after := v;
          require_close_reason := require_close_reason (thread_settings c);
          notify_user_on_close := notify_user_on_close (thread_settings c);
          delete_on_close := delete_on_close (thread_settings c);
          close_confirmation := close_confirmation (thread_settings c) |};
     user_requirements := user_requirements c;
     rate_limiting := rate_limiting c; anonymous_staff := anonymous_staff c;
     show_user_info := show_user_info c |}.

Definition with_blocked (v : bool) (d : UserData) : UserData :=
  {| blocked := v; block_reason := block_reason d;
     blocked_at := blocked_at d; blocked_by := blocked_by d;
     total_threads := total_threads d; last_thread_at := last_thread_at d;
     user_notes := user_notes d |}.

Definition with_block_reason (v : option string) (d : UserData) : UserData :=
  {| blocked := blocked d; block_reason := v;
     blocked_at := blocked_at d; blocked_by := blocked_by d;
     total_threads := total_threads d; last_thread_at := last_thread_at d;
     user_notes := user_notes d |}.

Definition with_blocked_at (v : option Z) (d : UserData) : UserData :=
  {| blocked := blocked d; block_reason := block_reason d;
     blocked_at := v; blocked_by := blocked_by d;
     total_threads := total_threads d; last_thread_at := last_thread_at d;
     user_notes := user_notes d |}.

Definition with_blocked_by (v : option Z) (d : UserData) : UserData :=
  {| blocked := blocked d; block_reason := block_reason d;
     blocked_at := blocked_at d; blocked_by := v;
     total_threads := total_threads d; last_thread_at := last_thread_at d;
     user_notes := user_notes d |}.

(** [await ctx.send(...)] *)
Definition ctx_send (ctx : Context) (p : Payload) : M unit :=
  channel_send (channel_id (ctx_channel ctx)) p.

(** ** The settings commands *)

Definition settings_enable (ctx : Context) : M unit :=
  modify (guild_set (guild_id (ctx_guild ctx)) (with_enabled true)) ;;;
  ctx_send ctx (PText "✅ Modmail system enabled.").

Definition settings_disable (ctx : Context) : M unit :=
  modify (guild_set (guild_id (ctx_guild ctx)) (with_enabled false)) ;;;
  ctx_send ctx (PText "❌ Modmail system disabled.").

(** The converter of the command hands over a [discord.CategoryChannel]. *)
Definition settings_category (ctx : Context) (category : Channel) : M unit :=
  modify (guild_set (guild_id (ctx_guild ctx))
            (with_category_id (Some (channel_id category)))) ;;;
  ctx_send ctx
    (PText ("✅ Modmail category set to: " +:+ channel_name category)).

(** A [discord.Role] as a command argument. *)
Record Role := {
  role_id : Z;
  role_name : string
}.

Definition settings_staff (ctx : Context) (roles : list Role) : M unit :=
  let role_ids := List.map role_id roles in
  modify (guild_set (guild_id (ctx_guild ctx)) (with_staff_roles role_ids)) ;;;
  match roles with
  | [] => ctx_send ctx (PText "✅ Staff roles cleared.")
  | _ =>
      let role_names := List.map role_name roles in
      ctx_send ctx
        (PText ("✅ Staff roles set to: " +:+ str_join ", " role_names))
  end.

(** [humanize_timedelta] is Red's
    ([redbot.core.utils.chat_formatting]); the command is given it. *)
Definition settings_autoclose (humanize_timedelta : Z -> string)
    (ctx : Context) (time : Z) : M unit :=
  modify (guild_set (guild_id (ctx_guild ctx)) (with_auto_close_after time)) ;;;
  if 0 <? time then
    let time_str := humanize_timedelta time in
    ctx_send ctx
      (PText ("✅ Threads will auto-close after " +:+ time_str
              +:+ " of inactivity."))
  else ctx_send ctx (PText "✅ Auto-close disabled.").

(** ** Unblocking a user, listing the blocked users *)

(** [l.remove(x)] for an [x] that is in [l]: the first occurrence goes. *)
Fixpoint list_remove (x : Z) (l : list Z) : list Z :=
  match l with
  | [] => []
  | y :: l' => if x =? y then l' else y :: list_remove x l'
  end.

Definition modmail_unblock (ctx : Context) (user : User) : M unit :=
  let uid := user_id user in
  let gid := guild_id (ctx_guild ctx) in
  modify (user_set uid (with_blocked false)) ;;;
  modify (user_set uid (with_block_reason (block_reason default_user))) ;;;
  modify (user_set uid (with_blocked_at (blocked_at default_user))) ;;;
  modify (user_set uid (with_blocked_by (blocked_by default_user))) ;;;
  (* Remove from guild blocklist *)
  modify (fun w =>
    let blocked := blocked_users (guild_config gid w) in
    guild_set gid
      (with_blocked_users
         (if existsb (Z.eqb uid) blocked then list_remove uid blocked
          else blocked)) w) ;;;
  ctx_send ctx
    (PText ("✅ " +:+ user_mention uid
            +:+ " has been unblocked from modmail.")).

(** [for x in l: acc = await step acc x] *)
Fixpoint fold_m {A S} (step : S -> A -> M S) (l : list A) (acc : S) : M S :=
  match l with
  | [] => ret acc
  | x :: l' =>
      let* acc' := step acc x in
      fold_m step l' acc'
  end.

(** [str(x)] for an optional string: [None] prints as "None". *)
Definition str_option (o : option string) : string :=
  match o with
  | Some s => s
  | None => "None"
  end.

Definition block_list (ctx : Context) : M unit :=
  let* blocked_users :=
    gets (fun w => blocked_users (guild_config (guild_id (ctx_guild ctx)) w)) in
  match blocked_users with
  | [] => ctx_send ctx (PText "No users are currently blocked.")
  | _ =>
      let embed :=
        {| emb_title := "Blocked Users"; emb_description := EmptyString;
           emb_author := EmptyString; emb_fields := [];
           emb_footer := EmptyString; emb_image := EmptyString |} in
      (* Limit to 10 for embed space *)
      let* embed :=
        fold_m (fun embed user_id =>
          let* user := gets (bot_get_user user_id) in
          let* data := gets (user_data user_id) in
          let user_str :=
            match user with
            | Some u => str_user u +:+ " (" +:+ str_Z user_id +:+ ")"
            | None => "Unknown User (" +:+ str_Z user_id +:+ ")"
            end in
          let reason := block_reason data in
          ret (add_field user_str ("Reason: " +:+ str_option reason) embed))
          (firstn 10 blocked_users) embed in
      let embed :=
        if (10 <? length blocked_users)%nat then
          set_footer
            ("Showing 10 of " +:+ str_Z (Z.of_nat (length blocked_users))
             +:+ " blocked users") embed
        else embed in
      ctx_send ctx (PEmbed embed)
  end.

(** ** Reports on a user *)

(** The opening of [modmail_info] and of [modmail_logs]: without a user
    argument, in a thread channel, the user of the thread is taken. *)
Definition user_or_thread_user (ctx : Context) (user : option User)
    : M (option User) :=
  match user with
  | Some u => ret (Some u)
  | None =>
      (* Try to get user from current thread *)
      if _is_modmail_channel (ctx_channel ctx) then
        let* thread_data := _get_thread_data_from_channel (ctx_channel ctx) in
        match thread_data with
        | Some data =>
            gets (fun w =>
              match td_user_id data with
              | Some u => bot_get_user u w
              | None => None
              end)
        | None => ret None
        end
      else ret None
  end.

(** [l[-n:]] *)
Definition last_n {A} (n : nat) (l : list A) : list A :=
  skipn (length l - n) l.

Definition modmail_info (ctx : Context) (user : option User) : M unit :=
  let* user := user_or_thread_user ctx user in
  match user with
  | None =>
      ctx_send ctx
        (PText "Please specify a user or use this command in a modmail thread.")
  | Some user =>
      let* data := gets (user_data (user_id user)) in
      let embed :=
        {| emb_title := "Modmail Info - " +:+ str_user user;
           emb_description := EmptyString; emb_author := EmptyString;
           emb_fields := []; emb_footer := EmptyString;
           emb_image := EmptyString |} in
      (* Basic info *)
      let embed := add_field "User ID" (str_Z (user_id user)) embed in
      let embed :=
        add_field "Account Created" (discord_timestamp (user_created_at user))
          embed in
      (* Modmail stats *)
      let embed :=
        add_field "Total Threads" (str_Z (total_threads data)) embed in
      let embed :=
        match last_thread_at data with
        | Some last_thread =>
            add_field "Last Thread" (discord_timestamp last_thread) embed
        | None => embed
        end in
      (* Block status *)
      let* embed :=
        if blocked data then
          let embed := add_field "Status" "🚫 Blocked" embed in
          let embed :=
            if truthy_str (block_reason data)
            then add_field "Block Reason"
                   (default EmptyString (block_reason data)) embed
            else embed in
          match blocked_by data with
          | Some by_id =>
              if truthy_id (blocked_by data) then
                let* blocker := gets (bot_get_user by_id) in
                ret (add_field "Blocked By"
                       match blocker with
                       | Some b => str_user b
                       | None => "Unknown"
                       end embed)
              else ret embed
          | None => ret embed
          end
        else ret (add_field "Status" "✅ Active" embed) in
      (* Notes *)
      let notes := user_notes data in
      let embed :=
        match notes with
        | [] => embed
        | _ =>
            (* Show last 3 notes *)
            let note_text :=
              str_join newline
                (List.map (fun note => "• " +:+ note) (last_n 3 notes)) in
            let note_text :=
              if (3 <? length notes)%nat then
                note_text +:+ newline +:+ "*... and "
                +:+ str_Z (Z.of_nat (length notes) - 3) +:+ " more notes*"
              else note_text in
            add_field "Notes" note_text embed
        end in
      ctx_send ctx (PEmbed embed)
  end.

(** [status.title()] *)
Definition status_title (s : ThreadStatus) : string :=
  match s with
  | st_open => "Open"
  | st_closed => "Closed"
  | st_archived => "Archived"
  end.

Definition modmail_logs (ctx : Context) (user : option User) : M unit :=
  let* user := user_or_thread_user ctx user in
  match user with
  | None =>
      ctx_send ctx
        (PText "Please specify a user or use this command in a modmail thread.")
  | Some user =>
      let gid := guild_id (ctx_guild ctx) in
      (* Get user's thread history *)
      let* conversations :=
        gets (fun w => thread_history (user_conv gid (user_id user) w)) in
      match conversations with
      | [] =>
          ctx_send ctx
            (PText (user_mention (user_id user)
                    +:+ " has no modmail history in this server."))
      | _ =>
          let embed :=
            {| emb_title := "Modmail History - " +:+ str_user user;
               emb_description := EmptyString; emb_author := EmptyString;
               emb_fields := []; emb_footer := EmptyString;
               emb_image := EmptyString |} in
          (* Show last 5 threads *)
          let* embed :=
            fold_m (fun embed thread_id =>
              let* thread_data := gets (thread_all gid thread_id) in
              let* created_at := fromisoformat (td_created_at thread_data) in
              let status := td_status thread_data in
              let value :=
                "Status: " +:+ status_title status +:+ newline
                +:+ "Created: " +:+ discord_timestamp created_at in
              let* value :=
                match td_closed_at thread_data with
                | Some _ =>
                    let* closed_at :=
                      fromisoformat (td_closed_at thread_data) in
                    ret (value +:+ newline +:+ "Closed: "
                         +:+ discord_timestamp closed_at)
                | None => ret value
                end in
              let value :=
                if truthy_str (td_close_reason thread_data)
                then value +:+ newline +:+ "Reason: "
                     +:+ default EmptyString (td_close_reason thread_data)
                else value in
              ret (add_field ("Thread " +:+ substring 0 8 thread_id) value
                     embed))
              (last_n 5 conversations) embed in
          let embed :=
            if (5 <? length conversations)%nat then
              set_footer
                ("Showing 5 of " +:+ str_Z (Z.of_nat (length conversations))
                 +:+ " threads") embed
            else embed in
          ctx_send ctx (PEmbed embed)
      end
  end.

(** ** Hook dispatch over the live hook table *)

(** The world model takes a hook as a function from its arguments to its
    outcome.  The source allows for more: [_trigger_hook] iterates over
    the list object stored in [self.hooks], which [unregister_extension]
    shortens in place, and it catches [Exception] only.  This module
    models the extension system ([self.extensions], [self.hooks],
    [register_extension], [unregister_extension], [_trigger_hook]) with
    both. *)
Module Live.

(** How an awaited hook ends.  [asyncio.CancelledError], [KeyboardInterrupt]
    and [SystemExit] derive from [BaseException], not from [Exception]. *)
Inductive Outcome : Type :=
| Returns
| RaisesException (e : PyExn)
| RaisesBaseException (cls : string).

(** What a hook does when it is awaited with the arguments of the event:
    the names it hands to [unregister_extension] of the cog, in order, and
    how it ends.  (Of the calls a hook can make into the cog this is the
    one that shortens the list under the dispatcher; a hook that registers
    an extension while it runs is not modelled.) *)
Definition Coroutine : Type := HookArgs -> list string * Outcome.

(** An extension object: [ext_obj] is its identity, [ext_method name] is
    [getattr(extension, "on_" + name)] when [hasattr] holds. *)
Record ModmailExtension := {
  ext_obj : Z;
  ext_method : string -> option Coroutine
}.

(** A bound method [extension.on_<hook>].  Within the list of one hook name
    two bound methods are equal when they are bound to the same object.
    [bm_owner], the name the extension was registered under, labels the
    call in the trace. *)
Record BoundMethod := {
  bm_owner : string;
  bm_self : Z;
  bm_call : Coroutine
}.

Definition bound_eqb (a b : BoundMethod) : bool := bm_self a =? bm_self b.

(** [self.extensions], [self.hooks] and the effects performed so far. *)
Record Cog := {
  extensions : gmap string ModmailExtension;
  hooks : gmap string (list BoundMethod);
  trace : list Event
}.

Definition emit_all (evs : list Event) (cog : Cog) : Cog :=
  {| extensions := extensions cog; hooks := hooks cog;
     trace := trace cog ++ evs |}.

(** [self.hooks.get(hook_name, [])] *)
Definition registered (hook_name : string) (cog : Cog) : list BoundMethod :=
  default [] (hooks cog !! hook_name).

(** [register_extension] *)
Definition register_extension (name : string) (extension : ModmailExtension)
    (cog : Cog) : Cog :=
  {| extensions := <[name := extension]> (extensions cog);
     (* Auto-register hooks *)
     hooks :=
       map_imap (fun hook_name registered =>
         match ext_method extension hook_name with
         | Some f =>
             Some (registered
                   ++ [{| bm_owner := name; bm_self := ext_obj extension;
                          bm_call := f |}])
         | None => Some registered
         end) (hooks cog);
     trace :=
       trace cog
       ++ [EvLog LogInfo ("Registered modmail extension: " +:+ name) None] |}.

(** [if x in l: l.remove(x)]: the first element equal to [x] goes. *)
Fixpoint list_remove (x : BoundMethod) (l : list BoundMethod)
    : list BoundMethod :=
  match l with
  | [] => []
  | y :: l' => if bound_eqb y x then l' else y :: list_remove x l'
  end.

(** [unregister_extension] *)
Definition unregister_extension (name : string) (cog : Cog) : Cog :=
  match extensions cog !! name with
  | Some extension =>
      {| extensions := delete name (extensions cog);
         (* Remove hooks *)
         hooks :=
           map_imap (fun hook_name registered =>
             match ext_method extension hook_name with
             | Some f =>
                 Some (list_remove
                         {| bm_owner := name; bm_self := ext_obj extension;
                            bm_call := f |} registered)
             | None => Some registered
             end) (hooks cog);
         trace :=
           trace cog
           ++ [EvLog LogInfo ("Unregistered modmail extension: " +:+ name)
                 None] |}
  | None => cog
  end.

(** How [_trigger_hook] ends: its loop is over, or an exception that
    [except Exception] does not catch leaves it. *)
Inductive Ended : Type :=
| Completed
| Propagated (cls : string).

(** The loop [for hook in self.hooks.get(hook_name, [])] of
    [_trigger_hook].  The list iterator keeps an index into the list
    object and looks the next item up in the list as it then is; the loop
    ends when the index has reached the end of the list.  As the hooks can
    only shorten the list, [rounds], the length of the list when the loop
    starts, bounds the rounds of the loop. *)
Fixpoint dispatch (rounds : nat) (hook_name : string) (args : HookArgs)
    (index : nat) (cog : Cog) : Ended * Cog :=
  match rounds with
  | O => (Completed, cog)
  | S rounds' =>
      match registered hook_name cog !! index with
      | None => (Completed, cog)
      | Some hook =>
          let '(unregistered, outcome) := bm_call hook args in
          (* await hook(...) *)
          let cog := emit_all [EvHookCall hook_name (bm_owner hook) args] cog in
          let cog := foldl (fun c name => unregister_extension name c)
                       cog unregistered in
          match outcome with
          | Returns => dispatch rounds' hook_name args (S index) cog
          | RaisesException e =>
              dispatch rounds' hook_name args (S index)
                (emit_all
                   [EvLog LogError ("Error in extension hook " +:+ hook_name)
                      (Some e)] cog)
          | RaisesBaseException cls => (Propagated cls, cog)
          end
      end
  end.

Definition _trigger_hook (hook_name : string) (args : HookArgs) (cog : Cog)
    : Ended * Cog :=
  dispatch (length (registered hook_name cog)) hook_name args 0 cog.


End Live.
(** ** Definitions used to state the properties *)

(** The effects of dispatching to one hook: the call, and the error log
    when the call raised. *)
Definition hook_events (hook_name : string) (args : HookArgs) (hook : Hook)
    : list Event :=
  EvHookCall hook_name (hook_owner hook) args ::
  match hook_call hook args with
  | None => []
  | Some e =>
      [EvLog LogError ("Error in extension hook " +:+ hook_name) (Some e)]
  end.



(** A rate-limit check made when the clock shows [t]. *)
Definition check_at (user guild t : Z) (w : World) : Res bool * World :=
  _is_rate_limited user guild (set_now t w).

(** The world after a check at [t] that leaves [entries] under [key]. *)
Definition rate_step (key : string) (t : Z) (entries : list Z) (w : World)
    : World :=
  set_rate_limits (<[key := entries]> (rate_limits w)) (set_now t w).

(** The thread document stored for a channel, as [_close_thread] and
    [_get_thread_data_from_channel] search for it. *)
Definition thread_of_channel (channel : Channel) (w : World)
    : option (string * ThreadData) :=
  List.find (fun '(_, data) => has_channel (channel_id channel) data)
    (all_threads (channel_guild channel) w).

(** ** Frames: what a computation leaves as it was *)

(** [frame R m]: from any world, [m] ends, normally or by raising, in a
    world related to the first by [R]. *)
Definition frame (R : World -> World -> Prop) {A} (m : M A) : Prop :=
  forall w, R w (snd (m w)).

(** The relations used as frames are preorders that do not look at the
    trace. *)
Class FrameRel (R : World -> World -> Prop) : Prop := {
  frame_refl : forall w, R w w;
  frame_trans : forall w1 w2 w3, R w1 w2 -> R w2 w3 -> R w1 w3;
  frame_emit_all : forall evs w, R w (emit_all evs w)
}.

(** The thread documents are those of before. *)
Definition same_threads (w w' : World) : Prop :=
  cfg_thread w' = cfg_thread w.

(** Settings, clock and the fate of external calls are those of before. *)
Definition same_env (w w' : World) : Prop :=
  cfg_guild w' = cfg_guild w /\ ext_fail w' = ext_fail w /\ now w' = now w.

(** Every channel other than channel [c] of guild [g] resolves as before. *)
Definition same_channels_but (g c : Z) (w w' : World) : Prop :=
  forall g' c', g' <> g \/ c' <> c ->
    guild_get_channel g' (Some c') w' = guild_get_channel g' (Some c') w.

(** What [_close_thread] writes to the thread documents: the document
    found for the channel gets the close fields of this call. *)
Definition close_store (channel : Channel) (closer : Z)
    (reason : option string) (w : World) : World :=
  match thread_of_channel channel w with
  | Some (t_id, _) =>
      if negb (String.eqb t_id EmptyString) then
        thread_set (channel_guild channel) t_id
          (close_updates (now w) reason closer
             (thread_all (channel_guild channel) t_id w)) w
      else w
  | None => w
  end.

(** ** The sweep, as a function of the thread documents *)

(** The guild takes part in the sweep. *)
Definition sweep_active (gid : Z) (w : World) : bool :=
  enabled (guild_config gid w)
  && (0 <? auto_close_after (thread_settings (guild_config gid w))).

(** The sweep closes this document: it is open, was created before
    [now - auto_close_after] and its channel still resolves. *)
Definition sweep_due (gid : Z) (w : World) (data : ThreadData) : bool :=
  status_eqb (td_status data) st_open
  && match td_created_at data with
     | Some created =>
         created <? now w - timedelta_seconds
                              (auto_close_after
                                 (thread_settings (guild_config gid w)))
     | None => false
     end
  && match guild_get_channel gid (td_channel_id data) w with
     | Some _ => true
     | None => false
     end.

(** A document after the sweep of its guild. *)
Definition swept (guild : Guild) (w : World) (item : string * ThreadData)
    : string * ThreadData :=
  if sweep_due (guild_id guild) w (snd item) then
    (fst item,
     close_updates (now w) (Some auto_close_reason)
       (member_id (guild_me guild)) (snd item))
  else item.

(** The channel ids the documents refer to. *)
Definition thread_channels (threads : list (string * ThreadData)) : list Z :=
  omap (fun item => td_channel_id (snd item)) threads.

(** Thread documents as [_create_new_thread] writes them: one document
    per thread id, no empty id, a creation time on every open document and
    one channel per thread.  The document [_process_modmail_message]
    leaves under the id it draws anew has no creation time: the documents
    of a guild that has had a DM delivered are not of this kind. *)
Definition threads_wf (threads : list (string * ThreadData)) : Prop :=
  NoDup (List.map fst threads)
  /\ Forall (fun item =>
       fst item <> EmptyString
       /\ (td_status (snd item) = st_open -> td_created_at (snd item) <> None))
       threads
  /\ NoDup (thread_channels threads).

(** The guild cache as Discord keeps it: one entry per guild id, and every
    channel filed under its own guild. *)
Definition cache_wf (w : World) : Prop :=
  NoDup (List.map guild_id (bot_guilds w))
  /\ Forall (fun g =>
       Forall (fun ch => channel_guild ch = guild_id g) (guild_channels g))
       (bot_guilds w).

(** What the documents handled so far ([l1]), those still to come ([l2])
    and the current world [w] have to do with the world [w0] in which the
    sweep of the guild started. *)
Definition sweep_inv (guild : Guild) (w0 : World)
    (l1 l2 : list (string * ThreadData)) (w : World) : Prop :=
  all_threads (guild_id guild) w = List.map (swept guild w0) l1 ++ l2
  /\ same_env w0 w
  /\ (forall c, c ∉ thread_channels l1 ->
        guild_get_channel (guild_id guild) (Some c) w
        = guild_get_channel (guild_id guild) (Some c) w0).

(** The documents of a guild after the sweep that started in [w]. *)
Definition swept_threads (guild : Guild) (w : World)
    : list (string * ThreadData) :=
  if sweep_active (guild_id guild) w
  then List.map (swept guild w) (all_threads (guild_id guild) w)
  else all_threads (guild_id guild) w.

(** ** A guild, a user and two moderators, for the examples *)

Definition alice : User :=
  {| user_id := 42; user_name := "alice"; user_discriminator := "0001";
     user_created_at := 0; user_bot := false |}.

Definition modmail_bot : Member :=
  {| member_id := 999; member_str := "Modmail#0000"; member_joined_at := 0;
     member_roles := [7] |}.

Definition moderator : Member :=
  {| member_id := 500; member_str := "mod#0500"; member_joined_at := 0;
     member_roles := [7; 8] |}.

Definition second_moderator : Member :=
  {| member_id := 501; member_str := "mod#0501"; member_joined_at := 0;
     member_roles := [7; 8] |}.

Definition modmail_category : Channel :=
  {| channel_id := 100; channel_guild := 7; channel_name := "Modmail";
     channel_kind := CategoryChannel; channel_category := None;
     channel_topic := EmptyString; channel_overwrites := [] |}.

(** A thread channel of guild 7, as [_create_new_thread] makes it. *)
Definition thread_channel (id : Z) (name : string) : Channel :=
  {| channel_id := id; channel_guild := 7; channel_name := name;
     channel_kind := TextChannel; channel_category := Some 100;
     channel_topic := EmptyString;
     channel_overwrites :=
       [(TargetRole 7,
         {| read_messages := deny; send_messages := None;
            manage_messages := None |});
        (TargetMember 999,
         {| read_messages := allow; send_messages := allow;
            manage_messages := allow |});
        (TargetRole 8,
         {| read_messages := allow; send_messages := allow;
            manage_messages := None |})] |}.

Definition guild_seven (channels : list Channel) : Guild :=
  {| guild_id := 7; guild_name := "Seven"; guild_me := modmail_bot;
     guild_default_role := 7; guild_roles := [7; 8];
     guild_members := [modmail_bot; moderator; second_moderator];
     guild_channels := modmail_category :: channels |}.

(** Settings of guild 7: modmail enabled with its category and staff role
    set; the block list, the eligibility requirements and the auto-close
    delay vary, the rest are the registered defaults. *)
Definition settings_seven (blocked : list Z) (requirements : UserRequirements)
    (auto_close : Z) : GuildConfig :=
  {| enabled := true; category_id := Some 100; log_channel_id := None;
     staff_roles := [8]; blocked_users := blocked;
     auto_response := auto_response default_guild;
     thread_settings :=
       {| auto_close_after := auto_close; require_close_reason := true;
          notify_user_on_close := true; delete_on_close := false;
          close_confirmation := true |};
     user_requirements := requirements;
     rate_limiting := rate_limiting default_guild;
     anonymous_staff := false; show_user_info := true |}.

(** Successive values of [uuid.uuid4().hex], all different. *)
Definition example_uuid (n : nat) : string :=
  match n with
  | 0%nat => "aaaaaaaa11112222333344445555"
  | 1%nat => "bbbbbbbb11112222333344445555"
  | 2%nat => "cccccccc11112222333344445555"
  | 3%nat => "dddddddd11112222333344445555"
  | _ => "eeeeeeee" +:+ str_Z (Z.of_nat n)
  end.

(** An extension hook that returns, and one that raises. *)
Definition quiet_hook (owner : string) : Hook :=
  {| hook_owner := owner; hook_call := fun _ => None |}.

Definition failing_hook (owner : string) : Hook :=
  {| hook_owner := owner;
     hook_call := fun _ => Some (RuntimeError "extension failed") |}.

(** One million seconds after the epoch. *)
Definition noon : Z := timedelta_seconds 1000000.

Definition example_world (config : GuildConfig)
    (threads : list (string * ThreadData)) (channels : list Channel)
    : World :=
  {| cfg_guild := {[ 7 := config ]};
     cfg_user := ∅;
     cfg_global := default_global;
     cfg_thread := {[ 7 := threads ]};
     cfg_conv := ∅;
     hooks :=
       <["thread_created" := [quiet_hook "audit"]]>
         (<["message_processed" := [quiet_hook "audit"]]> initial_hooks);
     rate_limits := ∅;
     bot_guilds := [guild_seven channels];
     bot_users := [alice];
     now := noon;
     uuid4_hex := example_uuid;
     uuid_count := 0;
     next_snowflake := 5000;
     ext_fail := fun _ => None;
     trace := [] |}.

(** Guild 7 set up, nobody has written yet. *)
Definition fresh_world : World :=
  example_world (settings_seven [] (user_requirements default_guild) 7200)
    [] [].

Definition dm (content : string) (sent : Z) : Message :=
  {| msg_author := alice; msg_channel_kind := DMChannel;
     msg_content := content; msg_attachments := []; msg_created_at := sent |}.

(** The first DM of alice, and a second one a minute later. *)
Definition first_dm : Message := dm "hello" noon.
Definition second_dm : Message := dm "anyone there?" (noon + timedelta_seconds 60).

Definition after_first_dm : World :=
  snd (on_message_without_command first_dm fresh_world).

Definition after_second_dm : World :=
  snd (on_message_without_command second_dm
         (set_now (noon + timedelta_seconds 60) after_first_dm)).

(** The effects of a run: what it added to the trace. *)
Definition new_events (before after : World) : list Event :=
  skipn (length (trace before)) (trace after).

(** What was sent to a user, in order. *)
Definition sent_to_user (user : Z) (evs : list Event) : list Payload :=
  flat_map (fun ev =>
    match ev with
    | EvUserSend u p => if u =? user then [p] else []
    | _ => []
    end) evs.

(** The thread of alice and its channel, as the first DM leaves them. *)
Definition alice_thread_id : string := "42-7-aaaaaaaa".
Definition alice_thread : ThreadData := new_thread_data 42 5000 7 noon.
Definition alice_channel : Channel :=
  {| channel_id := 5000; channel_guild := 7;
     channel_name := "modmail-alice-0001"; channel_kind := TextChannel;
     channel_category := Some 100;
     channel_topic := "Modmail thread for alice#0001 (ID: 42)";
     channel_overwrites := channel_overwrites (thread_channel 5000 EmptyString) |}.

(** The names of the hooks called in a trace, in order. *)
Definition hook_names (evs : list Event) : list string :=
  flat_map (fun ev =>
    match ev with
    | EvHookCall n _ _ => [n]
    | _ => []
    end) evs.

(** Thread id, user, status and message count of each document. *)
Definition thread_summary (threads : list (string * ThreadData))
    : list (string * option Z * ThreadStatus * Z) :=
  List.map (fun item =>
    (fst item, td_user_id (snd item), td_status (snd item),
     td_message_count (snd item))) threads.

Definition auto_response_text : string :=
  "Thank you for contacting us! A staff member will be with you shortly.".

(** Two closes of the thread of alice, by two moderators. *)
Definition first_close_at : Z := noon + timedelta_seconds 100.

Definition after_first_close : World :=
  snd (_close_thread alice_channel moderator (Some "resolved") alice_thread
         (set_now first_close_at after_first_dm)).




(** A sweep over three open threads of guild 7 with
    [auto_close_after = 3600]: two created 7200 seconds ago, of which one
    has lost its channel, and one created 60 seconds ago. *)
Definition idle_thread (user channel : Z) : ThreadData :=
  new_thread_data user channel 7 (noon - timedelta_seconds 7200).

Definition recent_thread (user channel : Z) : ThreadData :=
  new_thread_data user channel 7 (noon - timedelta_seconds 60).

Definition sweep_channels : list Channel :=
  [thread_channel 5000 "modmail-alice-0001";
   thread_channel 5002 "modmail-carol-0003"].

Definition sweep_world : World :=
  example_world (settings_seven [] (user_requirements default_guild) 3600)
    [("42-7-aaaaaaaa", idle_thread 42 5000);
     ("43-7-bbbbbbbb", idle_thread 43 5001);
     ("44-7-cccccccc", recent_thread 44 5002)]
    sweep_channels.

Definition after_sweep : World := snd (_auto_close_threads sweep_world).

(** Guild 7 with alice on its block list. *)
Definition blocking_world : World :=
  example_world (settings_seven [42] (user_requirements default_guild) 7200)
    [] [].

(** Requirements that ask for a year on the server without asking for
    membership. *)
Definition server_age_only : UserRequirements :=
  {| min_account_age := 86400; min_server_age := 31536000;
     require_server_member := false; blocked_new_accounts := false |}.

(** A moderator types [modmail close] with no reason in alice's channel. *)
Definition close_context : Context :=
  {| ctx_channel := alice_channel; ctx_guild := guild_seven [alice_channel];
     ctx_author := moderator |}.
(** ** Further definitions used to state the properties *)

(** [_create_new_thread] gets its channel: the category is configured,
    resolves to a category channel and Discord creates the channel. *)
Definition can_create_thread (guild : Guild) (w : World) : bool :=
  let gid := guild_id guild in
  truthy_id (category_id (guild_config gid w))
  && match guild_get_channel gid (category_id (guild_config gid w)) w with
     | Some cat =>
         match channel_kind cat with
         | CategoryChannel => true
         | _ => false
         end
     | None => false
     end
  && match ext_fail w (CallCreateTextChannel gid) with
     | None => true
     | Some _ => false
     end.

(** The active-thread pointers and thread histories are those of
    before. *)
Definition same_conv (w w' : World) : Prop :=
  cfg_conv w' = cfg_conv w.

(** The answer of [_check_user_requirements] when the clock shows [t]. *)
Definition meets_requirements (user : User) (guild : Guild)
    (config : GuildConfig) (t : Z) : bool :=
  let requirements := user_requirements config in
  negb ((0 <? min_account_age requirements)
        && (t - user_created_at user
            <? timedelta_seconds (min_account_age requirements)))
  && (if require_server_member requirements then
        match guild_get_member guild (user_id user) with
        | Some member =>
            negb ((0 <? min_server_age requirements)
                  && (t - member_joined_at member
                      <? timedelta_seconds (min_server_age requirements)))
        | None => false
        end
      else true).

(** The guild takes the DMs of the user: modmail is enabled there and the
    user meets its requirements. *)
Definition eligible_guild (author : User) (w : World) (guild : Guild) : bool :=
  enabled (guild_config (guild_id guild) w)
  && meets_requirements author guild (guild_config (guild_id guild) w) (now w).

(** Guild 7 set up, with five DMs of alice within the last seconds on the
    rate limiter's record. *)
Definition busy_world : World :=
  set_rate_limits {[ rate_key 7 42 := [noon; noon; noon; noon; noon] ]}
    fresh_world.

(** [attachment.to_file()] works for this attachment. *)
Definition downloads (w : World) (att : Attachment) : bool :=
  match ext_fail w (CallAttachmentToFile (att_url att)) with
  | None => true
  | Some _ => false
  end.

(** The attachments [_forward_message_to_thread] uploads to the thread
    channel: those that are not images and whose download works. *)
Definition forwarded_files (w : World) (atts : list Attachment)
    : list Attachment :=
  List.filter (fun att => negb (is_image_url (att_url att)) && downloads w att)
    atts.

(** The download works, or fails with a [discord.HTTPException], which
    the forwarding loop passes over. *)
Definition download_contained (w : World) (att : Attachment) : bool :=
  match ext_fail w (CallAttachmentToFile (att_url att)) with
  | None => true
  | Some e => is_HTTPException e
  end.

(** The uploads of these attachments to a channel. *)
Definition file_events (channel : Z) (atts : list Attachment) : list Event :=
  List.map (fun att => EvChannelSend channel (PFile (att_filename att))) atts.

(** A DM of alice with a picture and a text file. *)
Definition photo_png : Attachment :=
  {| att_filename := "photo.PNG";
     att_url := "https://cdn.example.org/attachments/1/photo.PNG" |}.

Definition report_txt : Attachment :=
  {| att_filename := "report.txt";
     att_url := "https://cdn.example.org/attachments/2/report.txt" |}.

Definition dm_with_files : Message :=
  {| msg_author := alice; msg_channel_kind := DMChannel;
     msg_content := "see attached";
     msg_attachments := [photo_png; report_txt]; msg_created_at := noon |}.

(** Guild 7 with auto-close switched off and one old open thread. *)
Definition quiet_world : World :=
  example_world (settings_seven [] (user_requirements default_guild) 0)
    [("42-7-aaaaaaaa", idle_thread 42 5000)]
    [thread_channel 5000 "modmail-alice-0001"].

(** [cutoff_time] of the sweep of a guild that starts in [w]. *)
Definition sweep_cutoff (gid : Z) (w : World) : Z :=
  now w - timedelta_seconds
            (auto_close_after (thread_settings (guild_config gid w))).

(** The sweep passes over this document without raising: it is not open,
    or it has a creation time and is not due. *)
Definition passed_over (gid : Z) (w : World) (item : string * ThreadData)
    : Prop :=
  td_status (snd item) <> st_open
  \/ (td_created_at (snd item) <> None
      /\ sweep_due gid w (snd item) = false).

(** What [datetime.fromisoformat(None)] raises. *)
Definition missing_created_at : PyExn :=
  TypeError "fromisoformat: argument must be str".

(** The Config and the channel cache are those of before. *)
Definition same_stores (w w' : World) : Prop :=
  cfg_thread w' = cfg_thread w /\ cfg_conv w' = cfg_conv w
  /\ cfg_global w' = cfg_global w /\ cfg_user w' = cfg_user w
  /\ cfg_guild w' = cfg_guild w /\ bot_guilds w' = bot_guilds w.

(** ** The rate-limit table *)

(** The timestamps newer than [cutoff], in their order. *)
Definition live_since (cutoff : Z) (timestamps : list Z) : list Z :=
  List.filter (fun ts => cutoff <? ts) timestamps.

(** [not l] on a list. *)
Definition is_nil {A} (l : list A) : bool :=
  match l with
  | [] => true
  | _ => false
  end.

(** One step of the first loop of [rate_limit_cleanup] on the dict. *)
Definition write_back (cutoff : Z) (m : gmap string (list Z))
    (item : string * list Z) : gmap string (list Z) :=
  <[fst item := live_since cutoff (snd item)]> m.

(** What [rate_limit_cleanup] leaves of an entry: its live timestamps, or
    nothing when none is live. *)
Definition cleaned (cutoff : Z) (timestamps : list Z) : option (list Z) :=
  match live_since cutoff timestamps with
  | [] => None
  | kept => Some kept
  end.

(** A rate limit with a window of fifteen minutes. *)
Definition slow_limit : RateLimiting :=
  {| rl_enabled := true; max_messages := 2; time_window := 900;
     cooldown_message := cooldown_message (rate_limiting default_guild) |}.

(** Guild 7 with that limit and two DMs of alice, both older than ten
    minutes and within the window. *)
Definition slow_limit_world : World :=
  set_rate_limits
    {[ rate_key 7 42 := [noon - timedelta_seconds 700;
                         noon - timedelta_seconds 650] ]}
    (example_world
       {| enabled := true; category_id := Some 100; log_channel_id := None;
          staff_roles := [8]; blocked_users := [];
          auto_response := auto_response default_guild;
          thread_settings := thread_settings default_guild;
          user_requirements := user_requirements default_guild;
          rate_limiting := slow_limit;
          anonymous_staff := false; show_user_info := true |}
       [] []).
(** ** Invariants of the stores *)

(** The writes the cog makes to the world.  A relation that every one of
    them respects is a frame of every operation. *)
Class Writes (R : World -> World -> Prop) : Prop := {
  writes_thread : forall g k d w, R w (thread_set g k d w);
  writes_pointer : forall g u v w, R w (set_active_thread g u v w);
  writes_counter : forall w,
    R w (set_total_threads_created
           (total_threads_created (cfg_global w) + 1) w);
  writes_uuid : forall n w, R w (set_uuid_count n w);
  writes_snowflake : forall n w, R w (set_next_snowflake n w);
  writes_channels : forall g f w, R w (map_guild_channels g f w);
  writes_rate_limits : forall m w, R w (set_rate_limits m w);
  writes_guild : forall g f w, R w (guild_set g f w);
  writes_blocked : forall u v w, R w (user_set u (with_blocked v) w);
  writes_block_reason : forall u v w, R w (user_set u (with_block_reason v) w);
  writes_blocked_at : forall u v w, R w (user_set u (with_blocked_at v) w);
  writes_blocked_by : forall u v w, R w (user_set u (with_blocked_by v) w);
  writes_clock : forall t w, R w (set_now t w);
  writes_hooks : forall h w, R w (set_hooks h w)
}.

(** No conversation has its thread history changed. *)
Definition same_history (w w' : World) : Prop :=
  forall g u,
    thread_history (user_conv g u w') = thread_history (user_conv g u w).

(** No user record has its thread statistics changed. *)
Definition same_totals (w w' : World) : Prop :=
  forall u,
    total_threads (user_data u w') = total_threads (user_data u w)
    /\ last_thread_at (user_data u w') = last_thread_at (user_data u w).

(** The global thread counter has not gone down. *)
Definition counter_grows (w w' : World) : Prop :=
  total_threads_created (cfg_global w)
  <= total_threads_created (cfg_global w').

(** No thread document was removed or moved: the thread ids of every
    guild are those of before, in their order, followed by the new ones. *)
Definition threads_kept (w w' : World) : Prop :=
  forall g,
    List.map fst (all_threads g w) `prefix_of` List.map fst (all_threads g w').

(** One step of the cog: a message reaches the listener, a command or a
    task runs, an extension registers, or the clock moves. *)
Inductive cog_step (humanize_timedelta : Z -> string)
    : World -> World -> Prop :=
| step_message message w :
    cog_step humanize_timedelta w
      (snd (on_message_without_command message w))
| step_close ctx reason reaction w :
    cog_step humanize_timedelta w (snd (modmail_close ctx reason reaction w))
| step_cleanup_task w :
    cog_step humanize_timedelta w (snd (cleanup_task w))
| step_rate_limit_cleanup w :
    cog_step humanize_timedelta w (snd (rate_limit_cleanup w))
| step_settings_enable ctx w :
    cog_step humanize_timedelta w (snd (settings_enable ctx w))
| step_settings_disable ctx w :
    cog_step humanize_timedelta w (snd (settings_disable ctx w))
| step_settings_category ctx category w :
    cog_step humanize_timedelta w (snd (settings_category ctx category w))
| step_settings_staff ctx roles w :
    cog_step humanize_timedelta w (snd (settings_staff ctx roles w))
| step_settings_autoclose ctx time w :
    cog_step humanize_timedelta w
      (snd (settings_autoclose humanize_timedelta ctx time w))
| step_unblock ctx user w :
    cog_step humanize_timedelta w (snd (modmail_unblock ctx user w))
| step_block_list ctx w :
    cog_step humanize_timedelta w (snd (block_list ctx w))
| step_info ctx user w :
    cog_step humanize_timedelta w (snd (modmail_info ctx user w))
| step_logs ctx user w :
    cog_step humanize_timedelta w (snd (modmail_logs ctx user w))
| step_register name extension w :
    cog_step humanize_timedelta w (register_extension name extension w)
| step_clock t w :
    cog_step humanize_timedelta w (set_now t w).

(** Everything but the guild settings and the trace is as before. *)
Definition same_but_settings (w w' : World) : Prop :=
  cfg_user w' = cfg_user w /\ cfg_global w' = cfg_global w
  /\ cfg_thread w' = cfg_thread w /\ cfg_conv w' = cfg_conv w
  /\ hooks w' = hooks w /\ rate_limits w' = rate_limits w
  /\ bot_guilds w' = bot_guilds w /\ bot_users w' = bot_users w
  /\ now w' = now w /\ ext_fail w' = ext_fail w.

(** The command stores [update] in the settings of the guild and confirms
    in the channel: the settings of the guild are updated and nothing else
    of the Config, the cache or the rate limiter changes, whether or not
    the confirmation goes out; the command raises exactly when the
    confirmation cannot be sent. *)
Definition stores_setting (guild channel : Z)
    (update : GuildConfig -> GuildConfig) (command : M unit) : Prop :=
  forall w,
    let result := command w in
    guild_config guild (snd result) = update (guild_config guild w)
    /\ (forall g, g <> guild -> guild_config g (snd result) = guild_config g w)
    /\ same_but_settings w (snd result)
    /\ fst result
       = match ext_fail w (CallChannelSend channel) with
         | None => Ok tt
         | Some e => Raise e
         end.

(** The answer of [_is_user_blocked]. *)
Definition blocked_for (user : Z) (guild : option Z) (w : World) : bool :=
  bool_decide (str_Z user ∈ globally_blocked_users (cfg_global w))
  || blocked (user_data user w)
  || match guild with
     | Some g =>
         truthy_id guild && existsb (Z.eqb user) (blocked_users (guild_config g w))
     | None => false
     end.

(** ** The report commands *)

(** The computation only reads: it ends, normally or by raising, in the
    world it started in. *)
Definition reads {A} (m : M A) : Prop :=
  forall w, snd (m w) = w.

(** The command changes nothing, except that it may send one message to
    the channel. *)
Definition answers_once (channel : Z) (m : M unit) : Prop :=
  forall w,
    snd (m w) = w
    \/ exists p, m w = (Ok tt, emit_all [EvChannelSend channel p] w).

(** The field [block_list] shows for a blocked user. *)
Definition blocked_entry (w : World) (user : Z) : string * string :=
  (match bot_get_user user w with
   | Some u => str_user u +:+ " (" +:+ str_Z user +:+ ")"
   | None => "Unknown User (" +:+ str_Z user +:+ ")"
   end,
   "Reason: " +:+ str_option (block_reason (user_data user w))).

(** Guild 7 with modmail enabled but no category configured. *)
Definition uncategorised_world : World :=
  example_world
    (with_category_id None
       (settings_seven [] (user_requirements default_guild) 7200))
    [] [].

(** ** The last steps of a close *)

(** What [_close_thread] does once the notices are out and the pointer is
    cleared: it deletes or archives the channel, files the modlog case and
    calls the [thread_closed] hooks. *)
Definition close_thread_tail (channel : Channel) (closer : Member)
    (reason : option string) (thread_data : ThreadData)
    (config : ThreadSettings) : M unit :=
  (if delete_on_close config then
     emit (EvSleep 5) ;;;
     channel_delete channel
       ("Modmail thread closed by " +:+ member_str closer)
   else
     channel_edit channel ("closed-" +:+ channel_name channel) ;;;
     for_each (channel_overwrites channel) (fun '(target, overwrite) =>
       match target with
       | TargetRole _ =>
           channel_set_permissions channel target
             (with_send_messages deny overwrite)
       | TargetMember _ => ret tt
       end)) ;;;
  let* case_user :=
    gets (fun w =>
      match td_user_id thread_data with
      | Some u =>
          if truthy_id (td_user_id thread_data)
          then option_map user_id (bot_get_user u w)
          else None
      | None => None
      end) in
  modlog_create_case (channel_guild channel) "modmail_thread_closed" case_user
    (Some (member_id closer)) (reason_or_default reason) ;;;
  _trigger_hook "thread_closed"
    (ArgsThreadClosed (note_closer reason (member_id closer) thread_data)
       reason).

(** The [except] clause of [_close_thread]. *)
Definition close_thread_handler (channel : Channel) (e : PyExn) : M unit :=
  log LogException "Error closing thread" (Some e) ;;;
  channel_send (channel_id channel)
    (PText "An error occurred while closing the thread.").

(** The channel resolves under the name it had. *)
Definition same_channel_name (g c : Z) (w w' : World) : Prop :=
  forall ch,
    guild_get_channel g (Some c) w = Some ch ->
    exists ch',
      guild_get_channel g (Some c) w' = Some ch'
      /\ channel_name ch' = channel_name ch.

(** ** Hooks that keep to themselves *)








(** ** A sweep after two users have written *)

Definition bob : User :=
  {| user_id := 43; user_name := "bob"; user_discriminator := "0002";
     user_created_at := 0; user_bot := false |}.

(** Guild 7 with [auto_close_after = 3600], nobody has written yet. *)
Definition hourly_world : World :=
  example_world (settings_seven [] (user_requirements default_guild) 3600)
    [] [].

Definition bob_dm : Message :=
  {| msg_author := bob; msg_channel_kind := DMChannel;
     msg_content := "hi"; msg_attachments := [];
     msg_created_at := noon + timedelta_seconds 60 |}.

(** alice writes at noon, bob a minute later. *)
Definition after_two_dms : World :=
  snd (on_message_without_command bob_dm
         (set_now (noon + timedelta_seconds 60)
            (snd (on_message_without_command first_dm hourly_world)))).

Definition four_hours_later : World :=
  set_now (noon + timedelta_seconds 14400) after_two_dms.

(** The thread of bob as his DM leaves it. *)
Definition bob_thread : ThreadData :=
  new_thread_data 43 5001 7 (noon + timedelta_seconds 60).

(** The next run of the task, five minutes after the first. *)
Definition next_run : World :=
  set_now (noon + timedelta_seconds 14700) (snd (cleanup_task four_hours_later)).

(** ** What the readers of the thread statistics find *)

(** The thread of alice has just been created. *)
Definition created_world : World :=
  snd (_create_new_thread alice (guild_seven []) alice_thread_id fresh_world).

(** The fields of the embeds sent to a channel. *)
Definition fields_sent (channel : Z) (evs : list Event)
    : list (string * string) :=
  flat_map (fun ev =>
    match ev with
    | EvChannelSend c (PEmbed embed) =>
        if c =? channel then emb_fields embed else []
    | _ => []
    end) evs.

(** ** A guild the sweep does not write to *)

(** Guild [gid] keeps its thread documents and every guild its settings;
    a sound guild cache is still sound. *)
Definition guild_kept (gid : Z) (w w' : World) : Prop :=
  all_threads gid w' = all_threads gid w
  /\ cfg_guild w' = cfg_guild w
  /\ (cache_wf w -> cache_wf w').
(** * Properties *)

(** ** Basic facts about the world and the monad *)

Lemma emit_all_nil w : emit_all [] w = w.
Proof. destruct w; unfold emit_all, set_trace; simpl. by rewrite app_nil_r. Qed.

Lemma emit_all_app evs1 evs2 w :
  emit_all evs2 (emit_all evs1 w) = emit_all (evs1 ++ evs2) w.
Proof. destruct w; unfold emit_all, set_trace; simpl. by rewrite app_assoc. Qed.

Lemma trace_emit_all evs w : trace (emit_all evs w) = trace w ++ evs.
Proof. reflexivity. Qed.

(** Running a [bind] whose first computation is known. *)
Lemma bind_gets {A B} (f : World -> A) (k : A -> M B) w :
  bind (gets f) k w = k (f w) w.
Proof. reflexivity. Qed.

Lemma bind_modify {B} (f : World -> World) (k : unit -> M B) w :
  bind (modify f) k w = k tt (f w).
Proof. reflexivity. Qed.

Lemma bind_ret {A B} (a : A) (k : A -> M B) w : bind (ret a) k w = k a w.
Proof. reflexivity. Qed.

Lemma bind_ok {A B} (m : M A) (k : A -> M B) w a w1 :
  m w = (Ok a, w1) -> bind m k w = k a w1.
Proof. intros H. unfold bind. by rewrite H. Qed.

Lemma bind_raise {A B} (m : M A) (k : A -> M B) w e w1 :
  m w = (Raise e, w1) -> bind m k w = (Raise e, w1).
Proof. intros H. unfold bind. by rewrite H. Qed.

Lemma try_except_ok {A} (body : M A) handles handler w a w1 :
  body w = (Ok a, w1) -> try_except body handles handler w = (Ok a, w1).
Proof. intros H. unfold try_except. by rewrite H. Qed.

Lemma ext_call_ok c ev w :
  ext_fail w c = None -> ext_call c ev w = (Ok tt, emit_all [ev] w).
Proof. intros H. unfold ext_call. by rewrite H. Qed.

Lemma dispatch_loop hook_name args registered w :
  for_each registered (fun hook =>
    try_except (await_hook hook_name hook args) any_exception
      (fun e => log LogError ("Error in extension hook " +:+ hook_name)
                    (Some e))) w
  = (Ok tt, emit_all (flat_map (hook_events hook_name args) registered) w).
Proof.
  revert w. induction registered as [|hook registered IH]; intros w; simpl.
  - by rewrite emit_all_nil.
  - unfold bind at 1, try_except, await_hook, hook_events.
    destruct (hook_call hook args) as [e|]; simpl.
    + unfold log, emit, modify. rewrite IH, !emit_all_app. reflexivity.
    + rewrite IH, emit_all_app. reflexivity.
Qed.

Lemma trigger_hook_run hook_name args w :
  _trigger_hook hook_name args w
  = (Ok tt,
     emit_all (flat_map (hook_events hook_name args)
                 (default [] (hooks w !! hook_name))) w).
Proof. unfold _trigger_hook, bind, gets. apply dispatch_loop. Qed.


(** ** Rate limiting *)

Lemma set_rate_limits_twice x y w :
  set_rate_limits x (set_rate_limits y w) = set_rate_limits x w.
Proof. reflexivity. Qed.

(** One enabled check in closed form: the expired timestamps are dropped,
    and the call is recorded only when it is let through. *)
Lemma is_rate_limited_enabled user guild w :
  rl_enabled (rate_limiting (guild_config guild w)) = true ->
  let rc := rate_limiting (guild_config guild w) in
  let key := rate_key guild user in
  let kept :=
    List.filter (fun ts => now w - timedelta_seconds (time_window rc) <? ts)
      (rate_entries key w) in
  _is_rate_limited user guild w =
    if max_messages rc <=? Z.of_nat (length kept)
    then (Ok true, set_rate_limits (<[key := kept]> (rate_limits w)) w)
    else (Ok false, set_rate_limits (<[key := kept ++ [now w]]> (rate_limits w)) w).
Proof.
  intros Hen rc key kept.
  unfold _is_rate_limited, bind, gets, utcnow, modify, ret.
  rewrite Hen. simpl. fold rc key.
  assert (Hentries :
    rate_entries key
      match rate_limits w !! key with
      | Some _ => w
      | None => set_rate_limits (<[key:=[]]> (rate_limits w)) w
      end = rate_entries key w).
  { unfold rate_entries. destruct (rate_limits w !! key) eqn:E; simpl.
    - by rewrite E.
    - by rewrite lookup_insert_eq. }
  assert (Hins : forall x,
    set_rate_limits
      (<[key:=x]>
         (rate_limits
            match rate_limits w !! key with
            | Some _ => w
            | None => set_rate_limits (<[key:=[]]> (rate_limits w)) w
            end))
      match rate_limits w !! key with
      | Some _ => w
      | None => set_rate_limits (<[key:=[]]> (rate_limits w)) w
      end = set_rate_limits (<[key:=x]> (rate_limits w)) w).
  { intros x. destruct (rate_limits w !! key); [done|].
    simpl. rewrite set_rate_limits_twice. by rewrite insert_insert_eq. }
  rewrite Hentries, Hins. fold kept.
  unfold rate_entries at 1. simpl. rewrite lookup_insert_eq. simpl.
  destruct (max_messages rc <=? Z.of_nat (length kept)); [done|].
  unfold rate_entries. simpl. rewrite lookup_insert_eq. simpl.
  by rewrite insert_insert_eq.
Qed.

Lemma is_rate_limited_disabled user guild w :
  rl_enabled (rate_limiting (guild_config guild w)) = false ->
  _is_rate_limited user guild w = (Ok false, w).
Proof.
  intros Hdis. unfold _is_rate_limited, bind, gets. by rewrite Hdis.
Qed.

Lemma filter_expired cutoff (l : list Z) :
  Forall (fun ts => ts <= cutoff) l ->
  List.filter (fun ts => cutoff <? ts) l = [].
Proof.
  induction 1 as [|ts l Hts _ IH]; simpl; [done|].
  destruct (Z.ltb_spec cutoff ts); [lia|done].
Qed.

Lemma filter_live cutoff (l : list Z) :
  Forall (fun ts => cutoff < ts) l ->
  List.filter (fun ts => cutoff <? ts) l = l.
Proof.
  induction 1 as [|ts l Hts _ IH]; simpl; [done|].
  destruct (Z.ltb_spec cutoff ts); [by rewrite IH|lia].
Qed.

(** The world after an enabled check at time [t] that found [kept] live
    timestamps and recorded [entries]. *)
Lemma rate_state_after key entries t w :
  rate_entries key (set_rate_limits (<[key := entries]> (rate_limits (set_now t w))) (set_now t w))
  = entries.
Proof. unfold rate_entries. simpl. by rewrite lookup_insert_eq. Qed.

Lemma rate_step_entries key t entries w :
  rate_entries key (rate_step key t entries w) = entries.
Proof. unfold rate_entries, rate_step. simpl. by rewrite lookup_insert_eq. Qed.

Lemma rate_step_config key t entries guild w :
  guild_config guild (rate_step key t entries w) = guild_config guild w.
Proof. reflexivity. Qed.

Lemma check_at_enabled user guild t w kept :
  let rc := rate_limiting (guild_config guild w) in
  let key := rate_key guild user in
  rl_enabled rc = true ->
  List.filter (fun ts => t - timedelta_seconds (time_window rc) <? ts)
    (rate_entries key w) = kept ->
  check_at user guild t w =
    if max_messages rc <=? Z.of_nat (length kept)
    then (Ok true, rate_step key t kept w)
    else (Ok false, rate_step key t (kept ++ [t]) w).
Proof.
  intros rc key Hen Hkept. unfold check_at.
  rewrite is_rate_limited_enabled by exact Hen.
  change (guild_config guild (set_now t w)) with (guild_config guild w).
  change (now (set_now t w)) with t.
  change (rate_entries (rate_key guild user) (set_now t w))
    with (rate_entries key w).
  fold rc. rewrite Hkept. reflexivity.
Qed.

(** C4. With rate limiting enabled, [max_messages = 5] and
    [time_window = 300], and no live timestamp under the key at the first
    check: five checks at times within one window are all let through and
    each appends its timestamp; a sixth within the same window is limited
    and appends nothing; a check once the window has passed since the fifth
    is let through again.  With rate limiting disabled the check answers
    [False] and leaves the world as it is. *)
Theorem rate_limit_sliding_window :
  forall (w : World) (guild user t1 t2 t3 t4 t5 t6 t7 : Z),
    let rc := rate_limiting (guild_config guild w) in
    let key := rate_key guild user in
    rl_enabled rc = true ->
    max_messages rc = 5 ->
    time_window rc = 300 ->
    Forall (fun ts => ts + timedelta_seconds 300 <= t1) (rate_entries key w) ->
    t1 <= t2 -> t2 <= t3 -> t3 <= t4 -> t4 <= t5 -> t5 <= t6 ->
    t6 < t1 + timedelta_seconds 300 ->
    t5 + timedelta_seconds 300 <= t7 ->
    (exists w1 w2 w3 w4 w5 w6 w7 : World,
       check_at user guild t1 w = (Ok false, w1)
       /\ rate_entries key w1 = [t1]
       /\ check_at user guild t2 w1 = (Ok false, w2)
       /\ rate_entries key w2 = [t1; t2]
       /\ check_at user guild t3 w2 = (Ok false, w3)
       /\ rate_entries key w3 = [t1; t2; t3]
       /\ check_at user guild t4 w3 = (Ok false, w4)
       /\ rate_entries key w4 = [t1; t2; t3; t4]
       /\ check_at user guild t5 w4 = (Ok false, w5)
       /\ rate_entries key w5 = [t1; t2; t3; t4; t5]
       /\ check_at user guild t6 w5 = (Ok true, w6)
       /\ rate_entries key w6 = [t1; t2; t3; t4; t5]
       /\ check_at user guild t7 w6 = (Ok false, w7)
       /\ rate_entries key w7 = [t7])
    /\ (forall w' : World,
          rl_enabled (rate_limiting (guild_config guild w')) = false ->
          _is_rate_limited user guild w' = (Ok false, w')).
Proof.
  intros w guild user t1 t2 t3 t4 t5 t6 t7 rc key Hen Hmax Hwin Hold
    H12 H23 H34 H45 H56 Hin Hout.
  split; [|intros w'; apply is_rate_limited_disabled].
  unfold timedelta_seconds in *.
  set (w1 := rate_step key t1 [t1] w).
  set (w2 := rate_step key t2 [t1; t2] w1).
  set (w3 := rate_step key t3 [t1; t2; t3] w2).
  set (w4 := rate_step key t4 [t1; t2; t3; t4] w3).
  set (w5 := rate_step key t5 [t1; t2; t3; t4; t5] w4).
  set (w6 := rate_step key t6 [t1; t2; t3; t4; t5] w5).
  set (w7 := rate_step key t7 [t7] w6).
  exists w1, w2, w3, w4, w5, w6, w7.
  assert (Hstep : forall t entries kept w0,
    guild_config guild w0 = guild_config guild w ->
    rate_entries key w0 = entries ->
    List.filter (fun ts => t - 300 * 1000000 <? ts) entries = kept ->
    check_at user guild t w0 =
      if 5 <=? Z.of_nat (length kept)
      then (Ok true, rate_step key t kept w0)
      else (Ok false, rate_step key t (kept ++ [t]) w0)).
  { intros t entries kept w0 Hcfg Hent Hkept.
    rewrite (check_at_enabled user guild t w0 kept).
    - rewrite Hcfg. fold rc. by rewrite Hmax.
    - rewrite Hcfg. exact Hen.
    - rewrite Hcfg. fold rc. rewrite Hwin. fold key. rewrite Hent.
      unfold timedelta_seconds. exact Hkept. }
  assert (Hlive : forall t l,
    Forall (fun ts => t - 300 * 1000000 < ts) l ->
    List.filter (fun ts => t - 300 * 1000000 <? ts) l = l)
    by (intros; by apply filter_live).
  assert (Hdead : forall t l,
    Forall (fun ts => ts <= t - 300 * 1000000) l ->
    List.filter (fun ts => t - 300 * 1000000 <? ts) l = [])
    by (intros; by apply filter_expired).
  repeat split; try apply rate_step_entries.
  - rewrite (Hstep t1 (rate_entries key w) [] w); [done|done|done|].
    apply Hdead. eapply Forall_impl; [exact Hold|]. simpl. intros; lia.
  - rewrite (Hstep t2 [t1] [t1] w1); [done|done|apply rate_step_entries|].
    apply Hlive. repeat constructor; lia.
  - rewrite (Hstep t3 [t1; t2] [t1; t2] w2); [done|done|apply rate_step_entries|].
    apply Hlive. repeat constructor; lia.
  - rewrite (Hstep t4 [t1; t2; t3] [t1; t2; t3] w3);
      [done|done|apply rate_step_entries|].
    apply Hlive. repeat constructor; lia.
  - rewrite (Hstep t5 [t1; t2; t3; t4] [t1; t2; t3; t4] w4);
      [done|done|apply rate_step_entries|].
    apply Hlive. repeat constructor; lia.
  - rewrite (Hstep t6 [t1; t2; t3; t4; t5] [t1; t2; t3; t4; t5] w5);
      [done|done|apply rate_step_entries|].
    apply Hlive. repeat constructor; lia.
  - rewrite (Hstep t7 [t1; t2; t3; t4; t5] [] w6);
      [done|done|apply rate_step_entries|].
    apply Hdead. repeat constructor; lia.
Qed.

(** ** Eligibility *)

(** C10. When [require_server_member] is false the eligibility check reads
    neither [min_server_age] nor the guild's member list: its answer is
    that of the account-age test alone, so a user who satisfies
    [min_account_age] passes, member or not, whatever [min_server_age]
    says. *)
Theorem server_age_checked_only_for_required_members :
  forall (user : User) (guild : Guild) (config : GuildConfig) (w : World),
    let requirements := user_requirements config in
    let min_age := min_account_age requirements in
    let account_age := now w - user_created_at user in
    require_server_member requirements = false ->
    _check_user_requirements user guild config w
    = (Ok (negb ((0 <? min_age) && (account_age <? timedelta_seconds min_age))),
       w)
    /\ (min_age <= 0 \/ timedelta_seconds min_age <= account_age ->
        _check_user_requirements user guild config w = (Ok true, w)).
Proof.
  intros user guild config w requirements min_age account_age Hreq.
  assert (Heq : _check_user_requirements user guild config w
    = (Ok (negb ((0 <? min_age) && (account_age <? timedelta_seconds min_age))),
       w)).
  { unfold _check_user_requirements, bind, utcnow, gets.
    fold requirements min_age account_age.
    destruct ((0 <? min_age) && (account_age <? timedelta_seconds min_age));
      [done|].
    by rewrite Hreq. }
  split; [exact Heq|].
  intros Hage. rewrite Heq. do 2 f_equal.
  destruct (Z.ltb_spec 0 min_age); [|done].
  destruct (Z.ltb_spec account_age (timedelta_seconds min_age)); [lia|done].
Qed.

(** The eligibility check and the blocked check only read the world. *)
Lemma check_user_requirements_reads user guild config w :
  snd (_check_user_requirements user guild config w) = w
  /\ exists b, fst (_check_user_requirements user guild config w) = Ok b.
Proof.
  unfold _check_user_requirements, bind, utcnow, gets, ret.
  repeat match goal with
         | |- context [if ?b then _ else _] => destruct b
         | |- context [match ?o with Some _ => _ | None => _ end] => destruct o
         end; simpl; eauto.
Qed.

Lemma find_eligible_guilds_reads author w :
  exists guilds, find_eligible_guilds author w = (Ok guilds, w).
Proof.
  unfold find_eligible_guilds, bind at 1, gets at 1.
  induction (bot_guilds w) as [|guild guilds IH]; simpl.
  - eexists; reflexivity.
  - destruct IH as [rest Hrest].
    unfold bind at 1. unfold bind at 1. unfold gets at 1.
    destruct (negb (enabled (guild_config (guild_id guild) w))).
    + unfold ret at 1. unfold bind at 1. rewrite Hrest. eexists; reflexivity.
    + destruct (check_user_requirements_reads author guild
                  (guild_config (guild_id guild) w) w) as [Hw [b Hb]].
      destruct (_check_user_requirements author guild
                  (guild_config (guild_id guild) w) w) as [r w'] eqn:E.
      simpl in Hw, Hb. subst w' r. unfold bind at 1. rewrite Hrest.
      eexists; reflexivity.
Qed.

(** C8. A DM of a human who is blocked for the target guild (the first
    eligible one), whether globally, by the flag of the user record or by
    the guild's block list, ends at [Blocked] and leaves the world exactly
    as it was: no thread document, no pointer, no rate-limit slot, and an
    unchanged trace, hence no hook call and no message to anyone. *)
Theorem blocked_user_dropped_silently :
  forall (message : Message) (w : World) (target : Guild) (others : list Guild),
    let author := msg_author message in
    let uid := user_id author in
    msg_channel_kind message = DMChannel ->
    user_bot author = false ->
    fst (find_eligible_guilds author w) = Ok (target :: others) ->
    (str_Z uid ∈ globally_blocked_users (cfg_global w)
     \/ blocked (user_data uid w) = true
     \/ (guild_id target <> 0
         /\ In uid (blocked_users (guild_config (guild_id target) w)))) ->
    _is_user_blocked uid (Some (guild_id target)) w = (Ok true, w)
    /\ on_message_without_command message w = (Ok Blocked, w).
Proof.
  intros message w target others author uid Hdm Hbot Helig Hblocked.
  assert (Hb : _is_user_blocked uid (Some (guild_id target)) w = (Ok true, w)).
  { unfold _is_user_blocked, bind, gets, ret.
    destruct (bool_decide (str_Z uid ∈ globally_blocked_users (cfg_global w)))
      eqn:Hg; [done|].
    destruct (blocked (user_data uid w)) eqn:Hu; [done|].
    destruct Hblocked as [Hin | [Hflag | [Hnz Hin]]].
    - apply bool_decide_eq_false in Hg. contradiction.
    - congruence.
    - simpl. destruct (Z.eqb_spec (guild_id target) 0) as [|_]; [contradiction|].
      simpl.
      assert (Hex : existsb (Z.eqb uid)
                      (blocked_users (guild_config (guild_id target) w)) = true).
      { apply existsb_exists. exists uid. split; [exact Hin|apply Z.eqb_refl]. }
      by rewrite Hex. }
  split; [exact Hb|].
  unfold on_message_without_command. fold author. rewrite Hdm, Hbot.
  destruct (find_eligible_guilds_reads author w) as [guilds Hguilds].
  rewrite Hguilds in Helig. simpl in Helig. injection Helig as ->.
  unfold bind at 1. rewrite Hguilds.
  unfold bind at 1. fold uid. rewrite Hb. reflexivity.
Qed.

(** ** Closing *)

(** C7. Where the guild requires a close reason, [modmail close] with no
    reason (absent or empty) in the channel of an open thread stops at
    [ReasonRequired]: it only asks for a reason in the channel (or raises
    when even that send fails) and writes nothing: the thread documents and
    the active-thread pointers are those of before, so the thread is still
    open with no close fields. *)
Theorem close_without_required_reason_refused :
  forall (ctx : Context) (reason : option string) (reaction : Reaction)
         (w : World) (thread_id : string) (thread_data : ThreadData),
    let channel := ctx_channel ctx in
    let cid := channel_id channel in
    let result := modmail_close ctx reason reaction w in
    require_close_reason
      (thread_settings (guild_config (guild_id (ctx_guild ctx)) w)) = true ->
    truthy_str reason = false ->
    _is_modmail_channel channel = true ->
    thread_of_channel channel w = Some (thread_id, thread_data) ->
    td_status thread_data = st_open ->
    result
    = match ext_fail w (CallChannelSend cid) with
      | None =>
          (Ok ReasonRequired,
           emit_all
             [EvChannelSend cid
                (PText "Please provide a reason for closing this thread.")] w)
      | Some e => (Raise e, w)
      end
    /\ cfg_thread (snd result) = cfg_thread w
    /\ cfg_conv (snd result) = cfg_conv w
    /\ thread_of_channel channel (snd result) = Some (thread_id, thread_data)
    /\ td_status thread_data = st_open.
Proof.
  intros ctx reason reaction w thread_id thread_data channel cid result
    Hreq Hreason Hname Hfound Hopen.
  assert (Hres : result
    = match ext_fail w (CallChannelSend cid) with
      | None =>
          (Ok ReasonRequired,
           emit_all
             [EvChannelSend cid
                (PText "Please provide a reason for closing this thread.")] w)
      | Some e => (Raise e, w)
      end).
  { subst result channel cid. unfold modmail_close. rewrite Hname. simpl.
    unfold bind at 1. unfold _get_thread_data_from_channel, bind at 1, gets at 1.
    unfold thread_of_channel in Hfound. rewrite Hfound.
    unfold ret at 1. simpl.
    unfold bind at 1, gets at 1. rewrite Hreq, Hreason. simpl.
    unfold bind, channel_send, ext_call.
    destruct (ext_fail w (CallChannelSend (channel_id (ctx_channel ctx))));
      reflexivity. }
  split; [exact Hres|].
  rewrite Hres.
  destruct (ext_fail w (CallChannelSend cid)); simpl; auto.
Qed.

(** ** Frame rules *)

Section FrameRules.
Context (R : World -> World -> Prop) `{!FrameRel R}.

Lemma frame_ret {A} (a : A) : frame R (ret a).
Proof. intros w. apply frame_refl. Qed.

Lemma frame_raise {A} e : frame R (@raise A e).
Proof. intros w. apply frame_refl. Qed.

Lemma frame_gets {A} (f : World -> A) : frame R (gets f).
Proof. intros w. apply frame_refl. Qed.

Lemma frame_modify (f : World -> World) :
  (forall w, R w (f w)) -> frame R (modify f).
Proof. intros Hf w. apply Hf. Qed.

Lemma frame_bind {A B} (m : M A) (k : A -> M B) :
  frame R m -> (forall a, frame R (k a)) -> frame R (bind m k).
Proof.
  intros Hm Hk w. unfold bind. specialize (Hm w).
  destruct (m w) as [[a|e] w1]; simpl in *; [|exact Hm].
  eapply frame_trans; [exact Hm|apply Hk].
Qed.

Lemma frame_try_except {A} (body : M A) handles handler :
  frame R body -> (forall e, frame R (handler e)) ->
  frame R (try_except body handles handler).
Proof.
  intros Hb Hh w. unfold try_except. specialize (Hb w).
  destruct (body w) as [[a|e] w1]; simpl in *; [exact Hb|].
  destruct (handles e); [|exact Hb].
  eapply frame_trans; [exact Hb|apply Hh].
Qed.

Lemma frame_for_each {A} (l : list A) (body : A -> M unit) :
  (forall x, frame R (body x)) -> frame R (for_each l body).
Proof.
  intros Hb. induction l as [|x l IH]; simpl.
  - apply frame_ret.
  - apply frame_bind; [apply Hb|intros _; exact IH].
Qed.

Lemma frame_emit ev : frame R (emit ev).
Proof. intros w. apply frame_emit_all. Qed.

Lemma frame_log level msg e : frame R (log level msg e).
Proof. apply frame_emit. Qed.

Lemma frame_ext_call c ev : frame R (ext_call c ev).
Proof.
  intros w. unfold ext_call. destruct (ext_fail w c); simpl.
  - apply frame_refl.
  - apply frame_emit_all.
Qed.

Lemma frame_user_send user p : frame R (user_send user p).
Proof. apply frame_ext_call. Qed.

Lemma frame_channel_send channel p : frame R (channel_send channel p).
Proof. apply frame_ext_call. Qed.

Lemma frame_modlog_create_case guild action user moderator reason :
  frame R (modlog_create_case guild action user moderator reason).
Proof. apply frame_ext_call. Qed.

Lemma frame_attachment_to_file att : frame R (attachment_to_file att).
Proof.
  intros w. unfold attachment_to_file.
  destruct (ext_fail w _); apply frame_refl.
Qed.

Lemma frame_utcnow : frame R utcnow.
Proof. apply frame_gets. Qed.

Lemma frame_trigger_hook hook_name args : frame R (_trigger_hook hook_name args).
Proof. intros w. rewrite trigger_hook_run. apply frame_emit_all. Qed.

Lemma frame_channel_edit ch name :
  (forall w, R w (map_guild_channels (channel_guild ch)
                    (on_channel (channel_id ch) (rename_channel name)) w)) ->
  frame R (channel_edit ch name).
Proof.
  intros H. apply frame_bind; [apply frame_ext_call|intros _].
  by apply frame_modify.
Qed.

Lemma frame_channel_delete ch reason :
  (forall w, R w (map_guild_channels (channel_guild ch)
                    (List.filter (fun c => negb (channel_id c =? channel_id ch)))
                    w)) ->
  frame R (channel_delete ch reason).
Proof.
  intros H. apply frame_bind; [apply frame_ext_call|intros _].
  by apply frame_modify.
Qed.

Lemma frame_channel_set_permissions ch target o :
  (forall w, R w (map_guild_channels (channel_guild ch)
                    (on_channel (channel_id ch) (set_channel_overwrite target o))
                    w)) ->
  frame R (channel_set_permissions ch target o).
Proof.
  intros H. apply frame_bind; [apply frame_ext_call|intros _].
  by apply frame_modify.
Qed.
End FrameRules.

#[local] Instance same_threads_frame : FrameRel same_threads.
Proof. split; unfold same_threads; intros; simpl; congruence. Qed.

#[local] Instance same_env_frame : FrameRel same_env.
Proof.
  split; unfold same_env; intros; simpl; intuition congruence.
Qed.

#[local] Instance same_channels_but_frame g c : FrameRel (same_channels_but g c).
Proof.
  split; unfold same_channels_but.
  - done.
  - intros w1 w2 w3 H12 H23 g' c' Hne. by rewrite H23, H12.
  - done.
Qed.

(** ** The channel cache under edits *)

Lemma find_guild_map_guild_channels g' g F w :
  find_guild g' (map_guild_channels g F w)
  = option_map (fun x =>
      if guild_id x =? g then
        {| guild_id := guild_id x; guild_name := guild_name x;
           guild_me := guild_me x; guild_default_role := guild_default_role x;
           guild_roles := guild_roles x; guild_members := guild_members x;
           guild_channels := F (guild_channels x) |}
      else x) (find_guild g' w).
Proof.
  unfold find_guild, map_guild_channels. simpl.
  induction (bot_guilds w) as [|x l IH]; simpl; [done|].
  destruct (guild_id x =? g) eqn:Hx; simpl.
  - destruct (guild_id x =? g'); simpl; [by rewrite Hx|exact IH].
  - destruct (guild_id x =? g'); simpl; [by rewrite Hx|exact IH].
Qed.

Lemma find_guild_id g w x : find_guild g w = Some x -> guild_id x = g.
Proof.
  unfold find_guild. intros H. apply List.find_some in H as [_ H]. lia.
Qed.

Lemma find_on_channel c c' f l :
  (forall ch, channel_id (f ch) = channel_id ch) ->
  c' <> c ->
  List.find (fun ch => channel_id ch =? c') (on_channel c f l)
  = List.find (fun ch => channel_id ch =? c') l.
Proof.
  intros Hf Hne. unfold on_channel.
  induction l as [|ch l IH]; simpl; [done|].
  destruct (channel_id ch =? c) eqn:Hc.
  - rewrite Hf. apply Z.eqb_eq in Hc.
    destruct (Z.eqb_spec (channel_id ch) c'); [congruence|exact IH].
  - destruct (channel_id ch =? c'); [done|exact IH].
Qed.

Lemma find_filter_channel c c' l :
  c' <> c ->
  List.find (fun ch => channel_id ch =? c')
    (List.filter (fun ch => negb (channel_id ch =? c)) l)
  = List.find (fun ch => channel_id ch =? c') l.
Proof.
  intros Hne. induction l as [|ch l IH]; simpl; [done|].
  destruct (channel_id ch =? c) eqn:Hc; simpl.
  - apply Z.eqb_eq in Hc.
    destruct (Z.eqb_spec (channel_id ch) c'); [congruence|exact IH].
  - destruct (channel_id ch =? c'); [done|exact IH].
Qed.

(** Editing the channels of guild [g] with an edit that only concerns
    channel [c] leaves every other channel resolving as before. *)
Lemma same_channels_but_edit g c F w :
  (forall c' l, c' <> c ->
     List.find (fun ch => channel_id ch =? c') (F l)
     = List.find (fun ch => channel_id ch =? c') l) ->
  same_channels_but g c w (map_guild_channels g F w).
Proof.
  intros HF g' c' Hne. unfold guild_get_channel.
  rewrite find_guild_map_guild_channels.
  destruct (find_guild g' w) as [x|] eqn:Hx; simpl; [|done].
  apply find_guild_id in Hx. subst g'.
  destruct (Z.eqb_spec (guild_id x) g) as [Hg|Hg]; simpl; [|done].
  apply HF. destruct Hne; [contradiction|done].
Qed.

(** ** [_close_thread] *)

Ltac frame_step :=
  first
    [ apply frame_ret; exact _ | apply frame_raise; exact _
    | apply frame_gets; exact _ | apply frame_utcnow; exact _
    | apply frame_log; exact _ | apply frame_emit; exact _
    | apply frame_user_send; exact _ | apply frame_channel_send; exact _
    | apply frame_modlog_create_case; exact _
    | apply frame_trigger_hook; exact _
    | apply frame_attachment_to_file; exact _
    | apply frame_ext_call; exact _
    | apply frame_bind; [exact _| |intros ?]
    | apply frame_try_except; [exact _| |intros ?]
    | apply frame_for_each; [exact _|intros ?]
    | match goal with
      | |- frame _ (if ?b then _ else _) => destruct b
      | |- frame _ (match ?x with _ => _ end) => destruct x
      end ].

Ltac frame_write tac :=
  first
    [ apply frame_modify; intros ?; tac
    | apply frame_channel_edit; [exact _|intros ?; tac]
    | apply frame_channel_delete; [exact _|intros ?; tac]
    | apply frame_channel_set_permissions; [exact _|intros ?; tac] ].

Lemma close_thread_same_env channel closer reason thread_data :
  frame same_env (_close_thread channel closer reason thread_data).
Proof.
  unfold _close_thread, _update_thread_data.
  repeat first
    [ frame_step | frame_write ltac:(split; [|split]; reflexivity) ].
Qed.

Lemma close_thread_same_channels channel closer reason thread_data :
  frame (same_channels_but (channel_guild channel) (channel_id channel))
    (_close_thread channel closer reason thread_data).
Proof.
  unfold _close_thread, _update_thread_data.
  repeat first
    [ frame_step
    | frame_write ltac:(first
        [ done
        | apply same_channels_but_edit; intros;
          first [ apply find_on_channel; done
                | apply find_filter_channel; done ] ]) ].
Qed.

Lemma try_except_gets {A B} (f : World -> A) (k : A -> M B) handles handler w :
  try_except (bind (gets f) k) handles handler w
  = try_except (k (f w)) handles handler w.
Proof. reflexivity. Qed.

(** Once the first statement of a [try] block has run, a frame of the
    rest of the block and of the handler is a frame of the whole. *)
Lemma frame_after_first R `{!FrameRel R} {A B} (m : M A) (k : A -> M B)
    handles handler w a w1 :
  m w = (Ok a, w1) ->
  frame R (k a) -> (forall e, frame R (handler e)) ->
  R w1 (snd (try_except (bind m k) handles handler w)).
Proof.
  intros Hm Hk Hh. unfold try_except, bind. rewrite Hm.
  specialize (Hk w1). destruct (k a w1) as [[b|e] w2]; simpl in *; [done|].
  destruct (handles e); [|done].
  eapply frame_trans; [exact Hk|apply Hh].
Qed.

(** The thread documents after [_close_thread], whether or not the later
    steps of the close fail: the document of the channel carries the close
    fields of this call, whatever its status was. *)
Lemma close_thread_store channel closer reason thread_data w :
  cfg_thread (snd (_close_thread channel closer reason thread_data w))
  = cfg_thread (close_store channel (member_id closer) reason w).
Proof.
  unfold _close_thread. rewrite try_except_gets.
  change (cfg_thread ?x = cfg_thread ?y) with (same_threads y x).
  eapply frame_after_first; [exact _| | |].
  - unfold close_store, thread_of_channel.
    destruct (List.find _ (all_threads (channel_guild channel) w))
      as [[t_id data]|]; simpl; [|reflexivity].
    destruct (negb (t_id =? EmptyString)%string); reflexivity.
  - repeat first [ frame_step | frame_write ltac:(reflexivity) ].
  - intros e. repeat first [ frame_step | frame_write ltac:(reflexivity) ].
Qed.

(** [_close_thread] swallows every exception of its body; it returns
    normally as long as the channel can be written to. *)
Lemma close_thread_returns channel closer reason thread_data w :
  ext_fail w (CallChannelSend (channel_id channel)) = None ->
  fst (_close_thread channel closer reason thread_data w) = Ok tt.
Proof.
  intros Hsend.
  pose proof (close_thread_same_env channel closer reason thread_data) as Henv.
  unfold _close_thread in *. unfold try_except in *.
  match goal with
  | |- context [match ?body w with _ => _ end] =>
      assert (Hbody : same_env w (snd (body w)));
      [ unfold _update_thread_data;
        repeat first
          [ frame_step | frame_write ltac:(split; [|split]; reflexivity) ]
      | destruct (body w) as [[[]|e] w1] ]
  end; simpl in *; [done|].
  destruct Hbody as (_ & Hfail & _).
  unfold bind, log, emit, modify, channel_send, ext_call. simpl.
  by rewrite Hfail, Hsend.
Qed.

(** ** Dicts in insertion order *)

Lemma dict_get_set_eq {V} k (v : V) d : dict_get k (dict_set k v d) = Some v.
Proof.
  induction d as [|[k' v'] d IH]; simpl.
  - by rewrite String.eqb_refl.
  - destruct (String.eqb k k') eqn:E; simpl.
    + by rewrite String.eqb_refl.
    + by rewrite E.
Qed.


Lemma dict_get_In {V} k (v : V) d :
  NoDup (List.map fst d) -> In (k, v) d -> dict_get k d = Some v.
Proof.
  induction d as [|[k0 v0] d IH]; simpl; [done|].
  intros Hnd [Heq|Hin].
  - injection Heq as -> ->. by rewrite String.eqb_refl.
  - apply NoDup_cons in Hnd as [Hk0 Hnd].
    destruct (String.eqb_spec k k0) as [->|_]; [|by apply IH].
    exfalso. apply Hk0. apply list_elem_of_In.
    apply (in_map fst) in Hin. exact Hin.
Qed.


Lemma all_threads_thread_set g k v w :
  all_threads g (thread_set g k v w) = dict_set k v (all_threads g w).
Proof. unfold all_threads, thread_set. simpl. by rewrite lookup_insert_eq. Qed.

Lemma all_threads_thread_set_ne g g' k v w :
  g <> g' -> all_threads g' (thread_set g k v w) = all_threads g' w.
Proof.
  intros Hne. unfold all_threads, thread_set. simpl.
  by rewrite lookup_insert_ne.
Qed.

Lemma all_threads_same g w w' :
  cfg_thread w' = cfg_thread w -> all_threads g w' = all_threads g w.
Proof. unfold all_threads. by intros ->. Qed.


(** ** Thread creation *)

(** When the category is configured and resolves to a
    category channel and Discord creates the channel, [_create_new_thread]
    returns the new channel, stores under [thread_id] a document that is
    open, has [message_count = 0] and the user as only participant, points
    [active_thread] of the (guild, user) conversation at the new channel
    (the pointer holds the channel id, not the thread id) and adds one to
    the global [total_threads_created]. *)
Theorem new_thread_is_recorded :
  forall (user : User) (guild : Guild) (thread_id : string) (w : World)
         (category : Channel),
    let gid := guild_id guild in
    let uid := user_id user in
    let config := guild_config gid w in
    let result := _create_new_thread user guild thread_id w in
    truthy_id (category_id config) = true ->
    guild_get_channel gid (category_id config) w = Some category ->
    channel_kind category = CategoryChannel ->
    ext_fail w (CallCreateTextChannel gid) = None ->
    exists (channel : Channel) (data : ThreadData),
      fst result = Ok (Some channel)
      /\ channel_id channel = next_snowflake w
      /\ dict_get thread_id (all_threads gid (snd result)) = Some data
      /\ data = new_thread_data uid (channel_id channel) gid (now w)
      /\ td_status data = st_open
      /\ td_message_count data = 0
      /\ td_participants data = [uid]
      /\ active_thread (user_conv gid uid (snd result))
         = Some (channel_id channel)
      /\ total_threads_created (cfg_global (snd result))
         = total_threads_created (cfg_global w) + 1.
Proof.
  intros user guild thread_id w category gid uid config result
    Hcat Hget Hkind Hcreate.
  subst config. subst result.
  eassert (Hr : _create_new_thread user guild thread_id w = (Ok (Some _), _)).
  { unfold _create_new_thread. fold gid.
    rewrite bind_gets, Hcat. cbn [negb].
    rewrite bind_gets, Hget, Hkind.
    apply try_except_ok.
    erewrite bind_ok;
      [|unfold create_text_channel; rewrite Hcreate; reflexivity].
    unfold utcnow. rewrite bind_gets, !bind_modify, bind_gets, bind_modify.
    erewrite bind_ok; [|apply trigger_hook_run].
    reflexivity. }
  rewrite Hr. cbn [fst snd].
  eexists _, _. split; [reflexivity|]. split; [reflexivity|].
  split; [|split; [reflexivity|]].
  - unfold all_threads. cbn -[dict_set dict_get].
    rewrite lookup_insert_eq. cbn [default from_option].
    apply dict_get_set_eq.
  - repeat split.
    unfold user_conv. cbn -[dict_set dict_get]. by rewrite lookup_insert_eq.
Qed.

(** ** The sweep *)

Lemma get_channel_wf gid c ch w :
  cache_wf w -> guild_get_channel gid (Some c) w = Some ch ->
  channel_id ch = c /\ channel_guild ch = gid.
Proof.
  intros [_ Hwf] Hget. unfold guild_get_channel in Hget.
  destruct (find_guild gid w) as [g|] eqn:Hg; [|done].
  pose proof (find_guild_id _ _ _ Hg) as Hid.
  unfold find_guild in Hg. apply List.find_some in Hg as [Hin _].
  apply List.find_some in Hget as [Hch Hc].
  split; [lia|].
  rewrite List.Forall_forall in Hwf. specialize (Hwf g Hin).
  rewrite List.Forall_forall in Hwf. rewrite (Hwf ch Hch). exact Hid.
Qed.

Lemma get_channel_None gid w : guild_get_channel gid None w = None.
Proof. reflexivity. Qed.

Lemma swept_fst guild w item : fst (swept guild w item) = fst item.
Proof. unfold swept. by destruct (sweep_due _ _ _). Qed.

Lemma swept_channel guild w item :
  td_channel_id (snd (swept guild w item)) = td_channel_id (snd item).
Proof. unfold swept. by destruct (sweep_due _ _ _). Qed.

Lemma map_fst_swept guild w l :
  List.map fst (List.map (swept guild w) l) = List.map fst l.
Proof.
  rewrite List.map_map. apply List.map_ext. intros; apply swept_fst.
Qed.

Lemma thread_channels_swept guild w l :
  thread_channels (List.map (swept guild w) l) = thread_channels l.
Proof.
  unfold thread_channels. induction l as [|item l IH]; simpl; [done|].
  rewrite swept_channel.
  destruct (td_channel_id (snd item)); [f_equal|]; exact IH.
Qed.

Lemma thread_channels_app l1 l2 :
  thread_channels (l1 ++ l2) = thread_channels l1 ++ thread_channels l2.
Proof. unfold thread_channels. apply omap_app. Qed.

Lemma find_has_channel_app cid (l1 l2 : list (string * ThreadData)) k d :
  cid ∉ thread_channels l1 ->
  td_channel_id d = Some cid ->
  List.find (fun '(_, data) => has_channel cid data) (l1 ++ (k, d) :: l2)
  = Some (k, d).
Proof.
  intros Hnot Hd. induction l1 as [|[k1 d1] l1 IH]; simpl.
  - unfold has_channel. rewrite Hd, Z.eqb_refl. done.
  - unfold thread_channels in Hnot. simpl in Hnot.
    unfold has_channel at 1.
    destruct (td_channel_id d1) as [c1|] eqn:Hc1; simpl in Hnot.
    + apply not_elem_of_cons in Hnot as [Hne Hnot].
      destruct (Z.eqb_spec c1 cid); [congruence|]. by apply IH.
    + by apply IH.
Qed.

Lemma dict_set_app {V} k (v v0 : V) l1 l2 :
  k ∉ List.map fst l1 ->
  dict_set k v (l1 ++ (k, v0) :: l2) = l1 ++ (k, v) :: l2.
Proof.
  intros Hnot. induction l1 as [|[k1 v1] l1 IH]; simpl.
  - by rewrite String.eqb_refl.
  - simpl in Hnot. apply not_elem_of_cons in Hnot as [Hne Hnot].
    destruct (String.eqb_spec k k1); [congruence|]. by rewrite IH.
Qed.

Lemma dict_get_app {V} k (v0 : V) l1 l2 :
  k ∉ List.map fst l1 ->
  dict_get k (l1 ++ (k, v0) :: l2) = Some v0.
Proof.
  intros Hnot. induction l1 as [|[k1 v1] l1 IH]; simpl.
  - by rewrite String.eqb_refl.
  - simpl in Hnot. apply not_elem_of_cons in Hnot as [Hne Hnot].
    destruct (String.eqb_spec k k1); [congruence|]. by apply IH.
Qed.

Lemma same_env_now w0 w : same_env w0 w -> now w = now w0.
Proof. by intros (_ & _ & ?). Qed.

Lemma same_env_fail w0 w : same_env w0 w -> ext_fail w = ext_fail w0.
Proof. by intros (_ & ? & _). Qed.

Lemma same_env_config w0 w gid :
  same_env w0 w -> guild_config gid w = guild_config gid w0.
Proof. intros (H & _ & _). unfold guild_config. by rewrite H. Qed.

Lemma swept_skip guild w item :
  sweep_due (guild_id guild) w (snd item) = false -> swept guild w item = item.
Proof. unfold swept. by intros ->. Qed.

Lemma swept_close guild w item :
  sweep_due (guild_id guild) w (snd item) = true ->
  swept guild w item
  = (fst item,
     close_updates (now w) (Some auto_close_reason)
       (member_id (guild_me guild)) (snd item)).
Proof. unfold swept. by intros ->. Qed.

Section SweepGuild.
Variable guild : Guild.
Variable w0 : World.
Hypothesis cache_ok : cache_wf w0.
Hypothesis sends_ok : forall c, ext_fail w0 (CallChannelSend c) = None.

Let gid := guild_id guild.
Let cutoff :=
  now w0 - timedelta_seconds
             (auto_close_after (thread_settings (guild_config gid w0))).

Lemma sweep_inv_skip l1 k d l2 w :
  sweep_due gid w0 d = false ->
  sweep_inv guild w0 l1 ((k, d) :: l2) w ->
  sweep_inv guild w0 (l1 ++ [(k, d)]) l2 w.
Proof.
  intros Hdue (Hall & Henv & Hch). split; [|split].
  - rewrite Hall, List.map_app, <- app_assoc.
    cbn [List.map app]. by rewrite (swept_skip guild w0 (k, d)).
  - exact Henv.
  - intros c Hc. apply Hch. rewrite thread_channels_app in Hc.
    apply not_elem_of_app in Hc. tauto.
Qed.

Lemma sweep_lookup l1 k d l2 w :
  threads_wf (l1 ++ (k, d) :: l2) ->
  sweep_inv guild w0 l1 ((k, d) :: l2) w ->
  guild_get_channel gid (td_channel_id d) w
  = guild_get_channel gid (td_channel_id d) w0.
Proof.
  intros (_ & _ & Hnd) (_ & _ & Hch).
  destruct (td_channel_id d) as [cid|] eqn:Hd; [|done].
  apply Hch. rewrite thread_channels_app in Hnd.
  apply NoDup_app in Hnd as (_ & Hnd & _).
  intros Hin. apply (Hnd cid Hin).
  unfold thread_channels. simpl. rewrite Hd. apply list_elem_of_here.
Qed.

(** Closing the document at the head of [l2]. *)
Lemma sweep_inv_close l1 k d l2 w ch :
  threads_wf (l1 ++ (k, d) :: l2) ->
  sweep_inv guild w0 l1 ((k, d) :: l2) w ->
  sweep_due gid w0 d = true ->
  guild_get_channel gid (td_channel_id d) w = Some ch ->
  exists w',
    _close_thread ch (guild_me guild) (Some auto_close_reason) d w
    = (Ok tt, w')
    /\ sweep_inv guild w0 (l1 ++ [(k, d)]) l2 w'
    /\ (forall g', g' <> gid -> all_threads g' w' = all_threads g' w)
    /\ (forall g' c, g' <> gid ->
          guild_get_channel g' c w' = guild_get_channel g' c w).
Proof.
  intros Hwf Hinv Hdue Hget.
  pose proof (sweep_lookup _ _ _ _ _ Hwf Hinv) as Hsame. unfold gid in *.
  destruct Hwf as (Hkeys & Hitems & Hchans).
  destruct Hinv as (Hall & Henv & Hch).
  destruct (td_channel_id d) as [cid|] eqn:Hd; [|done].
  rewrite Hget in Hsame. symmetry in Hsame.
  destruct (get_channel_wf _ _ _ _ cache_ok Hsame) as [Hcid Hcg].
  set (m := _close_thread ch (guild_me guild) (Some auto_close_reason) d).
  exists (snd (m w)).
  assert (Hok : fst (m w) = Ok tt).
  { apply close_thread_returns.
    rewrite (same_env_fail _ _ Henv). apply sends_ok. }
  assert (Hnot1 : cid ∉ thread_channels l1).
  { rewrite thread_channels_app in Hchans.
    apply NoDup_app in Hchans as (_ & Hx & _).
    intros Hin. apply (Hx cid Hin).
    unfold thread_channels. simpl. rewrite Hd. apply list_elem_of_here. }
  assert (Hk1 : k ∉ List.map fst l1).
  { rewrite List.map_app in Hkeys.
    apply NoDup_app in Hkeys as (_ & Hx & _).
    intros Hin. apply (Hx k Hin). simpl. apply list_elem_of_here. }
  assert (Hkne : k <> EmptyString).
  { rewrite List.Forall_forall in Hitems.
    apply (Hitems (k, d)). apply in_or_app. right. by left. }
  assert (Hstore : cfg_thread (snd (m w))
    = cfg_thread
        (thread_set (guild_id guild) k
           (close_updates (now w0) (Some auto_close_reason)
              (member_id (guild_me guild)) d) w)).
  { unfold m. rewrite close_thread_store. unfold close_store.
    unfold thread_of_channel. rewrite Hcid, Hcg. rewrite Hall.
    rewrite find_has_channel_app;
      [|rewrite thread_channels_swept; exact Hnot1|exact Hd].
    destruct (String.eqb_spec k EmptyString) as [|_]; [contradiction|]. simpl.
    unfold thread_all. rewrite Hall.
    rewrite dict_get_app by (rewrite map_fst_swept; exact Hk1).
    simpl. by rewrite (same_env_now _ _ Henv). }
  pose proof (close_thread_same_env ch (guild_me guild)
                (Some auto_close_reason) d w) as Henv'.
  pose proof (close_thread_same_channels ch (guild_me guild)
                (Some auto_close_reason) d w) as Hch'.
  fold m in Henv', Hch'. rewrite Hcid, Hcg in Hch'.
  split; [by destruct (m w) as [r w1]; simpl in *; subst r|].
  split; [split; [|split]|split].
  - rewrite (all_threads_same (guild_id guild) _ _ Hstore).
    rewrite all_threads_thread_set. rewrite Hall.
    rewrite dict_set_app by (rewrite map_fst_swept; exact Hk1).
    rewrite List.map_app, <- app_assoc. cbn [List.map app].
    by rewrite (swept_close guild w0 (k, d)).
  - eapply frame_trans; [exact Henv|exact Henv'].
  - intros c Hc. rewrite thread_channels_app in Hc.
    apply not_elem_of_app in Hc as [Hc1 Hc2].
    rewrite Hch'.
    + by apply Hch.
    + right. intros ->. apply Hc2.
      unfold thread_channels. simpl. rewrite Hd. apply list_elem_of_here.
  - intros g' Hne. rewrite (all_threads_same g' _ _ Hstore).
    by apply all_threads_thread_set_ne.
  - intros g' [c|] Hne; [|done]. apply Hch'. by left.
Qed.

Lemma status_eqb_open d : status_eqb (td_status d) st_open = true ->
  td_status d = st_open.
Proof. by destruct (td_status d). Qed.

(** What the loop body does with the document at the head of [l2]:
    nothing when the document is not due, [_close_thread] on its channel
    when it is. *)
Lemma sweep_thread_cases l1 k d l2 w :
  threads_wf (l1 ++ (k, d) :: l2) ->
  sweep_inv guild w0 l1 ((k, d) :: l2) w ->
  (sweep_due gid w0 d = false
   /\ auto_close_thread guild cutoff (k, d) w = (Ok tt, w))
  \/ (sweep_due gid w0 d = true
      /\ exists ch,
           guild_get_channel gid (td_channel_id d) w = Some ch
           /\ auto_close_thread guild cutoff (k, d) w
              = _close_thread ch (guild_me guild) (Some auto_close_reason)
                  d w).
Proof.
  intros Hwf Hinv.
  pose proof (sweep_lookup _ _ _ _ _ Hwf Hinv) as Hlook.
  unfold sweep_due, auto_close_thread. fold gid cutoff.
  destruct (status_eqb (td_status d) st_open) eqn:Hs; cbn [negb andb];
    [|by left].
  apply status_eqb_open in Hs.
  destruct (td_created_at d) as [created|] eqn:Hcr.
  2:{ exfalso. destruct Hwf as (_ & Hitems & _).
      rewrite List.Forall_forall in Hitems.
      destruct (Hitems (k, d)) as [_ Hc];
        [apply in_or_app; right; by left|].
      by apply Hc. }
  unfold fromisoformat. rewrite bind_ret.
  destruct (created <? cutoff) eqn:Hold; [|by left].
  rewrite bind_gets, Hlook.
  destruct (guild_get_channel gid (td_channel_id d) w0) as [ch|] eqn:Hch;
    [|by left].
  right. split; [done|]. by exists ch.
Qed.

(** The inner loop of the sweep over the documents still to come. *)
Lemma sweep_threads_loop l2 : forall l1 w,
  threads_wf (l1 ++ l2) ->
  sweep_inv guild w0 l1 l2 w ->
  exists w',
    for_each l2 (auto_close_thread guild cutoff) w = (Ok tt, w')
    /\ sweep_inv guild w0 (l1 ++ l2) [] w'
    /\ (forall g', g' <> gid -> all_threads g' w' = all_threads g' w)
    /\ (forall g' c, g' <> gid ->
          guild_get_channel g' c w' = guild_get_channel g' c w).
Proof.
  induction l2 as [|[k d] l2 IH]; intros l1 w Hwf Hinv.
  - exists w. rewrite app_nil_r. simpl. auto.
  - assert (Hwf' : threads_wf ((l1 ++ [(k, d)]) ++ l2))
      by (by rewrite <- app_assoc).
    change (for_each ((k, d) :: l2) (auto_close_thread guild cutoff) w)
      with (bind (auto_close_thread guild cutoff (k, d))
              (fun _ => for_each l2 (auto_close_thread guild cutoff)) w).
    destruct (sweep_thread_cases _ _ _ _ _ Hwf Hinv)
      as [[Hdue Hrun]|(Hdue & ch & Hget & Hrun)].
    + destruct (IH (l1 ++ [(k, d)]) w Hwf'
                  (sweep_inv_skip _ _ _ _ _ Hdue Hinv))
        as (w' & Hloop & Hinv' & Hthr & Hchan).
      exists w'. rewrite (bind_ok _ _ _ _ _ Hrun).
      rewrite <- app_assoc in Hinv'. auto.
    + destruct (sweep_inv_close l1 k d l2 w ch Hwf Hinv Hdue Hget)
        as (w1 & Hclose & Hinv1 & Hthr1 & Hchan1).
      rewrite <- Hrun in Hclose.
      destruct (IH (l1 ++ [(k, d)]) w1 Hwf' Hinv1)
        as (w' & Hloop & Hinv' & Hthr & Hchan).
      exists w'. rewrite (bind_ok _ _ _ _ _ Hclose).
      rewrite <- app_assoc in Hinv'.
      split; [exact Hloop|]. split; [exact Hinv'|]. split.
      * intros g' Hne. by rewrite Hthr, Hthr1.
      * intros g' c Hne. by rewrite Hchan, Hchan1.
Qed.

(** The body of the outer loop, for a guild whose documents and channels
    are still those of [w0]. *)
Lemma sweep_guild w :
  same_env w0 w ->
  all_threads gid w = all_threads gid w0 ->
  (forall c, guild_get_channel gid c w = guild_get_channel gid c w0) ->
  (sweep_active gid w0 = true -> threads_wf (all_threads gid w0)) ->
  exists w',
    auto_close_guild guild w = (Ok tt, w')
    /\ same_env w0 w'
    /\ all_threads gid w' = swept_threads guild w0
    /\ (forall g', g' <> gid -> all_threads g' w' = all_threads g' w)
    /\ (forall g' c, g' <> gid ->
          guild_get_channel g' c w' = guild_get_channel g' c w).
Proof.
  intros Henv Hall Hch Hwf.
  unfold auto_close_guild, swept_threads, sweep_active in *. fold gid.
  rewrite bind_gets, (same_env_config _ _ gid Henv).
  destruct (enabled (guild_config gid w0)); cbn [negb andb] in *;
    [|exists w; auto].
  destruct (Z.leb_spec (auto_close_after (thread_settings (guild_config gid w0))) 0)
    as [Hle|Hlt].
  { exists w. destruct (Z.ltb_spec 0
      (auto_close_after (thread_settings (guild_config gid w0)))); [lia|].
    auto. }
  destruct (Z.ltb_spec 0
    (auto_close_after (thread_settings (guild_config gid w0)))); [|lia].
  rewrite bind_gets. unfold utcnow. rewrite bind_gets.
  rewrite (same_env_now _ _ Henv), Hall. fold cutoff.
  destruct (sweep_threads_loop (all_threads gid w0) [] w)
    as (w' & Hloop & (Hall' & Henv' & _) & Hthr & Hchan).
  - by apply Hwf.
  - split; [exact Hall|]. split; [exact Henv|]. intros c _. apply Hch.
  - exists w'. rewrite app_nil_r in Hall'. simpl in Hall'. auto.
Qed.
End SweepGuild.

(** The outer loop of the sweep: the guilds in [gs1] are done, those in
    [gs2] are still to come. *)
Lemma sweep_guilds_loop w0 :
  cache_wf w0 ->
  (forall c, ext_fail w0 (CallChannelSend c) = None) ->
  forall gs2 gs1 w,
    NoDup (List.map guild_id (gs1 ++ gs2)) ->
    (forall g, In g gs2 -> sweep_active (guild_id g) w0 = true ->
       threads_wf (all_threads (guild_id g) w0)) ->
    same_env w0 w ->
    (forall g, In g gs1 -> all_threads (guild_id g) w = swept_threads g w0) ->
    (forall gid, gid ∉ List.map guild_id gs1 ->
       all_threads gid w = all_threads gid w0
       /\ forall c, guild_get_channel gid c w = guild_get_channel gid c w0) ->
    exists w',
      for_each gs2 auto_close_guild w = (Ok tt, w')
      /\ (forall g, In g (gs1 ++ gs2) ->
            all_threads (guild_id g) w' = swept_threads g w0)
      /\ (forall gid, gid ∉ List.map guild_id (gs1 ++ gs2) ->
            all_threads gid w' = all_threads gid w0).
Proof.
  intros Hcache Hsends.
  induction gs2 as [|g gs2 IH]; intros gs1 w Hnd Hwf Henv Hdone Hrest.
  - exists w. rewrite app_nil_r. split; [done|]. split; [exact Hdone|].
    intros gid Hgid. by apply Hrest.
  - assert (Hg : guild_id g ∉ List.map guild_id gs1).
    { rewrite List.map_app in Hnd. apply NoDup_app in Hnd as (_ & Hx & _).
      intros Hin. apply (Hx _ Hin). simpl. apply list_elem_of_here. }
    destruct (Hrest _ Hg) as [Hall Hch].
    destruct (sweep_guild g w0 Hcache Hsends w Henv Hall Hch)
      as (w1 & Hrun & Henv1 & Hall1 & Hthr1 & Hchan1).
    { apply Hwf. by left. }
    destruct (IH (gs1 ++ [g]) w1) as (w' & Hloop & Hdone' & Hrest').
    + by rewrite <- app_assoc.
    + intros g' Hin. apply Hwf. by right.
    + exact Henv1.
    + intros g' Hin. apply in_app_or in Hin as [Hin|[<-|[]]]; [|exact Hall1].
      rewrite Hthr1; [by apply Hdone|].
      intros Heq. apply Hg. rewrite <- Heq. apply list_elem_of_In.
      by apply in_map.
    + intros gid Hgid. rewrite List.map_app in Hgid.
      apply not_elem_of_app in Hgid as [Hgid1 Hgid2].
      assert (Hne : gid <> guild_id g).
      { intros ->. apply Hgid2. simpl. apply list_elem_of_here. }
      destruct (Hrest _ Hgid1) as [Ha Hc]. split.
      * by rewrite Hthr1.
      * intros c. by rewrite Hchan1.
    + exists w'. simpl. rewrite (bind_ok _ _ _ _ _ Hrun).
      rewrite <- app_assoc in Hdone', Hrest'. auto.
Qed.

Lemma dict_get_map_swept guild w l k d :
  NoDup (List.map fst l) -> In (k, d) l ->
  dict_get k (List.map (swept guild w) l) = Some (snd (swept guild w (k, d))).
Proof.
  intros Hnd Hin.
  apply dict_get_In; [by rewrite map_fst_swept|].
  apply (in_map (swept guild w)) in Hin.
  pose proof (swept_fst guild w (k, d)) as Hk. simpl in Hk.
  destruct (swept guild w (k, d)) as [k' d']. simpl in *. by subst k'.
Qed.

(** The sweep over documents that all carry a creation time.  In a sweep
    that starts with a sound guild cache and sound thread documents (which
    the documents of a guild are not once a DM has been delivered there,
    see [threads_wf]) and whose channel messages go through, every
    guild that is enabled with [auto_close_after = 3600] ends with its
    thread documents in their order, each one closed exactly when it was
    open, created more than 3600 seconds before the sweep and its channel
    still resolved: such a document gets [closed_at = now], the reason
    "Auto-closed due to inactivity" and the bot's own member as closer.
    A document that is not open, or is younger than that, or whose channel
    is gone, is left as it was. *)
Theorem sweep_closes_idle_threads :
  forall (w : World) (guild : Guild),
    let gid := guild_id guild in
    let result := _auto_close_threads w in
    let cutoff := now w - timedelta_seconds 3600 in
    cache_wf w ->
    (forall c, ext_fail w (CallChannelSend c) = None) ->
    (forall g, In g (bot_guilds w) ->
       sweep_active (guild_id g) w = true ->
       threads_wf (all_threads (guild_id g) w)) ->
    In guild (bot_guilds w) ->
    enabled (guild_config gid w) = true ->
    auto_close_after (thread_settings (guild_config gid w)) = 3600 ->
    fst result = Ok tt
    /\ all_threads gid (snd result)
       = List.map (swept guild w) (all_threads gid w)
    /\ (forall (k : string) (d : ThreadData),
          In (k, d) (all_threads gid w) ->
          (td_status d = st_open ->
           (exists created,
              td_created_at d = Some created /\ created < cutoff) ->
           (exists ch, guild_get_channel gid (td_channel_id d) w = Some ch) ->
           dict_get k (all_threads gid (snd result))
           = Some (close_updates (now w) (Some auto_close_reason)
                     (member_id (guild_me guild)) d))
          /\ (td_status d <> st_open
              \/ (exists created,
                    td_created_at d = Some created /\ cutoff <= created)
              \/ guild_get_channel gid (td_channel_id d) w = None ->
              dict_get k (all_threads gid (snd result)) = Some d)).
Proof.
  intros w guild gid result cutoff Hcache Hsends Hwf Hin Hen Hafter.
  destruct (sweep_guilds_loop w Hcache Hsends (bot_guilds w) [] w)
    as (w' & Hrun & Hdone & _).
  - apply Hcache.
  - exact Hwf.
  - apply frame_refl.
  - intros g [].
  - intros g _. done.
  - assert (Hres : result = (Ok tt, w')).
    { unfold result, _auto_close_threads. by rewrite bind_gets. }
    assert (Hactive : sweep_active gid w = true).
    { unfold sweep_active. rewrite Hen, Hafter. reflexivity. }
    assert (Hall : all_threads gid w'
                   = List.map (swept guild w) (all_threads gid w)).
    { unfold gid. rewrite (Hdone guild Hin). unfold swept_threads.
      fold gid. by rewrite Hactive. }
    rewrite Hres. cbn [fst snd]. split; [done|]. split; [exact Hall|].
    intros k d Hkd. rewrite Hall.
    destruct (Hwf guild Hin Hactive) as (Hkeys & _ & _). fold gid in Hkeys.
    rewrite (dict_get_map_swept guild w _ k d Hkeys Hkd).
    unfold swept, sweep_due. fold gid. rewrite Hafter. fold cutoff.
    cbn [snd fst]. split.
    + intros Hopen (created & Hcr & Hold) (ch & Hch).
      rewrite Hopen, Hcr, Hch. cbn [status_eqb andb].
      destruct (Z.ltb_spec created cutoff); [done|lia].
    + intros [Hst|[(created & Hcr & Hyoung)|Hch]].
      * destruct (td_status d); [contradiction|done|done].
      * rewrite Hcr. destruct (Z.ltb_spec created cutoff); [lia|].
        by rewrite andb_false_r.
      * rewrite Hch. by rewrite andb_false_r.
Qed.

(** ** The two lookups of the thread id *)

(** C2 (code defect). First DM of a user without a thread, guild enabled
    and eligible: the run ends at [Delivered], [thread_created] is
    dispatched before [message_processed] and the auto-response is sent,
    but the run leaves two thread documents.  [_get_or_create_thread]
    stores the thread under the id it drew ("...-aaaaaaaa"), then
    [_process_modmail_message] draws a second id ("...-bbbbbbbb"), reads
    the defaults under it and writes the count there: the thread of the
    user keeps [message_count = 0], the count 1 sits in a document with no
    user and no channel. *)
Theorem first_dm_leaves_two_thread_documents :
  all_threads 7 fresh_world = []
  /\ fst (on_message_without_command first_dm fresh_world)
     = Ok (Delivered "42-7-bbbbbbbb")
  /\ thread_summary (all_threads 7 after_first_dm)
     = [("42-7-aaaaaaaa", Some 42, st_open, 0);
        ("42-7-bbbbbbbb", None, st_open, 1)]
  /\ hook_names (trace after_first_dm)
     = ["thread_created"; "message_processed"]
  /\ sent_to_user 42 (trace after_first_dm) = [PText auto_response_text].
Proof. repeat apply conj; vm_compute; reflexivity. Qed.

(** C1 (code defect). Second DM of the same user while the thread is open
    and its channel resolves: the channel is reused and no second
    [thread_created] is dispatched, but [_process_modmail_message] draws a
    new thread id again ("...-dddddddd", not the id of the first run),
    finds the defaults under it, so it takes the message for a first one:
    the auto-response is sent a second time, the count 1 goes to a third
    document and the thread of the user still has [message_count = 0]. *)
Theorem second_dm_is_taken_for_a_first_one :
  active_thread (user_conv 7 42 after_first_dm) = Some 5000
  /\ guild_get_channel 7 (Some 5000) after_first_dm = Some alice_channel
  /\ dict_get alice_thread_id (all_threads 7 after_first_dm)
     = Some alice_thread
  /\ fst (on_message_without_command first_dm fresh_world)
     = Ok (Delivered "42-7-bbbbbbbb")
  /\ fst (on_message_without_command second_dm
            (set_now (noon + timedelta_seconds 60) after_first_dm))
     = Ok (Delivered "42-7-dddddddd")
  /\ thread_summary (all_threads 7 after_second_dm)
     = [("42-7-aaaaaaaa", Some 42, st_open, 0);
        ("42-7-bbbbbbbb", None, st_open, 1);
        ("42-7-dddddddd", None, st_open, 1)]
  /\ hook_names (new_events after_first_dm after_second_dm)
     = ["message_processed"]
  /\ sent_to_user 42 (new_events after_first_dm after_second_dm)
     = [PText auto_response_text].
Proof. repeat apply conj; vm_compute; reflexivity. Qed.

(** ** Examples *)


(** In a guild with [auto_close_after = 3600] a
    thread that is open and was created 7200 seconds before the sweep is
    left open when its channel no longer resolves; and the reason written
    to the threads the sweep does close is "Auto-closed due to inactivity",
    with a capital. *)
Lemma sweep_skips_thread_without_channel :
  enabled (guild_config 7 sweep_world) = true
  /\ auto_close_after (thread_settings (guild_config 7 sweep_world)) = 3600
  /\ dict_get "43-7-bbbbbbbb" (all_threads 7 sweep_world)
     = Some (idle_thread 43 5001)
  /\ td_status (idle_thread 43 5001) = st_open
  /\ td_created_at (idle_thread 43 5001)
     = Some (now sweep_world - timedelta_seconds 7200)
  /\ fst (_auto_close_threads sweep_world) = Ok tt
  /\ dict_get "43-7-bbbbbbbb" (all_threads 7 after_sweep)
     = Some (idle_thread 43 5001)
  /\ td_close_reason (thread_all 7 "42-7-aaaaaaaa" after_sweep)
     = Some "Auto-closed due to inactivity"
  /\ td_close_reason (thread_all 7 "42-7-aaaaaaaa" after_sweep)
     <> Some "auto-closed due to inactivity".
Proof. repeat apply conj; vm_compute; try reflexivity; discriminate. Qed.

(** C4, at guild 7 and alice: six checks one second apart and one 400
    seconds later. *)
Lemma rate_limit_sliding_window_witness :
  rl_enabled (rate_limiting (guild_config 7 fresh_world)) = true
  /\ max_messages (rate_limiting (guild_config 7 fresh_world)) = 5
  /\ time_window (rate_limiting (guild_config 7 fresh_world)) = 300
  /\ rate_entries (rate_key 7 42) fresh_world = []
  /\ exists w5 w6 w7 : World,
       rate_entries (rate_key 7 42) w5
       = [noon; noon + 1; noon + 2; noon + 3; noon + 4]
       /\ check_at 42 7 (noon + 5) w5 = (Ok true, w6)
       /\ rate_entries (rate_key 7 42) w6
          = [noon; noon + 1; noon + 2; noon + 3; noon + 4]
       /\ check_at 42 7 (noon + timedelta_seconds 400) w6 = (Ok false, w7).
Proof.
  split; [reflexivity|]. split; [reflexivity|]. split; [reflexivity|].
  split; [reflexivity|].
  destruct (rate_limit_sliding_window fresh_world 7 42
              noon (noon + 1) (noon + 2) (noon + 3) (noon + 4) (noon + 5)
              (noon + timedelta_seconds 400))
    as [(w1 & w2 & w3 & w4 & w5 & w6 & w7 & H) _];
    try reflexivity; try (unfold noon, timedelta_seconds; lia).
  - constructor.
  - exists w5, w6, w7. tauto.
Defined.

(** C10, at a guild that asks for a year on the server but not for
    membership, and alice, who is not a member. *)
Lemma server_age_checked_only_for_required_members_witness :
  require_server_member server_age_only = false
  /\ guild_get_member (guild_seven []) (user_id alice) = None
  /\ _check_user_requirements alice (guild_seven [])
       (settings_seven [] server_age_only 7200) fresh_world
     = (Ok true, fresh_world).
Proof.
  split; [reflexivity|]. split; [reflexivity|].
  apply (server_age_checked_only_for_required_members alice (guild_seven [])
           (settings_seven [] server_age_only 7200) fresh_world).
  - reflexivity.
  - right. vm_compute. discriminate.
Defined.

(** C8, at alice on the block list of guild 7. *)
Lemma blocked_user_dropped_silently_witness :
  msg_channel_kind first_dm = DMChannel
  /\ user_bot alice = false
  /\ fst (find_eligible_guilds alice blocking_world) = Ok [guild_seven []]
  /\ In 42 (blocked_users (guild_config 7 blocking_world))
  /\ on_message_without_command first_dm blocking_world
     = (Ok Blocked, blocking_world).
Proof.
  assert (Hin : In 42 (blocked_users (guild_config 7 blocking_world)))
    by (left; reflexivity).
  split; [reflexivity|]. split; [reflexivity|].
  split; [vm_compute; reflexivity|]. split; [exact Hin|].
  apply (blocked_user_dropped_silently first_dm blocking_world
           (guild_seven []) []).
  - reflexivity.
  - reflexivity.
  - vm_compute; reflexivity.
  - right. right. split; [discriminate|exact Hin].
Defined.

(** C7, at a close without reason in the channel of alice's open
    thread. *)
Lemma close_without_required_reason_refused_witness :
  require_close_reason (thread_settings (guild_config 7 after_first_dm)) = true
  /\ thread_of_channel alice_channel after_first_dm
     = Some (alice_thread_id, alice_thread)
  /\ fst (modmail_close close_context None ReactConfirm after_first_dm)
     = Ok ReasonRequired
  /\ cfg_thread (snd (modmail_close close_context None ReactConfirm
                        after_first_dm))
     = cfg_thread after_first_dm.
Proof.
  split; [vm_compute; reflexivity|]. split; [vm_compute; reflexivity|].
  destruct (close_without_required_reason_refused close_context None
              ReactConfirm after_first_dm alice_thread_id alice_thread)
    as (Hres & Hthr & _); try (vm_compute; reflexivity).
  split; [|exact Hthr].
  rewrite Hres. reflexivity.
Defined.

(** At the creation of alice's thread. *)
Lemma new_thread_is_recorded_witness :
  truthy_id (category_id (guild_config 7 fresh_world)) = true
  /\ guild_get_channel 7 (category_id (guild_config 7 fresh_world)) fresh_world
     = Some modmail_category
  /\ channel_kind modmail_category = CategoryChannel
  /\ ext_fail fresh_world (CallCreateTextChannel 7) = None
  /\ exists (channel : Channel) (data : ThreadData),
       fst (_create_new_thread alice (guild_seven []) alice_thread_id
              fresh_world) = Ok (Some channel)
       /\ dict_get alice_thread_id
            (all_threads 7
               (snd (_create_new_thread alice (guild_seven [])
                       alice_thread_id fresh_world))) = Some data
       /\ td_status data = st_open
       /\ td_message_count data = 0.
Proof.
  split; [reflexivity|]. split; [vm_compute; reflexivity|].
  split; [reflexivity|]. split; [reflexivity|].
  destruct (new_thread_is_recorded alice (guild_seven []) alice_thread_id
              fresh_world modmail_category)
    as (channel & data & H1 & _ & H3 & _ & H5 & H6 & _);
    try reflexivity; try (vm_compute; reflexivity).
  exists channel, data. tauto.
Defined.


(** At the sweep over the three threads of guild 7. *)
Lemma sweep_closes_idle_threads_witness :
  cache_wf sweep_world
  /\ threads_wf (all_threads 7 sweep_world)
  /\ enabled (guild_config 7 sweep_world) = true
  /\ auto_close_after (thread_settings (guild_config 7 sweep_world)) = 3600
  /\ fst (_auto_close_threads sweep_world) = Ok tt
  /\ dict_get "42-7-aaaaaaaa" (all_threads 7 after_sweep)
     = Some (close_updates noon (Some auto_close_reason) 999
               (idle_thread 42 5000))
  /\ dict_get "44-7-cccccccc" (all_threads 7 after_sweep)
     = Some (recent_thread 44 5002).
Proof.
  assert (Hcache : cache_wf sweep_world).
  { split.
    - apply (bool_decide_unpack _). vm_compute. exact I.
    - repeat constructor. }
  assert (Hthreads : threads_wf (all_threads 7 sweep_world)).
  { split; [|split].
    - apply (bool_decide_unpack _). vm_compute. exact I.
    - repeat constructor; intros; discriminate.
    - apply (bool_decide_unpack _). vm_compute. exact I. }
  split; [exact Hcache|]. split; [exact Hthreads|].
  split; [reflexivity|]. split; [reflexivity|].
  destruct (sweep_closes_idle_threads sweep_world (guild_seven sweep_channels))
    as (Hok & _ & Hthread).
  - exact Hcache.
  - intros c. reflexivity.
  - intros g [<-|[]] _. exact Hthreads.
  - left. reflexivity.
  - reflexivity.
  - reflexivity.
  - split; [exact Hok|]. split.
    + apply (Hthread "42-7-aaaaaaaa" (idle_thread 42 5000)).
      * left. reflexivity.
      * reflexivity.
      * exists (noon - timedelta_seconds 7200). split; [reflexivity|].
        vm_compute. reflexivity.
      * eexists. vm_compute. reflexivity.
    + apply (Hthread "44-7-cccccccc" (recent_thread 44 5002)).
      * right. right. left. reflexivity.
      * right. left. exists (noon - timedelta_seconds 60).
        split; [reflexivity|]. vm_compute. discriminate.
Defined.
(** * Further properties of the cog *)

(** ** Thread creation: all or nothing *)


(** Without a category that is configured and resolves to a category
    channel, or when Discord refuses the channel, [_create_new_thread]
    returns [None] and only writes one line to the log. *)
Lemma create_new_thread_fails user guild thread_id w :
  can_create_thread guild w = false ->
  exists level msg e,
    _create_new_thread user guild thread_id w
    = (Ok None, emit_all [EvLog level msg e] w).
Proof.
  unfold can_create_thread, _create_new_thread.
  set (gid := guild_id guild). intros Hcannot.
  rewrite bind_gets.
  destruct (truthy_id (category_id (guild_config gid w))); cbn [negb andb] in *;
    [|by eexists _, _, _].
  rewrite bind_gets.
  destruct (guild_get_channel gid (category_id (guild_config gid w)) w)
    as [cat|]; [|by eexists _, _, _].
  destruct (channel_kind cat); cbn [andb] in *; try by eexists _, _, _.
  destruct (ext_fail w (CallCreateTextChannel gid)) as [e|] eqn:Hcreate;
    [|done].
  unfold try_except.
  erewrite bind_raise;
    [|unfold create_text_channel; rewrite Hcreate; reflexivity].
  destruct (is_Forbidden e); by eexists _, _, _.
Qed.


(** ** Reusing the channel of a thread *)

Lemma find_channel_id c l ch :
  List.find (fun ch => channel_id ch =? c) l = Some ch -> channel_id ch = c.
Proof. intros H. apply find_some in H as [_ H]. by apply Z.eqb_eq. Qed.

Lemma get_channel_id gid c ch w :
  guild_get_channel gid (Some c) w = Some ch -> channel_id ch = c.
Proof.
  unfold guild_get_channel. destruct (find_guild gid w); [|done].
  apply find_channel_id.
Qed.

(** X2. When the pointer of the (guild, user) conversation names a channel
    that still resolves, [_get_or_create_thread] returns that channel and
    writes nothing: thread documents, pointers, counters, the channel cache
    and the trace are those of before (only a thread id was drawn and thrown
    away).  The status of the thread document is not looked at. *)
Theorem get_or_create_thread_reuses_channel :
  forall (user : User) (guild : Guild) (w : World) (c : Z) (ch : Channel),
    let gid := guild_id guild in
    let result := _get_or_create_thread user guild w in
    active_thread (user_conv gid (user_id user) w) = Some c ->
    c <> 0 ->
    guild_get_channel gid (Some c) w = Some ch ->
    result = (Ok (Some ch), set_uuid_count (S (uuid_count w)) w)
    /\ channel_id ch = c
    /\ cfg_thread (snd result) = cfg_thread w
    /\ cfg_conv (snd result) = cfg_conv w
    /\ cfg_global (snd result) = cfg_global w
    /\ bot_guilds (snd result) = bot_guilds w
    /\ trace (snd result) = trace w.
Proof.
  intros user guild w c ch gid result Hptr Hc Hget.
  assert (Hr : result = (Ok (Some ch), set_uuid_count (S (uuid_count w)) w)).
  { unfold result, _get_or_create_thread, _get_thread_id, uuid4, bind, gets,
      ret. cbn [fst snd]. fold gid.
    change (user_conv gid (user_id user) (set_uuid_count _ w))
      with (user_conv gid (user_id user) w).
    rewrite Hptr. cbn [truthy_id].
    destruct (Z.eqb_spec c 0) as [|_]; [contradiction|]. cbn [negb].
    change (guild_get_channel gid (Some c) (set_uuid_count _ w))
      with (guild_get_channel gid (Some c) w).
    by rewrite Hget. }
  rewrite Hr. split; [done|]. split; [by eapply get_channel_id|].
  repeat split.
Qed.

(** X2, at alice's second look-up, her thread channel 5000 still in the
    guild. *)
Lemma get_or_create_thread_reuses_channel_witness :
  active_thread (user_conv 7 42 after_first_dm) = Some 5000
  /\ guild_get_channel 7 (Some 5000) after_first_dm = Some alice_channel
  /\ fst (_get_or_create_thread alice (guild_seven []) after_first_dm)
     = Ok (Some alice_channel)
  /\ cfg_thread (snd (_get_or_create_thread alice (guild_seven [])
                        after_first_dm))
     = cfg_thread after_first_dm.
Proof.
  assert (Hptr : active_thread (user_conv 7 42 after_first_dm) = Some 5000)
    by (vm_compute; reflexivity).
  assert (Hget : guild_get_channel 7 (Some 5000) after_first_dm
                 = Some alice_channel) by (vm_compute; reflexivity).
  split; [exact Hptr|]. split; [exact Hget|].
  destruct (get_or_create_thread_reuses_channel alice (guild_seven [])
              after_first_dm 5000 alice_channel Hptr)
    as (Hr & _ & Hthreads & _); [discriminate|exact Hget|].
  split; [by rewrite Hr|exact Hthreads].
Defined.

(** When there is no pointer, or the channel it names is gone,
    [_get_or_create_thread] is [_create_new_thread] under the thread id it
    drew. *)
Lemma get_or_create_thread_creates :
  forall (user : User) (guild : Guild) (w : World),
    let gid := guild_id guild in
    let uid := user_id user in
    let pointer := active_thread (user_conv gid uid w) in
    let thread_id :=
      str_Z uid +:+ "-" +:+ str_Z gid +:+ "-"
      +:+ substring 0 8 (uuid4_hex w (uuid_count w)) in
    truthy_id pointer = false \/ guild_get_channel gid pointer w = None ->
    _get_or_create_thread user guild w
    = _create_new_thread user guild thread_id
        (set_uuid_count (S (uuid_count w)) w).
Proof.
  intros user guild w gid uid pointer thread_id Hstale.
  unfold _get_or_create_thread, _get_thread_id, uuid4, bind, gets, ret.
  cbn [fst snd]. fold gid uid.
  change (user_conv gid uid (set_uuid_count _ w)) with (user_conv gid uid w).
  fold pointer.
  destruct (truthy_id pointer) eqn:Hp.
  - destruct Hstale as [|Hnone]; [done|].
    change (guild_get_channel gid pointer (set_uuid_count _ w))
      with (guild_get_channel gid pointer w).
    by rewrite Hnone.
  - reflexivity.
Qed.

(** ** What a close does to the pointer of the user *)

Lemma try_except_bind_ok {A B} (m : M A) (k : A -> M B) handles handler
    w a w1 :
  m w = (Ok a, w1) ->
  try_except (bind m k) handles handler w = try_except (k a) handles handler w1.
Proof. intros Hm. unfold try_except, bind. by rewrite Hm. Qed.

#[local] Instance same_conv_frame : FrameRel same_conv.
Proof. split; unfold same_conv; [done|congruence|done]. Qed.

#[local] Instance same_stores_frame : FrameRel same_stores.
Proof.
  split; unfold same_stores.
  - done.
  - intros w1 w2 w3 (?&?&?&?&?&?) (?&?&?&?&?&?). repeat split; congruence.
  - done.
Qed.

Lemma close_store_fields channel closer reason w :
  let w1 := close_store channel closer reason w in
  ext_fail w1 = ext_fail w /\ cfg_conv w1 = cfg_conv w
  /\ cfg_guild w1 = cfg_guild w /\ bot_users w1 = bot_users w
  /\ bot_guilds w1 = bot_guilds w /\ trace w1 = trace w.
Proof.
  unfold close_store.
  destruct (thread_of_channel channel w) as [[t d]|]; [|done].
  destruct (negb _); done.
Qed.

(** The first statement of [_close_thread]: the write to the thread
    documents. *)
Lemma close_thread_first_step channel closer reason w :
  (match
     option_map fst
       (List.find (fun '(_, data) => has_channel (channel_id channel) data)
          (all_threads (channel_guild channel) w))
   with
   | Some t_id =>
       if negb (String.eqb t_id EmptyString) then
         let* closed_at := utcnow in
         _update_thread_data t_id (channel_guild channel)
           (close_updates closed_at reason (member_id closer))
       else ret tt
   | None => ret tt
   end) w
  = (Ok tt, close_store channel (member_id closer) reason w).
Proof.
  unfold close_store, thread_of_channel.
  destruct (List.find _ (all_threads (channel_guild channel) w))
    as [[t_id data]|]; simpl; [|reflexivity].
  destruct (negb (t_id =? EmptyString)%string); reflexivity.
Qed.

(** Once the notices of a close are out and the pointer is cleared, what
    is left to run is [close_thread_tail] under the handler. *)
Lemma close_thread_reaches_tail channel closer reason thread_data w u :
  let gid := channel_guild channel in
  td_user_id thread_data = Some u ->
  u <> 0 ->
  ext_fail w (CallChannelSend (channel_id channel)) = None ->
  (ext_fail w (CallUserSend u) = None
   \/ ext_fail w (CallUserSend u) = Some Forbidden) ->
  exists w3,
    _close_thread channel closer reason thread_data w
    = try_except
        (close_thread_tail channel closer reason thread_data
           (thread_settings (guild_config gid w)))
        any_exception (close_thread_handler channel) w3
    /\ cfg_conv w3
       = <[(gid, u) := {| thread_history := thread_history (user_conv gid u w);
                          active_thread := None |}]> (cfg_conv w)
    /\ bot_guilds w3 = bot_guilds w
    /\ same_env w w3.
Proof.
  intros gid Hu Hu0 Hsend Hdm.
  unfold _close_thread. fold gid. rewrite try_except_gets.
  rewrite (try_except_bind_ok _ _ _ _ _ _ _
             (close_thread_first_step channel closer reason w)).
  destruct (close_store_fields channel (member_id closer) reason w)
    as (Hf & Hc & Hg & _ & Hbg & _).
  set (w1 := close_store channel (member_id closer) reason w) in *.
  rewrite try_except_gets.
  assert (Hcfg : guild_config gid w1 = guild_config gid w)
    by (unfold guild_config; by rewrite Hg).
  rewrite Hcfg.
  match goal with
  | |- context [try_except (bind ?m ?k) ?h ?hd w1] =>
      assert (Hm : exists w2, m w1 = (Ok tt, w2)
                              /\ same_stores w1 w2 /\ same_env w1 w2)
  end.
  { rewrite Hu. cbn [truthy_id]. destruct (Z.eqb_spec u 0) as [|_]; [done|].
    cbn [negb]. rewrite andb_true_r.
    destruct (notify_user_on_close _);
      [|eexists; split; [reflexivity|split; apply frame_refl]].
    rewrite bind_gets.
    destruct (bot_get_user u w1) as [user|] eqn:Huser;
      [|eexists; split; [reflexivity|split; apply frame_refl]].
    assert (user_id user = u) as ->.
    { apply find_some in Huser as [_ H]. by apply Z.eqb_eq. }
    rewrite bind_gets. unfold try_except, user_send, ext_call. rewrite Hf.
    destruct Hdm as [-> | ->]; cbn [is_Forbidden];
      eexists; (split; [reflexivity|]); split;
        first [apply frame_refl | apply frame_emit_all]. }
  destruct Hm as (w2 & Hm & Hs2 & Henv2).
  rewrite (try_except_bind_ok _ _ _ _ _ _ _ Hm).
  erewrite try_except_bind_ok.
  2:{ unfold channel_send. apply ext_call_ok.
      destruct Henv2 as (_ & -> & _). by rewrite Hf. }
  rewrite Hu. cbn [truthy_id]. destruct (Z.eqb_spec u 0) as [|_]; [done|].
  cbn [negb].
  erewrite try_except_bind_ok; [|reflexivity].
  eexists. split.
  { unfold close_thread_tail. rewrite Hu. cbn [truthy_id].
    destruct (Z.eqb_spec u 0) as [|_]; [done|]. reflexivity. }
  destruct Hs2 as (_ & Hc2 & _ & _ & _ & Hbg2).
  destruct Henv2 as (Hg2 & Hf2 & Hn2).
  split; [|split; [|split; [|split]]].
  - cbn [cfg_conv set_active_thread set_cfg_conv emit_all set_trace].
    unfold user_conv. cbn [cfg_conv set_trace emit_all].
    by rewrite Hc2, Hc.
  - cbn. by rewrite Hbg2, Hbg.
  - cbn. by rewrite Hg2, Hg.
  - cbn. by rewrite Hf2, Hf.
  - cbn. rewrite Hn2. unfold w1, close_store.
    destruct (thread_of_channel channel w) as [[t d]|]; [|done].
    by destruct (negb _).
Qed.

(** The pointers after a close whose notices went out. *)
Lemma close_thread_conv channel closer reason thread_data w u :
  let gid := channel_guild channel in
  td_user_id thread_data = Some u ->
  u <> 0 ->
  ext_fail w (CallChannelSend (channel_id channel)) = None ->
  (ext_fail w (CallUserSend u) = None
   \/ ext_fail w (CallUserSend u) = Some Forbidden) ->
  cfg_conv (snd (_close_thread channel closer reason thread_data w))
  = <[(gid, u) := {| thread_history := thread_history (user_conv gid u w);
                     active_thread := None |}]> (cfg_conv w).
Proof.
  intros gid Hu Hu0 Hsend Hdm.
  destruct (close_thread_reaches_tail channel closer reason thread_data w u
              Hu Hu0 Hsend Hdm) as (w3 & Hrun & Hconv & _).
  fold gid in Hrun, Hconv. rewrite Hrun, <- Hconv.
  change (cfg_conv ?x = cfg_conv ?y) with (same_conv y x).
  apply frame_try_except; [exact _| |intros e];
    unfold close_thread_tail, close_thread_handler;
    repeat first [ frame_step | frame_write ltac:(reflexivity) ].
Qed.

(** X4. Once the close notices are out ([channel.send] works, and the DM to
    the user works or is refused with [Forbidden]), [_close_thread] clears
    [active_thread] of the thread's user in this guild, keeps the history
    of that conversation and touches no other conversation, whatever
    archiving or deleting the channel, the modlog or a hook do afterwards
    and whether the call then returns or raises. *)
Theorem close_thread_clears_pointer :
  forall (channel : Channel) (closer : Member) (reason : option string)
         (thread_data : ThreadData) (w : World) (u : Z),
    let gid := channel_guild channel in
    let result := _close_thread channel closer reason thread_data w in
    td_user_id thread_data = Some u ->
    u <> 0 ->
    ext_fail w (CallChannelSend (channel_id channel)) = None ->
    (ext_fail w (CallUserSend u) = None
     \/ ext_fail w (CallUserSend u) = Some Forbidden) ->
    active_thread (user_conv gid u (snd result)) = None
    /\ thread_history (user_conv gid u (snd result))
       = thread_history (user_conv gid u w)
    /\ (forall g' u', (g', u') <> (gid, u) ->
          user_conv g' u' (snd result) = user_conv g' u' w).
Proof.
  intros channel closer reason thread_data w u gid result Hu Hu0 Hsend Hdm.
  pose proof (close_thread_conv channel closer reason thread_data w u
                Hu Hu0 Hsend Hdm) as Hconv.
  fold gid result in Hconv.
  unfold user_conv. rewrite Hconv. split; [|split].
  - by rewrite lookup_insert_eq.
  - by rewrite lookup_insert_eq.
  - intros g' u' Hne. by rewrite lookup_insert_ne.
Qed.

(** X3. After such a close the next message of the user does not go to the
    closed channel, even where it still exists: [_get_or_create_thread]
    goes through [_create_new_thread]. *)
Theorem message_after_close_starts_a_thread :
  forall (channel : Channel) (closer : Member) (reason : option string)
         (thread_data : ThreadData) (w : World) (user : User)
         (guild : Guild),
    let closed := snd (_close_thread channel closer reason thread_data w) in
    let thread_id :=
      str_Z (user_id user) +:+ "-" +:+ str_Z (guild_id guild) +:+ "-"
      +:+ substring 0 8 (uuid4_hex closed (uuid_count closed)) in
    td_user_id thread_data = Some (user_id user) ->
    user_id user <> 0 ->
    channel_guild channel = guild_id guild ->
    ext_fail w (CallChannelSend (channel_id channel)) = None ->
    (ext_fail w (CallUserSend (user_id user)) = None
     \/ ext_fail w (CallUserSend (user_id user)) = Some Forbidden) ->
    active_thread (user_conv (guild_id guild) (user_id user) closed) = None
    /\ _get_or_create_thread user guild closed
       = _create_new_thread user guild thread_id
           (set_uuid_count (S (uuid_count closed)) closed).
Proof.
  intros channel closer reason thread_data w user guild closed thread_id
    Hu Hu0 Hguild Hsend Hdm.
  pose proof (close_thread_conv channel closer reason thread_data w
                (user_id user) Hu Hu0 Hsend Hdm) as Hconv.
  fold closed in Hconv. rewrite Hguild in Hconv.
  assert (Hptr : active_thread
                   (user_conv (guild_id guild) (user_id user) closed) = None).
  { unfold user_conv. rewrite Hconv. by rewrite lookup_insert_eq. }
  split; [exact Hptr|].
  apply get_or_create_thread_creates. left. by rewrite Hptr.
Qed.

(** X3, at alice after the first close of her thread. *)
Lemma message_after_close_starts_a_thread_witness :
  active_thread (user_conv 7 42 (set_now first_close_at after_first_dm))
  = Some 5000
  /\ active_thread (user_conv 7 42 after_first_close) = None
  /\ _get_or_create_thread alice (guild_seven []) after_first_close
     = _create_new_thread alice (guild_seven []) "42-7-cccccccc"
         (set_uuid_count 3 after_first_close).
Proof.
  split; [vm_compute; reflexivity|].
  destruct (message_after_close_starts_a_thread alice_channel moderator
              (Some "resolved") alice_thread
              (set_now first_close_at after_first_dm) alice (guild_seven []))
    as [Hptr Hnew].
  - reflexivity.
  - discriminate.
  - reflexivity.
  - vm_compute; reflexivity.
  - left. vm_compute; reflexivity.
  - split; [exact Hptr|]. etransitivity; [exact Hnew|].
    vm_compute. reflexivity.
Defined.

(** X4, at the first close of alice's thread. *)
Lemma close_thread_clears_pointer_witness :
  active_thread (user_conv 7 42 (set_now first_close_at after_first_dm))
  = Some 5000
  /\ active_thread (user_conv 7 42 after_first_close) = None.
Proof.
  split; [vm_compute; reflexivity|].
  apply (close_thread_clears_pointer alice_channel moderator
           (Some "resolved") alice_thread
           (set_now first_close_at after_first_dm) 42).
  - reflexivity.
  - discriminate.
  - vm_compute; reflexivity.
  - left. vm_compute; reflexivity.
Defined.

(** ** Failures during a close *)


(** ** The listener and the failures of processing *)

Lemma frame_uuid4 R `{!FrameRel R} :
  (forall w n, R w (set_uuid_count n w)) -> frame R uuid4.
Proof. intros H w. apply H. Qed.




Lemma is_user_blocked_reads user guild w :
  exists b, _is_user_blocked user guild w = (Ok b, w).
Proof.
  unfold _is_user_blocked. rewrite bind_gets.
  destruct (bool_decide _); [by eexists|]. rewrite bind_gets.
  destruct (blocked _); [by eexists|].
  destruct guild as [g|]; [|by eexists].
  destruct (truthy_id (Some g)); [|by eexists]. rewrite bind_gets.
  destruct (existsb _ _); by eexists.
Qed.




(** ** Which guild a DM goes to *)

Lemma check_user_requirements_eq user guild config w :
  _check_user_requirements user guild config w
  = (Ok (meets_requirements user guild config (now w)), w).
Proof.
  unfold _check_user_requirements, meets_requirements, bind, utcnow, gets, ret.
  destruct ((0 <? _) && (_ <? _)); [reflexivity|]. cbn [negb andb].
  destruct (require_server_member _); [|reflexivity].
  destruct (guild_get_member _ _); [|reflexivity].
  destruct ((0 <? _) && (_ <? _)); reflexivity.
Qed.

Lemma find_eligible_guilds_filter author w :
  find_eligible_guilds author w
  = (Ok (List.filter (eligible_guild author w) (bot_guilds w)), w).
Proof.
  unfold find_eligible_guilds. rewrite bind_gets.
  induction (bot_guilds w) as [|guild guilds IH]; [reflexivity|].
  cbn [filter_m List.filter]. unfold eligible_guild at 1.
  unfold bind at 1. unfold bind at 1. unfold gets at 1.
  destruct (enabled (guild_config (guild_id guild) w)); cbn [negb andb].
  - rewrite check_user_requirements_eq.
    rewrite (bind_ok _ _ _ _ _ IH). reflexivity.
  - unfold ret at 1. rewrite (bind_ok _ _ _ _ _ IH). reflexivity.
Qed.

(** X9. The guilds a DM can go to are the guilds of the bot's cache, in cache
    order, where modmail is enabled and whose requirements the author
    meets; finding them only reads.  A message that is not a DM, or whose
    author is a bot, is ignored, and a DM no guild is eligible for is
    dropped: in both cases the world, trace included, is left as it was. *)
Theorem listener_target_selection :
  forall (message : Message) (w : World),
    let author := msg_author message in
    let eligible := List.filter (eligible_guild author w) (bot_guilds w) in
    find_eligible_guilds author w = (Ok eligible, w)
    /\ (msg_channel_kind message <> DMChannel \/ user_bot author = true ->
        on_message_without_command message w = (Ok Ignored, w))
    /\ (msg_channel_kind message = DMChannel -> user_bot author = false ->
        eligible = [] ->
        on_message_without_command message w = (Ok NoTarget, w)).
Proof.
  intros message w author eligible.
  split; [apply find_eligible_guilds_filter|]. split.
  - intros Hskip. unfold on_message_without_command. fold author.
    destruct (msg_channel_kind message); try reflexivity.
    destruct Hskip as [Hk|Hb]; [done|by rewrite Hb].
  - intros Hdm Hhuman Hnone. unfold on_message_without_command. fold author.
    rewrite Hdm, Hhuman.
    rewrite (bind_ok _ _ _ _ _ (find_eligible_guilds_filter author w)).
    fold eligible. by rewrite Hnone.
Qed.

(** X10. A user who meets the requirements of a guild meets them at any later
    time: both tests are lower bounds on an age.  (Same user, same member
    record, same settings.) *)
Theorem eligibility_is_monotone_in_time :
  forall (user : User) (guild : Guild) (config : GuildConfig) (w : World)
         (later : Z),
    now w <= later ->
    fst (_check_user_requirements user guild config w) = Ok true ->
    _check_user_requirements user guild config (set_now later w)
    = (Ok true, set_now later w).
Proof.
  intros user guild config w later Hlater.
  rewrite !check_user_requirements_eq. cbn [fst now set_now].
  intros Hok. f_equal. f_equal. injection Hok as Hok.
  unfold meets_requirements in *.
  apply andb_true_iff in Hok as [Hacc Hsrv]. apply andb_true_iff. split.
  - apply negb_true_iff in Hacc. apply negb_true_iff.
    apply andb_false_iff in Hacc. apply andb_false_iff.
    destruct Hacc as [Hacc|Hacc]; [by left|right].
    apply Z.ltb_ge in Hacc. apply Z.ltb_ge. lia.
  - destruct (require_server_member _); [|done].
    destruct (guild_get_member _ _); [|done].
    apply negb_true_iff in Hsrv. apply negb_true_iff.
    apply andb_false_iff in Hsrv. apply andb_false_iff.
    destruct Hsrv as [Hsrv|Hsrv]; [by left|right].
    apply Z.ltb_ge in Hsrv. apply Z.ltb_ge. lia.
Qed.

(** X10, at alice and guild 7, a minute later. *)
Lemma eligibility_is_monotone_in_time_witness :
  fst (_check_user_requirements alice (guild_seven []) default_guild
         fresh_world) = Ok true
  /\ _check_user_requirements alice (guild_seven []) default_guild
       (set_now (noon + timedelta_seconds 60) fresh_world)
     = (Ok true, set_now (noon + timedelta_seconds 60) fresh_world).
Proof.
  split; [reflexivity|].
  apply (eligibility_is_monotone_in_time alice (guild_seven []) default_guild
           fresh_world (noon + timedelta_seconds 60)).
  - vm_compute. discriminate.
  - reflexivity.
Defined.

(** ** A DM over the rate limit *)

(** X11. A DM of a human who is not blocked, sent when the rate limiter
    already holds [max_messages] live timestamps for the target guild, is
    answered with the guild's cooldown message and nothing else: the limiter
    keeps the live timestamps (the refused message is not recorded), and no
    thread document, pointer, channel or hook call is made. *)
Theorem rate_limited_dm_gets_only_the_notice :
  forall (message : Message) (w : World) (target : Guild)
         (others : list Guild),
    let author := msg_author message in
    let uid := user_id author in
    let gid := guild_id target in
    let rc := rate_limiting (guild_config gid w) in
    let key := rate_key gid uid in
    let kept :=
      List.filter (fun ts => now w - timedelta_seconds (time_window rc) <? ts)
        (rate_entries key w) in
    msg_channel_kind message = DMChannel ->
    user_bot author = false ->
    List.filter (eligible_guild author w) (bot_guilds w) = target :: others ->
    fst (_is_user_blocked uid (Some gid) w) = Ok false ->
    rl_enabled rc = true ->
    max_messages rc <= Z.of_nat (length kept) ->
    ext_fail w (CallUserSend uid) = None ->
    on_message_without_command message w
    = (Ok (RateLimited (cooldown_message rc)),
       emit_all [EvUserSend uid (PText (cooldown_message rc))]
         (set_rate_limits (<[key := kept]> (rate_limits w)) w)).
Proof.
  intros message w target others author uid gid rc key kept
    Hdm Hhuman Hel Hfree Hen Hfull Hsend.
  unfold on_message_without_command. fold author. rewrite Hdm, Hhuman.
  rewrite (bind_ok _ _ _ _ _ (find_eligible_guilds_filter author w)), Hel.
  fold uid gid.
  destruct (is_user_blocked_reads uid (Some gid) w) as [b Hb].
  rewrite Hb in Hfree. injection Hfree as ->.
  rewrite (bind_ok _ _ _ _ _ Hb).
  pose proof (is_rate_limited_enabled uid gid w Hen) as Hrl.
  cbv zeta in Hrl. fold rc key kept in Hrl.
  destruct (Z.leb_spec (max_messages rc) (Z.of_nat (length kept))); [|lia].
  rewrite (bind_ok _ _ _ _ _ Hrl). rewrite bind_gets.
  change (rate_limiting (guild_config gid (set_rate_limits _ w))) with rc.
  unfold user_send. fold uid.
  erewrite bind_ok; [|apply ext_call_ok; exact Hsend].
  reflexivity.
Qed.

(** X11, at a DM of alice with five live timestamps under her key. *)
Lemma rate_limited_dm_gets_only_the_notice_witness :
  on_message_without_command first_dm busy_world
  = (Ok (RateLimited (cooldown_message (rate_limiting default_guild))),
     emit_all
       [EvUserSend 42
          (PText (cooldown_message (rate_limiting default_guild)))]
       busy_world).
Proof.
  etransitivity.
  - apply (rate_limited_dm_gets_only_the_notice first_dm busy_world
             (guild_seven []) []); try (vm_compute; reflexivity).
    vm_compute. discriminate.
  - vm_compute. reflexivity.
Defined.

(** ** Forwarding a message and its attachments *)

Lemma forward_file_step cid att w :
  ext_fail w (CallChannelSend cid) = None ->
  download_contained w att = true ->
  try_except
    (attachment_to_file att ;;; channel_send cid (PFile (att_filename att)))
    is_HTTPException (fun _ => ret tt) w
  = (Ok tt,
     if downloads w att
     then emit_all [EvChannelSend cid (PFile (att_filename att))] w
     else w).
Proof.
  intros Hsend Hok.
  unfold try_except, bind, attachment_to_file, channel_send, ext_call,
    download_contained, downloads in *.
  destruct (ext_fail w (CallAttachmentToFile (att_url att))) as [e|].
  - by rewrite Hok.
  - by rewrite Hsend.
Qed.

Lemma forward_files_loop cid atts : forall w,
  ext_fail w (CallChannelSend cid) = None ->
  forallb (fun att => is_image_url (att_url att) || download_contained w att)
    atts = true ->
  for_each atts (fun attachment =>
    if negb (is_image_url (att_url attachment)) then
      try_except
        (attachment_to_file attachment ;;;
         channel_send cid (PFile (att_filename attachment)))
        is_HTTPException (fun _ => ret tt)
    else ret tt) w
  = (Ok tt, emit_all (file_events cid (forwarded_files w atts)) w).
Proof.
  induction atts as [|att atts IH]; intros w Hsend Hok.
  - simpl. by rewrite emit_all_nil.
  - cbn [forallb] in Hok. apply andb_true_iff in Hok as [Hatt Hrest].
    cbn [for_each forwarded_files List.filter].
    destruct (is_image_url (att_url att)); cbn [negb andb orb] in *.
    + rewrite bind_ret. by apply IH.
    + rewrite (bind_ok _ _ _ _ _ (forward_file_step cid att w Hsend Hatt)).
      destruct (downloads w att).
      * rewrite (IH (emit_all _ w)); [|exact Hsend|exact Hrest].
        cbn [file_events List.map]. rewrite emit_all_app. reflexivity.
      * by apply IH.
Qed.

(** X13. When the thread channel can be written to and every download of a
    non-image attachment works or fails with an [HTTPException],
    [_forward_message_to_thread] returns normally after sending, in this
    order: the user-info embed if one was given, one embed with the text
    and author of the message, and one file per attachment that is not an
    image and could be downloaded, in the order of the message.  Images are
    not uploaded again; a single image attachment is shown in the embed. *)
Theorem forward_message_uploads_files :
  forall (message : Message) (thread_channel : Channel)
         (user_embed : option Embed) (w : World),
    let cid := channel_id thread_channel in
    let atts := msg_attachments message in
    ext_fail w (CallChannelSend cid) = None ->
    forallb (fun att => is_image_url (att_url att) || download_contained w att)
      atts = true ->
    exists embed : Embed,
      _forward_message_to_thread message thread_channel user_embed w
      = (Ok tt,
         emit_all
           (match user_embed with
            | Some e => [EvChannelSend cid (PEmbed e)]
            | None => []
            end
            ++ [EvChannelSend cid (PEmbed embed)]
            ++ file_events cid (forwarded_files w atts)) w)
      /\ emb_description embed = msg_content message
      /\ emb_author embed = str_user (msg_author message)
      /\ emb_image embed
         = match atts with
           | [att] => if is_image_url (att_url att) then att_url att
                      else EmptyString
           | _ => EmptyString
           end.
Proof.
  intros message thread_channel user_embed w cid atts Hsend Hok.
  unfold _forward_message_to_thread. fold cid atts.
  eexists. split.
  - erewrite bind_ok.
    2:{ instantiate (1 := emit_all match user_embed with
                                   | Some e => [EvChannelSend cid (PEmbed e)]
                                   | None => []
                                   end w).
        instantiate (1 := tt).
        destruct user_embed; [by apply ext_call_ok|].
        by rewrite emit_all_nil. }
    unfold channel_send at 1.
    erewrite bind_ok; [|by apply ext_call_ok].
    rewrite forward_files_loop; [|exact Hsend|exact Hok].
    rewrite !emit_all_app. reflexivity.
  - destruct atts as [|att [|att2 rest]]; [done| |done].
    destruct (is_image_url (att_url att)); done.
Qed.

(** X13, at a DM with a picture and a text file. *)
Lemma forward_message_uploads_files_witness :
  forwarded_files after_first_dm (msg_attachments dm_with_files)
  = [report_txt]
  /\ exists embed : Embed,
       _forward_message_to_thread dm_with_files alice_channel None
         after_first_dm
       = (Ok tt,
          emit_all
            [EvChannelSend 5000 (PEmbed embed);
             EvChannelSend 5000 (PFile "report.txt")] after_first_dm).
Proof.
  split; [vm_compute; reflexivity|].
  destruct (forward_message_uploads_files dm_with_files alice_channel None
              after_first_dm) as (embed & Hrun & _);
    try (vm_compute; reflexivity).
  exists embed. rewrite Hrun. reflexivity.
Defined.

(** ** The sweep: guilds it skips, documents it stops at *)

#[local] Instance guild_kept_frame gid : FrameRel (guild_kept gid).
Proof.
  split; unfold guild_kept.
  - done.
  - intros w1 w2 w3 (H1 & H2 & H3) (H4 & H5 & H6).
    split; [congruence|]. split; [congruence|tauto].
  - done.
Qed.

Lemma cache_wf_map_guild_channels g F w :
  (forall l, Forall (fun ch => channel_guild ch = g) l ->
             Forall (fun ch => channel_guild ch = g) (F l)) ->
  cache_wf w -> cache_wf (map_guild_channels g F w).
Proof.
  intros HF [Hnd Hfiled]. unfold cache_wf, map_guild_channels. simpl.
  split.
  - rewrite List.map_map.
    erewrite List.map_ext; [exact Hnd|].
    intros x. simpl. by destruct (guild_id x =? g).
  - apply Forall_map. eapply Forall_impl; [exact Hfiled|].
    intros x Hx. simpl in *.
    destruct (Z.eqb_spec (guild_id x) g) as [Hg|]; [|exact Hx].
    simpl. rewrite Hg in *. by apply HF.
Qed.

Lemma guild_kept_map_guild_channels gid g F w :
  (forall l, Forall (fun ch => channel_guild ch = g) l ->
             Forall (fun ch => channel_guild ch = g) (F l)) ->
  guild_kept gid w (map_guild_channels g F w).
Proof.
  intros HF. split; [done|]. split; [done|].
  by apply cache_wf_map_guild_channels.
Qed.

Lemma Forall_on_channel (P : Channel -> Prop) c f l :
  (forall ch, P ch -> P (f ch)) -> Forall P l -> Forall P (on_channel c f l).
Proof.
  intros Hf Hl. unfold on_channel. apply Forall_map.
  eapply Forall_impl; [exact Hl|]. intros ch Hch. simpl.
  destruct (channel_id ch =? c); [by apply Hf|done].
Qed.

Lemma Forall_list_filter {A} (P : A -> Prop) f l :
  Forall P l -> Forall P (List.filter f l).
Proof.
  intros Hl. induction Hl as [|x l Hx Hl IH]; simpl; [done|].
  destruct (f x); [by constructor|done].
Qed.

Lemma guild_kept_thread_set gid g thread_id data w :
  g <> gid -> guild_kept gid w (thread_set g thread_id data w).
Proof.
  intros Hne. split; [|done].
  unfold all_threads, thread_set. simpl. by rewrite lookup_insert_ne.
Qed.

(** A close in another guild. *)
Lemma close_thread_guild_kept gid channel closer reason thread_data :
  channel_guild channel <> gid ->
  frame (guild_kept gid) (_close_thread channel closer reason thread_data).
Proof.
  intros Hne. unfold _close_thread, _update_thread_data.
  repeat first
    [ frame_step
    | frame_write ltac:(first
        [ by apply guild_kept_thread_set
        | apply guild_kept_map_guild_channels; intros;
          first [ apply Forall_on_channel; [|done]; by intros
                | by apply Forall_list_filter ]
        | done ]) ].
Qed.

(** The inner loop of the sweep, in a guild other than [gid]. *)
Lemma auto_close_thread_guild_kept gid guild cutoff item w :
  guild_id guild <> gid ->
  cache_wf w ->
  guild_kept gid w (snd (auto_close_thread guild cutoff item w)).
Proof.
  intros Hne Hwf. destruct item as [thread_id data].
  unfold auto_close_thread.
  destruct (negb _); [apply frame_refl|].
  destruct (td_created_at data) as [created|]; [|apply frame_refl].
  unfold fromisoformat. rewrite bind_ret.
  destruct (created <? cutoff); [|apply frame_refl].
  rewrite bind_gets.
  destruct (guild_get_channel (guild_id guild) (td_channel_id data) w)
    as [channel|] eqn:Hch; [|apply frame_refl].
  apply close_thread_guild_kept.
  destruct (td_channel_id data) as [c|]; [|done].
  destruct (get_channel_wf _ _ _ _ Hwf Hch) as [_ ->]. exact Hne.
Qed.

Lemma for_each_guild_kept {A} gid (body : A -> M unit) l :
  (forall x w, In x l -> cache_wf w -> guild_kept gid w (snd (body x w))) ->
  forall w, cache_wf w -> guild_kept gid w (snd (for_each l body w)).
Proof.
  induction l as [|x l IH]; intros Hbody w Hwf; [apply frame_refl|].
  cbn [for_each]. unfold bind.
  pose proof (Hbody x w (or_introl eq_refl) Hwf) as Hx.
  destruct (body x w) as [[[]|e] w1]; simpl in *; [|exact Hx].
  eapply frame_trans; [exact Hx|].
  apply IH; [|by apply Hx].
  intros y w' Hy. apply Hbody. by right.
Qed.

Lemma auto_close_guild_kept gid guild w :
  guild_id guild <> gid ->
  cache_wf w ->
  guild_kept gid w (snd (auto_close_guild guild w)).
Proof.
  intros Hne Hwf. unfold auto_close_guild. rewrite bind_gets.
  destruct (negb _); [apply frame_refl|].
  destruct (_ <=? 0); [apply frame_refl|].
  rewrite bind_gets. unfold utcnow. rewrite bind_gets.
  apply for_each_guild_kept; [|exact Hwf].
  intros item w' _. by apply auto_close_thread_guild_kept.
Qed.

Lemma auto_close_guild_inactive guild w :
  sweep_active (guild_id guild) w = false ->
  auto_close_guild guild w = (Ok tt, w).
Proof.
  intros Hoff. unfold auto_close_guild. rewrite bind_gets.
  unfold sweep_active in Hoff.
  destruct (enabled (guild_config (guild_id guild) w)); [|done].
  cbn [negb]. simpl in Hoff. apply Z.ltb_ge in Hoff.
  by destruct (Z.leb_spec (auto_close_after
                             (thread_settings
                                (guild_config (guild_id guild) w))) 0);
    [|lia].
Qed.

(** The outer loop of the sweep: a guild that does not take part, or is
    not among the guilds swept, keeps its documents. *)
Lemma sweep_guilds_kept gid guilds : forall w,
  cache_wf w ->
  sweep_active gid w = false \/ ~ In gid (List.map guild_id guilds) ->
  guild_kept gid w (snd (for_each guilds auto_close_guild w)).
Proof.
  induction guilds as [|guild guilds IH]; intros w Hwf Hoff;
    [apply frame_refl|].
  cbn [for_each]. unfold bind.
  destruct (Z.eq_dec (guild_id guild) gid) as [Heq|Hne].
  - destruct Hoff as [Hoff|Hout]; [|exfalso; apply Hout; by left].
    rewrite auto_close_guild_inactive by (by rewrite Heq).
    apply IH; [exact Hwf|by left].
  - pose proof (auto_close_guild_kept gid guild w Hne Hwf) as Hx.
    destruct (auto_close_guild guild w) as [[[]|e] w1]; simpl in *;
      [|exact Hx].
    eapply frame_trans; [exact Hx|].
    apply IH; [by apply Hx|].
    destruct Hoff as [Hoff|Hout].
    + left. unfold sweep_active, guild_config in *.
      destruct Hx as (_ & -> & _). exact Hoff.
    + right. intros Hin. apply Hout. by right.
Qed.

(** X14. In a guild cache that files every channel under its own guild, a
    sweep does not touch the thread documents of a guild where modmail is
    disabled, or whose [auto_close_after] is zero or negative, or that is
    not in the bot's cache, however old its open threads are and whatever
    happens in the guilds that are swept: whether the sweep completes or
    raises, and so also after [cleanup_task]. *)
Theorem sweep_leaves_inactive_guilds :
  forall (w : World) (gid : Z),
    cache_wf w ->
    enabled (guild_config gid w) = false
    \/ auto_close_after (thread_settings (guild_config gid w)) <= 0
    \/ ~ In gid (List.map guild_id (bot_guilds w)) ->
    all_threads gid (snd (_auto_close_threads w)) = all_threads gid w
    /\ all_threads gid (snd (cleanup_task w)) = all_threads gid w.
Proof.
  intros w gid Hwf Hoff.
  assert (Hsweep : guild_kept gid w (snd (_auto_close_threads w))).
  { unfold _auto_close_threads. rewrite bind_gets.
    apply sweep_guilds_kept; [exact Hwf|].
    destruct Hoff as [Hoff|[Hoff|Hout]]; [left|left|by right];
      unfold sweep_active.
    - by rewrite Hoff.
    - apply andb_false_iff. right. by apply Z.ltb_ge. }
  split; [apply Hsweep|].
  unfold cleanup_task, try_except, _cleanup_old_data, bind.
  destruct (_auto_close_threads w) as [[[]|e] w1]; simpl in *;
    apply Hsweep.
Qed.

(** X14, at guild 7 with [auto_close_after = 0] and an idle thread. *)
Lemma sweep_leaves_inactive_guilds_witness :
  auto_close_after (thread_settings (guild_config 7 quiet_world)) = 0
  /\ all_threads 7 (snd (_auto_close_threads quiet_world))
     = [("42-7-aaaaaaaa", idle_thread 42 5000)].
Proof.
  split; [reflexivity|].
  apply (sweep_leaves_inactive_guilds quiet_world 7).
  - split.
    + apply (bool_decide_unpack _). vm_compute. exact I.
    + repeat constructor.
  - right. left. vm_compute. discriminate.
Defined.

Lemma auto_close_thread_passes guild w item :
  passed_over (guild_id guild) w item ->
  auto_close_thread guild (sweep_cutoff (guild_id guild) w) item w
  = (Ok tt, w).
Proof.
  destruct item as [k d]. unfold passed_over, auto_close_thread, sweep_due.
  cbn [snd]. intros [Hst|[Hcr Hdue]].
  - destruct (td_status d); [done|reflexivity|reflexivity].
  - destruct (status_eqb (td_status d) st_open); [|reflexivity].
    cbn [negb andb] in *.
    destruct (td_created_at d) as [created|]; [|done].
    unfold fromisoformat. rewrite bind_ret. fold (sweep_cutoff (guild_id guild) w) in Hdue.
    destruct (created <? sweep_cutoff (guild_id guild) w); [|reflexivity].
    rewrite bind_gets.
    destruct (guild_get_channel _ _ w); [done|reflexivity].
Qed.

Lemma for_each_app {A} (l1 l2 : list A) (body : A -> M unit) w :
  for_each (l1 ++ l2) body w
  = bind (for_each l1 body) (fun _ => for_each l2 body) w.
Proof.
  revert w. induction l1 as [|x l1 IH]; intros w; [reflexivity|].
  cbn [app for_each]. unfold bind.
  destruct (body x w) as [[[]|e] w1]; [|reflexivity].
  rewrite IH. reflexivity.
Qed.

Lemma for_each_unchanged {A} (l : list A) (body : A -> M unit) w :
  Forall (fun x => body x w = (Ok tt, w)) l ->
  for_each l body w = (Ok tt, w).
Proof.
  induction 1 as [|x l Hx _ IH]; [reflexivity|].
  cbn [for_each]. by rewrite (bind_ok _ _ _ _ _ Hx).
Qed.

(** X15. An open thread document without [created_at] stops the sweep.  When
    the first guild of the cache takes part in the sweep and the documents
    before this one are passed over, [_auto_close_threads] raises the
    [TypeError] of [datetime.fromisoformat(None)] with the world as it was:
    the documents after it and the guilds after this one are not looked
    at.  [cleanup_task] catches the error and logs it. *)
Theorem sweep_stops_at_undated_document :
  forall (w : World) (guild : Guild) (rest : list Guild)
         (before after : list (string * ThreadData))
         (k : string) (d : ThreadData),
    let gid := guild_id guild in
    bot_guilds w = guild :: rest ->
    sweep_active gid w = true ->
    all_threads gid w = before ++ (k, d) :: after ->
    Forall (passed_over gid w) before ->
    td_status d = st_open ->
    td_created_at d = None ->
    _auto_close_threads w = (Raise missing_created_at, w)
    /\ cleanup_task w
       = (Ok tt,
          emit_all [EvLog LogException "Error in cleanup task"
                      (Some missing_created_at)] w).
Proof.
  intros w guild rest before after k d gid Hguilds Hactive Hall Hbefore
    Hopen Hnone.
  assert (Hsweep : _auto_close_threads w = (Raise missing_created_at, w)).
  { unfold _auto_close_threads. rewrite bind_gets, Hguilds. cbn [for_each].
    apply bind_raise. unfold auto_close_guild. fold gid.
    unfold sweep_active in Hactive. apply andb_true_iff in Hactive as [Hen Hpos].
    rewrite bind_gets, Hen. cbn [negb].
    apply Z.ltb_lt in Hpos.
    destruct (Z.leb_spec (auto_close_after (thread_settings (guild_config gid w))) 0);
      [lia|].
    rewrite bind_gets, Hall. unfold utcnow. rewrite bind_gets.
    fold (sweep_cutoff gid w). rewrite for_each_app.
    erewrite bind_ok.
    2:{ apply for_each_unchanged. eapply Forall_impl; [exact Hbefore|].
        intros item Hitem. by apply auto_close_thread_passes. }
    cbn [for_each]. apply bind_raise.
    unfold auto_close_thread. rewrite Hopen, Hnone. reflexivity. }
  split; [exact Hsweep|].
  unfold cleanup_task, try_except.
  rewrite (bind_raise _ _ _ _ _ Hsweep). reflexivity.
Qed.

(** X15, at the two thread documents the first DM of alice leaves. *)
Lemma sweep_stops_at_undated_document_witness :
  all_threads 7 after_first_dm
  = [(alice_thread_id, alice_thread);
     ("42-7-bbbbbbbb", with_message_count 1 default_thread)]
  /\ cleanup_task after_first_dm
     = (Ok tt,
        emit_all [EvLog LogException "Error in cleanup task"
                    (Some missing_created_at)] after_first_dm).
Proof.
  assert (Hall : all_threads 7 after_first_dm
                 = [(alice_thread_id, alice_thread)]
                   ++ ("42-7-bbbbbbbb", with_message_count 1 default_thread)
                      :: []) by (vm_compute; reflexivity).
  split; [exact Hall|].
  apply (sweep_stops_at_undated_document after_first_dm
           (guild_seven [alice_channel]) []
           [(alice_thread_id, alice_thread)] []
           "42-7-bbbbbbbb" (with_message_count 1 default_thread)).
  - vm_compute; reflexivity.
  - vm_compute; reflexivity.
  - exact Hall.
  - constructor; [|constructor]. right. split; [discriminate|].
    vm_compute. reflexivity.
  - reflexivity.
  - reflexivity.
Defined.

(** ** A close that is not confirmed *)

Lemma get_thread_data_from_channel_run channel w :
  _get_thread_data_from_channel channel w
  = (Ok (option_map snd (thread_of_channel channel w)), w).
Proof. reflexivity. Qed.

Lemma send_then_ret_stores {A} cid p (a : A) w :
  let result := (channel_send cid p ;;; ret a) w in
  (fst result = Ok a \/ exists e, fst result = Raise e)
  /\ same_stores w (snd result).
Proof.
  unfold bind, channel_send, ext_call.
  destruct (ext_fail w _); simpl; (split; [eauto|repeat split]).
Qed.

(** X7. Where the guild asks for a confirmation, a [modmail close] whose
    confirmation is declined or times out never reaches [_close_thread]: it
    does not end at [CloseDone], and the Config (thread documents,
    pointers, user and guild settings) and the channel cache are those of
    before, whatever message could or could not be sent.  When the channel
    is a thread channel with its document, a reason is there if one is
    required and the messages go through, it ends at [CloseCancelled] or
    [CloseTimedOut]. *)
Theorem unconfirmed_close_changes_nothing :
  forall (ctx : Context) (reason : option string) (reaction : Reaction)
         (w : World),
    let result := modmail_close ctx reason reaction w in
    close_confirmation
      (thread_settings (guild_config (guild_id (ctx_guild ctx)) w)) = true ->
    reaction <> ReactConfirm ->
    fst result <> Ok CloseDone
    /\ same_stores w (snd result)
    /\ (_is_modmail_channel (ctx_channel ctx) = true ->
        thread_of_channel (ctx_channel ctx) w <> None ->
        require_close_reason
          (thread_settings (guild_config (guild_id (ctx_guild ctx)) w))
        = false \/ truthy_str reason = true ->
        ext_fail w (CallChannelSend (channel_id (ctx_channel ctx))) = None ->
        ext_fail w (CallAddReaction (channel_id (ctx_channel ctx))) = None ->
        fst result
        = Ok match reaction with
             | ReactCancel => CloseCancelled
             | _ => CloseTimedOut
             end).
Proof.
  intros ctx reason reaction w result Hconfirm Hreact. subst result.
  match goal with
  | |- ?A /\ ?B /\ ?C => cut (C /\ (A /\ B)); [tauto|]
  end.
  split.
  { intros Hname Hfound Hreason Hs Ha. unfold modmail_close.
      rewrite Hname. cbn [negb].
      rewrite (bind_ok _ _ _ _ _ (get_thread_data_from_channel_run _ w)).
      destruct (thread_of_channel (ctx_channel ctx) w) as [[t d]|]; [|done].
      cbn [option_map]. rewrite bind_gets, Hconfirm.
      assert (require_close_reason
                (thread_settings (guild_config (guild_id (ctx_guild ctx)) w))
              && negb (truthy_str reason) = false) as ->.
      { destruct Hreason as [->| ->]; [done|apply andb_false_r]. }
      unfold bind, channel_send, ext_call.
      destruct reaction; try done; repeat (simpl; rewrite ?Hs, ?Ha); done. }
  unfold modmail_close.
  destruct (negb (_is_modmail_channel (ctx_channel ctx))).
  { destruct (send_then_ret_stores (channel_id (ctx_channel ctx))
                (PText "This command can only be used in modmail threads.")
                NotModmailChannel w) as [[->|[e ->]] Hs]; done. }
  rewrite (bind_ok _ _ _ _ _ (get_thread_data_from_channel_run _ w)).
  destruct (option_map snd _) as [thread_data|].
  2:{ destruct (send_then_ret_stores (channel_id (ctx_channel ctx))
                  (PText "Could not find thread data.")
                  NoThreadData w) as [[->|[e ->]] Hs]; done. }
  rewrite bind_gets, Hconfirm.
  destruct (require_close_reason _ && negb (truthy_str reason)).
  { destruct (send_then_ret_stores (channel_id (ctx_channel ctx))
                (PText "Please provide a reason for closing this thread.")
                ReasonRequired w) as [[->|[e ->]] Hs]; done. }
  set (cid := channel_id (ctx_channel ctx)).
  unfold bind, channel_send, ext_call.
  destruct (ext_fail w (CallChannelSend cid)) eqn:Hs;
    destruct (ext_fail w (CallAddReaction cid)) eqn:Ha;
    destruct reaction; try done;
    repeat (simpl; rewrite ?Hs, ?Ha); (split; [done|repeat split]).
Qed.

(** X7, at a cancelled close in the channel of alice's thread. *)
Lemma unconfirmed_close_changes_nothing_witness :
  fst (modmail_close close_context (Some "resolved") ReactCancel
         after_first_dm) = Ok CloseCancelled
  /\ cfg_thread (snd (modmail_close close_context (Some "resolved")
                        ReactCancel after_first_dm))
     = cfg_thread after_first_dm.
Proof.
  destruct (unconfirmed_close_changes_nothing close_context
              (Some "resolved") ReactCancel after_first_dm)
    as (_ & (Hthreads & _) & Hout).
  - vm_compute; reflexivity.
  - discriminate.
  - split; [|exact Hthreads].
    apply Hout; try (vm_compute; reflexivity).
    + vm_compute. discriminate.
    + right. reflexivity.
Defined.

(** ** The cleanup of the rate-limit table *)

Lemma rate_entries_insert key entries m w :
  rate_entries key (set_rate_limits (<[key := entries]> m) w) = entries.
Proof.
  unfold rate_entries. cbn [rate_limits set_rate_limits].
  by rewrite lookup_insert_eq.
Qed.

Lemma cleanup_first_loop cutoff w l : forall m1,
  filter_m (fun '(key, timestamps) =>
      modify (fun w =>
        set_rate_limits
          (<[key := List.filter (fun ts => cutoff <? ts) timestamps]>
             (rate_limits w)) w) ;;;
      let* kept := gets (rate_entries key) in
      ret match kept with
          | [] => true
          | _ => false
          end) l (set_rate_limits m1 w)
  = (Ok (List.filter (fun item => is_nil (live_since cutoff (snd item))) l),
     set_rate_limits (fold_left (write_back cutoff) l m1) w).
Proof.
  induction l as [|[key timestamps] l IH]; intros m1; [reflexivity|].
  cbn [filter_m fold_left List.filter snd].
  unfold bind at 1. unfold bind at 1. unfold modify at 1.
  rewrite set_rate_limits_twice. cbn [rate_limits set_rate_limits].
  unfold bind at 1, gets at 1, ret at 1.
  rewrite rate_entries_insert.
  fold (live_since cutoff timestamps).
  rewrite (bind_ok _ _ _ _ _ (IH _)). unfold ret, write_back. cbn [fst snd].
  destruct (live_since cutoff timestamps); reflexivity.
Qed.

Lemma cleanup_second_loop w keys : forall m2,
  for_each keys (fun key =>
    modify (fun w => set_rate_limits (delete key (rate_limits w)) w))
    (set_rate_limits m2 w)
  = (Ok tt, set_rate_limits (fold_left (fun m key => delete key m) keys m2) w).
Proof.
  induction keys as [|key keys IH]; intros m2; [reflexivity|].
  cbn [for_each fold_left]. rewrite bind_modify, set_rate_limits_twice.
  cbn [rate_limits set_rate_limits]. apply IH.
Qed.

Lemma write_back_other cutoff l : forall m1 k,
  k ∉ l.*1 -> fold_left (write_back cutoff) l m1 !! k = m1 !! k.
Proof.
  induction l as [|[k' ts'] l IH]; intros m1 k Hk; [reflexivity|].
  cbn [fold_left]. apply not_elem_of_cons in Hk as [Hne Hk].
  rewrite IH by exact Hk. unfold write_back. cbn [fst snd].
  by rewrite lookup_insert_ne.
Qed.

Lemma write_back_member cutoff l : forall m1 k ts,
  NoDup l.*1 -> (k, ts) ∈ l ->
  fold_left (write_back cutoff) l m1 !! k = Some (live_since cutoff ts).
Proof.
  induction l as [|[k' ts'] l IH]; intros m1 k ts Hnd Hin.
  - by apply elem_of_nil in Hin.
  - cbn [fold_left]. apply NoDup_cons in Hnd as [Hk' Hnd].
    apply elem_of_cons in Hin as [Heq|Hin].
    + injection Heq as -> ->. rewrite write_back_other by exact Hk'.
      unfold write_back. cbn [fst snd]. by rewrite lookup_insert_eq.
    + by apply IH.
Qed.

Lemma delete_all_lookup keys : forall (m2 : gmap string (list Z)) k,
  fold_left (fun m key => delete key m) keys m2 !! k
  = if decide (k ∈ keys) then None else m2 !! k.
Proof.
  induction keys as [|key keys IH]; intros m2 k; [reflexivity|].
  cbn [fold_left]. rewrite IH.
  destruct (decide (k ∈ keys)) as [Hin|Hout].
  - rewrite decide_True; [done|by right].
  - destruct (decide (k = key)) as [->|Hne].
    + rewrite decide_True; [|by left]. by rewrite lookup_delete_eq.
    + rewrite decide_False; [by rewrite lookup_delete_ne|].
      intros Hin. apply elem_of_cons in Hin as [?|?]; done.
Qed.

Lemma set_rate_limits_same w : set_rate_limits (rate_limits w) w = w.
Proof. by destruct w. Qed.

Lemma rate_limit_cleanup_run w :
  exists m' : gmap string (list Z),
    rate_limit_cleanup w = (Ok tt, set_rate_limits m' w)
    /\ forall key,
         m' !! key
         = rate_limits w !! key
           ≫= cleaned (now w - timedelta_minutes 10).
Proof.
  set (cutoff := now w - timedelta_minutes 10).
  set (entries := map_to_list (rate_limits w)).
  set (m2 := fold_left (write_back cutoff) entries (rate_limits w)).
  set (keys :=
    List.map fst
      (List.filter (fun item => is_nil (live_since cutoff (snd item)))
         entries)).
  exists (fold_left (fun m key => delete key m) keys m2). split.
  - unfold rate_limit_cleanup, utcnow. rewrite !bind_gets.
    fold cutoff entries.
    rewrite <- (set_rate_limits_same w) at 1.
    rewrite (bind_ok _ _ _ _ _ (cleanup_first_loop cutoff w entries _)).
    apply cleanup_second_loop.
  - intros key. rewrite delete_all_lookup.
    pose proof (NoDup_fst_map_to_list (rate_limits w)) as Hnd.
    fold entries in Hnd.
    destruct (rate_limits w !! key) as [ts|] eqn:Hkey; cbn [mbind option_bind].
    + assert (Hin : (key, ts) ∈ entries) by by apply elem_of_map_to_list.
      unfold m2. rewrite (write_back_member cutoff entries _ key ts Hnd Hin).
      unfold cleaned.
      destruct (decide (key ∈ keys)) as [Hrem|Hkeep].
      * unfold keys in Hrem. apply list_elem_of_fmap in Hrem
          as ([k' ts'] & Hk & Hrem). cbn [fst] in Hk. subst k'.
        apply list_elem_of_In, filter_In in Hrem as [Hin' Hnil].
        apply list_elem_of_In, elem_of_map_to_list in Hin'. rewrite Hkey in Hin'.
        injection Hin' as <-. cbn [snd] in Hnil.
        by destruct (live_since cutoff ts).
      * destruct (live_since cutoff ts) eqn:Hlive; [|done].
        exfalso. apply Hkeep. unfold keys.
        apply list_elem_of_fmap. exists (key, ts). split; [done|].
        apply list_elem_of_In, filter_In. split; [by apply list_elem_of_In|].
        cbn [snd]. by rewrite Hlive.
    + assert (Hout : key ∉ entries.*1).
      { intros Hin. apply list_elem_of_fmap in Hin as ([k' ts'] & Hk & Hin).
        cbn [fst] in Hk. subst k'. apply elem_of_map_to_list in Hin.
        congruence. }
      unfold m2. rewrite (write_back_other cutoff entries _ key Hout), Hkey.
      by destruct (decide _).
Qed.

Lemma live_since_Forall cutoff l : Forall (fun ts => cutoff < ts) (live_since cutoff l).
Proof.
  apply List.Forall_forall. intros ts Hin. apply filter_In in Hin as [_ Hts].
  by apply Z.ltb_lt.
Qed.

Lemma live_since_twice c1 c2 l :
  c1 <= c2 -> live_since c2 (live_since c1 l) = live_since c2 l.
Proof.
  intros Hle. unfold live_since. induction l as [|ts l IH]; [reflexivity|].
  cbn [List.filter]. destruct (c1 <? ts) eqn:H1; cbn [List.filter].
  - by rewrite IH.
  - destruct (c2 <? ts) eqn:H2; [|exact IH].
    apply Z.ltb_lt in H2. apply Z.ltb_ge in H1. lia.
Qed.

Lemma rate_entries_cleanup w key :
  rate_entries key (snd (rate_limit_cleanup w))
  = live_since (now w - timedelta_minutes 10) (rate_entries key w).
Proof.
  destruct (rate_limit_cleanup_run w) as (m' & -> & Hm').
  unfold rate_entries. cbn [snd rate_limits set_rate_limits].
  rewrite Hm'. destruct (rate_limits w !! key) as [ts|]; [|reflexivity].
  cbn [mbind option_bind default from_option]. unfold cleaned, id.
  by destruct (live_since _ ts).
Qed.

(** X16. [rate_limit_cleanup] returns normally and changes nothing but the
    rate-limit table.  Of every entry it keeps the timestamps of the last
    ten minutes, in their order, and it deletes the entry when none is
    left: afterwards no key maps to an empty list or to a timestamp older
    than ten minutes. *)
Theorem rate_limit_cleanup_keeps_live_entries :
  forall w : World,
    let cutoff := now w - timedelta_minutes 10 in
    let result := rate_limit_cleanup w in
    exists kept_map : gmap string (list Z),
      result = (Ok tt, set_rate_limits kept_map w)
      /\ (forall key, kept_map !! key = rate_limits w !! key ≫= cleaned cutoff)
      /\ (forall key kept, kept_map !! key = Some kept ->
            kept <> [] /\ Forall (fun ts => cutoff < ts) kept)
      /\ (forall key,
            rate_entries key (snd result)
            = live_since cutoff (rate_entries key w)).
Proof.
  intros w cutoff result.
  destruct (rate_limit_cleanup_run w) as (m' & Hrun & Hm').
  exists m'. split; [exact Hrun|]. split; [exact Hm'|]. split.
  - intros key kept Hkept. rewrite Hm' in Hkept.
    destruct (rate_limits w !! key) as [ts|]; [|done].
    cbn [mbind option_bind] in Hkept. unfold cleaned in Hkept.
    pose proof (live_since_Forall cutoff ts) as Hall. fold cutoff in Hkept.
    destruct (live_since cutoff ts); [done|].
    injection Hkept as <-. done.
  - intros key. apply rate_entries_cleanup.
Qed.

(** X17. For a guild whose [time_window] is at most ten minutes the cleanup is
    invisible to the rate limiter: a check made at any time after the
    cleanup gives the answer it would have given without it, and with rate
    limiting enabled it leaves the same timestamps under the key. *)
Theorem rate_limit_cleanup_is_invisible_to_limiter :
  forall (w : World) (user guild t : Z),
    let rc := rate_limiting (guild_config guild w) in
    let key := rate_key guild user in
    let cleaned_up := snd (rate_limit_cleanup w) in
    time_window rc <= 600 ->
    now w <= t ->
    fst (check_at user guild t cleaned_up) = fst (check_at user guild t w)
    /\ (rl_enabled rc = true ->
        rate_entries key (snd (check_at user guild t cleaned_up))
        = rate_entries key (snd (check_at user guild t w))).
Proof.
  intros w user guild t rc key cleaned_up Hwin Hlater.
  assert (Hcfg : guild_config guild cleaned_up = guild_config guild w).
  { unfold cleaned_up. by destruct (rate_limit_cleanup_run w) as (m' & -> & _). }
  destruct (rl_enabled rc) eqn:Hen.
  - assert (Hen' : rl_enabled (rate_limiting (guild_config guild cleaned_up))
                   = true) by by rewrite Hcfg.
    set (kept := live_since (t - timedelta_seconds (time_window rc))
                   (rate_entries key w)).
    assert (Hkept :
      List.filter
        (fun ts =>
           t - timedelta_seconds
                 (time_window (rate_limiting (guild_config guild cleaned_up)))
           <? ts)
        (rate_entries (rate_key guild user) cleaned_up) = kept).
    { rewrite Hcfg. unfold cleaned_up. rewrite rate_entries_cleanup.
      apply live_since_twice.
      unfold timedelta_minutes, timedelta_seconds. fold rc. lia. }
    rewrite (check_at_enabled user guild t w kept Hen eq_refl).
    rewrite (check_at_enabled user guild t cleaned_up kept Hen' Hkept).
    rewrite Hcfg. fold rc key.
    destruct (_ <=? _); cbn [fst snd]; (split; [done|intros _]);
      by rewrite !rate_step_entries.
  - unfold check_at. rewrite !is_rate_limited_disabled; [done|done|].
    change (guild_config guild (set_now t cleaned_up))
      with (guild_config guild cleaned_up). by rewrite Hcfg.
Qed.

(** X17, at alice over the limit, a minute after the cleanup. *)
Lemma rate_limit_cleanup_is_invisible_to_limiter_witness :
  fst (check_at 42 7 (noon + timedelta_seconds 60)
         (snd (rate_limit_cleanup busy_world)))
  = fst (check_at 42 7 (noon + timedelta_seconds 60) busy_world)
  /\ fst (check_at 42 7 (noon + timedelta_seconds 60) busy_world) = Ok true.
Proof.
  split; [|vm_compute; reflexivity].
  apply (rate_limit_cleanup_is_invisible_to_limiter busy_world 42 7
           (noon + timedelta_seconds 60)).
  - vm_compute. discriminate.
  - vm_compute. discriminate.
Defined.

(** X18. With a [time_window] longer than ten minutes the cleanup shortens the
    window: a user who is over the limit with timestamps that are all
    older than ten minutes but within the window is no longer limited
    once the cleanup has run. *)
Theorem rate_limit_cleanup_forgets_long_windows :
  forall (w : World) (user guild : Z),
    let rc := rate_limiting (guild_config guild w) in
    let entries := rate_entries (rate_key guild user) w in
    rl_enabled rc = true ->
    0 < max_messages rc ->
    max_messages rc <= Z.of_nat (length entries) ->
    Forall (fun ts => now w - timedelta_seconds (time_window rc) < ts
                      /\ ts <= now w - timedelta_minutes 10) entries ->
    fst (_is_rate_limited user guild w) = Ok true
    /\ fst (_is_rate_limited user guild (snd (rate_limit_cleanup w)))
       = Ok false.
Proof.
  intros w user guild rc entries Hen Hpos Hfull Hold.
  split.
  - rewrite (is_rate_limited_enabled _ _ _ Hen). cbv zeta. fold rc entries.
    rewrite filter_live.
    + by destruct (Z.leb_spec (max_messages rc) (Z.of_nat (length entries)));
        [|lia].
    + eapply Forall_impl; [exact Hold|]. by intros ts [? _].
  - destruct (rate_limit_cleanup_run w) as (m' & Hrun & _).
    assert (Hcfg : guild_config guild (snd (rate_limit_cleanup w))
                   = guild_config guild w) by by rewrite Hrun.
    assert (Hnow : now (snd (rate_limit_cleanup w)) = now w)
      by by rewrite Hrun.
    rewrite is_rate_limited_enabled by by rewrite Hcfg.
    cbv zeta. rewrite Hcfg, Hnow, rate_entries_cleanup. fold rc entries.
    unfold live_since. rewrite (filter_expired _ entries).
    + cbn [List.filter length].
      by destruct (Z.leb_spec (max_messages rc) (Z.of_nat 0)); [lia|].
    + eapply Forall_impl; [exact Hold|]. by intros ts [_ ?].
Qed.

(** X18, at a window of fifteen minutes and timestamps eleven minutes old. *)
Lemma rate_limit_cleanup_forgets_long_windows_witness :
  time_window (rate_limiting (guild_config 7 slow_limit_world)) = 900
  /\ fst (_is_rate_limited 42 7 slow_limit_world) = Ok true
  /\ fst (_is_rate_limited 42 7 (snd (rate_limit_cleanup slow_limit_world)))
     = Ok false.
Proof.
  split; [reflexivity|].
  apply (rate_limit_cleanup_forgets_long_windows slow_limit_world 42 7).
  - reflexivity.
  - reflexivity.
  - vm_compute. discriminate.
  - repeat constructor; vm_compute; (reflexivity || discriminate).
Defined.

(** ** Invariants of the stores *)

Lemma frame_gets_modify R `{!FrameRel R} {A B} (f : World -> A)
    (g : A -> World -> World) (k : A -> M B) :
  (forall w, R w (g (f w) w)) -> (forall a, frame R (k a)) ->
  frame R (bind (gets f) (fun a => bind (modify (g a)) (fun _ => k a))).
Proof.
  intros Hg Hk w. rewrite bind_gets, bind_modify.
  eapply frame_trans; [apply Hg|apply Hk].
Qed.

Lemma frame_filter_m R `{!FrameRel R} {A} (keep : A -> M bool) l :
  (forall x, frame R (keep x)) -> frame R (filter_m keep l).
Proof.
  intros Hkeep. induction l as [|x l IH]; simpl.
  - by apply frame_ret.
  - apply frame_bind; [exact _|apply Hkeep|intros b].
    apply frame_bind; [exact _|exact IH|intros rest]. by apply frame_ret.
Qed.

Lemma frame_fold_m R `{!FrameRel R} {A S} (step : S -> A -> M S) l :
  (forall acc x, frame R (step acc x)) -> forall acc, frame R (fold_m step l acc).
Proof.
  intros Hstep. induction l as [|x l IH]; intros acc; simpl.
  - by apply frame_ret.
  - apply frame_bind; [exact _|apply Hstep|exact IH].
Qed.

(** Every operation of the cog is framed by every relation its writes
    respect. *)
Section Writers.
Context (R : World -> World -> Prop) `{!FrameRel R} `{!Writes R}.

Lemma writes_create_text_channel gid cat name ov topic :
  frame R (create_text_channel gid cat name ov topic).
Proof.
  intros w. unfold create_text_channel.
  destruct (ext_fail w (CallCreateTextChannel gid)); cbn [snd].
  - apply frame_refl.
  - eapply frame_trans; [apply writes_snowflake|].
    eapply frame_trans; [apply writes_channels|]. apply frame_emit_all.
Qed.

Lemma writes_create_new_thread user guild thread_id :
  frame R (_create_new_thread user guild thread_id).
Proof.
  unfold _create_new_thread.
  repeat first
    [ apply writes_create_text_channel
    | apply frame_gets_modify; [exact _|intros ?; apply writes_counter|intros ?]
    | frame_step
    | frame_write ltac:(first [apply writes_thread | apply writes_pointer]) ].
Qed.

Lemma writes_get_or_create_thread user guild :
  frame R (_get_or_create_thread user guild).
Proof.
  unfold _get_or_create_thread, _get_thread_id.
  repeat first
    [ apply writes_create_new_thread
    | apply frame_uuid4; [exact _|intros; apply writes_uuid]
    | frame_step ].
Qed.

Lemma writes_process_modmail_message message guild :
  frame R (_process_modmail_message message guild).
Proof.
  unfold _process_modmail_message, _get_thread_id, _create_user_info_embed,
    _forward_message_to_thread, _update_thread_data, _send_auto_response,
    _log_thread_created.
  repeat first
    [ apply writes_get_or_create_thread
    | apply frame_uuid4; [exact _|intros; apply writes_uuid]
    | frame_step
    | frame_write ltac:(apply writes_thread) ].
Qed.

Lemma writes_is_rate_limited user guild : frame R (_is_rate_limited user guild).
Proof.
  intros w. destruct (rl_enabled (rate_limiting (guild_config guild w))) eqn:Hen.
  - rewrite (is_rate_limited_enabled _ _ _ Hen).
    destruct (_ <=? _); apply writes_rate_limits.
  - rewrite (is_rate_limited_disabled _ _ _ Hen). apply frame_refl.
Qed.

Lemma writes_listener message : frame R (on_message_without_command message).
Proof.
  intros w. unfold on_message_without_command.
  destruct (msg_channel_kind message); try apply frame_refl.
  destruct (user_bot (msg_author message)); [apply frame_refl|].
  rewrite (bind_ok _ _ _ _ _ (find_eligible_guilds_filter _ w)).
  destruct (List.filter _ _) as [|target others]; [apply frame_refl|].
  destruct (is_user_blocked_reads (user_id (msg_author message))
              (Some (guild_id target)) w) as [b Hb].
  rewrite (bind_ok _ _ _ _ _ Hb). destruct b; [apply frame_refl|].
  match goal with
  | |- R w (snd (?m w)) => cut (frame R m); [intros Hm; apply Hm|]
  end.
  repeat first
    [ apply writes_is_rate_limited | apply writes_process_modmail_message
    | frame_step ].
Qed.

Lemma writes_close_thread channel closer reason thread_data :
  frame R (_close_thread channel closer reason thread_data).
Proof.
  unfold _close_thread, _update_thread_data.
  repeat first
    [ frame_step
    | frame_write ltac:(first
        [ apply writes_thread | apply writes_pointer
        | apply writes_channels ]) ].
Qed.

Lemma writes_modmail_close ctx reason reaction :
  frame R (modmail_close ctx reason reaction).
Proof.
  unfold modmail_close, _get_thread_data_from_channel.
  repeat first [ apply writes_close_thread | frame_step ].
Qed.

Lemma writes_cleanup_task : frame R cleanup_task.
Proof.
  unfold cleanup_task, _auto_close_threads, _cleanup_old_data,
    auto_close_guild, auto_close_thread, fromisoformat.
  repeat first [ apply writes_close_thread | frame_step ].
Qed.

Lemma writes_rate_limit_cleanup : frame R rate_limit_cleanup.
Proof.
  intros w. destruct (rate_limit_cleanup_run w) as (m' & -> & _).
  apply writes_rate_limits.
Qed.

Lemma writes_settings_enable ctx : frame R (settings_enable ctx).
Proof.
  unfold settings_enable, ctx_send.
  repeat first [ frame_step | frame_write ltac:(apply writes_guild) ].
Qed.

Lemma writes_settings_disable ctx : frame R (settings_disable ctx).
Proof.
  unfold settings_disable, ctx_send.
  repeat first [ frame_step | frame_write ltac:(apply writes_guild) ].
Qed.

Lemma writes_settings_category ctx category :
  frame R (settings_category ctx category).
Proof.
  unfold settings_category, ctx_send.
  repeat first [ frame_step | frame_write ltac:(apply writes_guild) ].
Qed.

Lemma writes_settings_staff ctx roles : frame R (settings_staff ctx roles).
Proof.
  unfold settings_staff, ctx_send.
  repeat first [ frame_step | frame_write ltac:(apply writes_guild) ].
Qed.

Lemma writes_settings_autoclose humanize ctx time :
  frame R (settings_autoclose humanize ctx time).
Proof.
  unfold settings_autoclose, ctx_send.
  repeat first [ frame_step | frame_write ltac:(apply writes_guild) ].
Qed.

Lemma writes_modmail_unblock ctx user : frame R (modmail_unblock ctx user).
Proof.
  unfold modmail_unblock, ctx_send.
  repeat first
    [ frame_step
    | frame_write ltac:(first
        [ apply writes_guild | apply writes_blocked
        | apply writes_block_reason | apply writes_blocked_at
        | apply writes_blocked_by ]) ].
Qed.

Lemma writes_block_list ctx : frame R (block_list ctx).
Proof.
  unfold block_list, ctx_send.
  repeat first
    [ apply frame_fold_m; [exact _|intros ? ?] | frame_step ].
Qed.

Lemma writes_user_or_thread_user ctx user :
  frame R (user_or_thread_user ctx user).
Proof.
  unfold user_or_thread_user, _get_thread_data_from_channel.
  repeat frame_step.
Qed.

Lemma writes_modmail_info ctx user : frame R (modmail_info ctx user).
Proof.
  unfold modmail_info, ctx_send.
  repeat first [ apply writes_user_or_thread_user | frame_step ].
Qed.

Lemma writes_modmail_logs ctx user : frame R (modmail_logs ctx user).
Proof.
  unfold modmail_logs, ctx_send, fromisoformat.
  repeat first
    [ apply writes_user_or_thread_user
    | apply frame_fold_m; [exact _|intros ? ?] | frame_step ].
Qed.

Lemma writes_register_extension name extension w :
  R w (register_extension name extension w).
Proof.
  unfold register_extension.
  eapply frame_trans; [apply frame_emit_all|]. apply writes_hooks.
Qed.

Lemma writes_cog_step humanize w w' :
  cog_step humanize w w' -> R w w'.
Proof.
  destruct 1.
  - apply writes_listener.
  - apply writes_modmail_close.
  - apply writes_cleanup_task.
  - apply writes_rate_limit_cleanup.
  - apply writes_settings_enable.
  - apply writes_settings_disable.
  - apply writes_settings_category.
  - apply writes_settings_staff.
  - apply writes_settings_autoclose.
  - apply writes_modmail_unblock.
  - apply writes_block_list.
  - apply writes_modmail_info.
  - apply writes_modmail_logs.
  - apply writes_register_extension.
  - apply writes_clock.
Qed.

Lemma writes_reachable humanize w w' :
  rtc (cog_step humanize) w w' -> R w w'.
Proof.
  induction 1 as [w|w w1 w2 Hstep _ IH]; [apply frame_refl|].
  eapply frame_trans; [|exact IH]. by eapply writes_cog_step.
Qed.
End Writers.

#[local] Instance same_history_frame : FrameRel same_history.
Proof.
  split; unfold same_history.
  - done.
  - intros w1 w2 w3 H12 H23 g u. by rewrite H23.
  - done.
Qed.

#[local] Instance same_history_writes : Writes same_history.
Proof.
  split; unfold same_history; try done.
  intros g u v w g' u'. unfold user_conv, set_active_thread.
  cbn [cfg_conv set_cfg_conv].
  destruct (decide ((g, u) = (g', u'))) as [<-|Hne].
  - by rewrite lookup_insert_eq.
  - by rewrite lookup_insert_ne.
Qed.

#[local] Instance same_totals_frame : FrameRel same_totals.
Proof.
  split; unfold same_totals.
  - done.
  - intros w1 w2 w3 H12 H23 u. destruct (H12 u), (H23 u). split; congruence.
  - done.
Qed.

Lemma user_data_user_set u u' f w :
  user_data u' (user_set u f w)
  = if decide (u = u') then f (user_data u w) else user_data u' w.
Proof.
  unfold user_data, user_set. cbn [cfg_user set_cfg_user].
  destruct (decide (u = u')) as [<-|Hne].
  - by rewrite lookup_insert_eq.
  - by rewrite lookup_insert_ne.
Qed.

#[local] Instance same_totals_writes : Writes same_totals.
Proof.
  split; unfold same_totals; try done;
    intros u v w u'; rewrite user_data_user_set;
    by destruct (decide (u = u')) as [<-|].
Qed.

#[local] Instance counter_grows_frame : FrameRel counter_grows.
Proof.
  split; unfold counter_grows.
  - intros w. lia.
  - intros w1 w2 w3. lia.
  - intros evs w. cbn. lia.
Qed.

#[local] Instance counter_grows_writes : Writes counter_grows.
Proof.
  split; unfold counter_grows; intros; cbn; lia.
Qed.

Lemma dict_set_keys {V} k (v : V) d :
  List.map fst d `prefix_of` List.map fst (dict_set k v d).
Proof.
  induction d as [|[k' v'] d IH]; cbn [dict_set List.map fst].
  - apply prefix_nil.
  - destruct (String.eqb k k') eqn:Hk; cbn [List.map fst].
    + apply String.eqb_eq in Hk as ->. done.
    + by apply prefix_cons.
Qed.

#[local] Instance threads_kept_frame : FrameRel threads_kept.
Proof.
  split; unfold threads_kept.
  - done.
  - intros w1 w2 w3 H12 H23 g. etrans; [apply H12|apply H23].
  - done.
Qed.

#[local] Instance threads_kept_writes : Writes threads_kept.
Proof.
  split; unfold threads_kept; try done.
  intros g k d w g'. destruct (decide (g = g')) as [<-|Hne].
  - rewrite all_threads_thread_set. apply dict_set_keys.
  - by rewrite all_threads_thread_set_ne.
Qed.

(** X25. Whatever sequence of listener runs, commands, task runs, extension
    registrations and clock changes leads from [w0] to [w]: no
    conversation has its [thread_history] changed, no user record its
    [total_threads] or [last_thread_at], the global counter
    [total_threads_created] has not gone down, and no thread document was
    removed or moved (the thread ids of each guild are those of [w0], in
    their order, followed by the new ones). *)
Theorem stores_keep_their_invariants :
  forall (humanize_timedelta : Z -> string) (w0 w : World),
    rtc (cog_step humanize_timedelta) w0 w ->
    same_history w0 w /\ same_totals w0 w
    /\ counter_grows w0 w /\ threads_kept w0 w.
Proof.
  intros humanize w0 w Hreach.
  split; [|split; [|split]].
  - exact (writes_reachable same_history humanize w0 w Hreach).
  - exact (writes_reachable same_totals humanize w0 w Hreach).
  - exact (writes_reachable counter_grows humanize w0 w Hreach).
  - exact (writes_reachable threads_kept humanize w0 w Hreach).
Qed.

(** X25, at the step of alice's first DM. *)
Lemma stores_keep_their_invariants_witness :
  thread_history (user_conv 7 42 after_first_dm) = []
  /\ total_threads (user_data 42 after_first_dm) = 0
  /\ 0 <= total_threads_created (cfg_global after_first_dm).
Proof.
  destruct (stores_keep_their_invariants (fun _ => EmptyString) fresh_world
              after_first_dm) as (Hh & Ht & Hc & _).
  - apply rtc_once. apply (step_message _ first_dm fresh_world).
  - split; [apply (Hh 7 42)|]. split; [apply (Ht 42)|exact Hc].
Defined.

(** X26. Nothing records a thread in [thread_history]: starting from empty
    histories, after any sequence of such steps [modmail logs] for a
    user answers that the user has no modmail history, and does nothing
    else. *)
Theorem logs_never_show_a_thread :
  forall (humanize_timedelta : Z -> string) (w0 w : World) (ctx : Context)
         (user : User),
    let cid := channel_id (ctx_channel ctx) in
    (forall g u, thread_history (user_conv g u w0) = []) ->
    rtc (cog_step humanize_timedelta) w0 w ->
    modmail_logs ctx (Some user) w
    = match ext_fail w (CallChannelSend cid) with
      | None =>
          (Ok tt,
           emit_all
             [EvChannelSend cid
                (PText (user_mention (user_id user)
                        +:+ " has no modmail history in this server."))] w)
      | Some e => (Raise e, w)
      end.
Proof.
  intros humanize w0 w ctx user cid Hempty Hreach.
  pose proof (writes_reachable same_history humanize w0 w Hreach) as Hsame.
  unfold modmail_logs, user_or_thread_user. rewrite bind_ret, bind_gets.
  rewrite Hsame, Hempty. unfold ctx_send, channel_send, ext_call. fold cid.
  by destruct (ext_fail w (CallChannelSend cid)).
Qed.

(** X26, at alice after her first DM. *)
Lemma logs_never_show_a_thread_witness :
  modmail_logs close_context (Some alice) after_first_dm
  = (Ok tt,
     emit_all
       [EvChannelSend 5000
          (PText (user_mention 42
                  +:+ " has no modmail history in this server."))]
       after_first_dm).
Proof.
  apply (logs_never_show_a_thread (fun _ => EmptyString) fresh_world
           after_first_dm close_context alice).
  - intros g u. reflexivity.
  - apply rtc_once. apply (step_message _ first_dm fresh_world).
Defined.

(** ** The settings commands *)

Lemma guild_config_guild_set g g' f w :
  guild_config g' (guild_set g f w)
  = if decide (g = g') then f (guild_config g w) else guild_config g' w.
Proof.
  unfold guild_config, guild_set. cbn [cfg_guild set_cfg_guild].
  destruct (decide (g = g')) as [<-|Hne].
  - by rewrite lookup_insert_eq.
  - by rewrite lookup_insert_ne.
Qed.

(** A write to the settings followed by the confirmation in the channel:
    the write stays, whether or not the confirmation goes out. *)
Lemma set_then_confirm g f cid p w :
  let result := (modify (guild_set g f) ;;; channel_send cid p) w in
  (forall g', guild_config g' (snd result)
              = if decide (g = g') then f (guild_config g w)
                else guild_config g' w)
  /\ same_but_settings w (snd result)
  /\ fst result
     = match ext_fail w (CallChannelSend cid) with
       | None => Ok tt
       | Some e => Raise e
       end.
Proof.
  cbv zeta. rewrite bind_modify. unfold channel_send, ext_call.
  change (ext_fail (guild_set g f w)) with (ext_fail w).
  destruct (ext_fail w (CallChannelSend cid)); cbn [fst snd];
    (split; [intros g'; apply guild_config_guild_set|]); split;
    first [done | repeat split].
Qed.

Lemma set_then_confirm_stores g f cid p :
  stores_setting g cid f (modify (guild_set g f) ;;; channel_send cid p).
Proof.
  intros w result. destruct (set_then_confirm g f cid p w) as (Hg & Hs & Hr).
  fold result in Hg, Hs, Hr. split; [|split; [|split]].
  - rewrite Hg. by rewrite decide_True.
  - intros g' Hne. rewrite Hg. by rewrite decide_False.
  - exact Hs.
  - exact Hr.
Qed.

Lemma settings_autoclose_stores humanize ctx time :
  stores_setting (guild_id (ctx_guild ctx)) (channel_id (ctx_channel ctx))
    (with_auto_close_after time) (settings_autoclose humanize ctx time).
Proof.
  unfold settings_autoclose. destruct (0 <? time);
    apply set_then_confirm_stores.
Qed.

(** X19. Each of the five settings commands writes its setting before it
    confirms in the channel: the setting is stored, and nothing else
    changes, even when the confirmation cannot be sent (the command then
    raises what [ctx.send] raised).  [settings_staff] replaces the list of
    staff roles, [settings_autoclose] stores any integer. *)
Theorem settings_are_stored_before_confirmation :
  forall (humanize_timedelta : Z -> string) (ctx : Context)
         (category : Channel) (roles : list Role) (time : Z),
    let gid := guild_id (ctx_guild ctx) in
    let cid := channel_id (ctx_channel ctx) in
    stores_setting gid cid (with_enabled true) (settings_enable ctx)
    /\ stores_setting gid cid (with_enabled false) (settings_disable ctx)
    /\ stores_setting gid cid (with_category_id (Some (channel_id category)))
         (settings_category ctx category)
    /\ stores_setting gid cid (with_staff_roles (List.map role_id roles))
         (settings_staff ctx roles)
    /\ stores_setting gid cid (with_auto_close_after time)
         (settings_autoclose humanize_timedelta ctx time).
Proof.
  intros humanize ctx category roles time gid cid.
  split; [apply set_then_confirm_stores|].
  split; [apply set_then_confirm_stores|].
  split; [apply set_then_confirm_stores|]. split.
  - unfold settings_staff. destruct roles; apply set_then_confirm_stores.
  - apply settings_autoclose_stores.
Qed.

Lemma filter_filter_comm {A} (p q : A -> bool) l :
  List.filter (fun x => q x && p x) l = List.filter q (List.filter p l).
Proof.
  induction l as [|x l IH]; [reflexivity|]. cbn [List.filter].
  destruct (p x); cbn [List.filter]; destruct (q x); cbn [andb];
    by rewrite IH.
Qed.

(** X20. After [modmail settings disable] in a guild, the guilds a DM of any
    author can go to are those of before without this guild; the other
    guilds keep their place in the order. *)
Theorem settings_disable_stops_routing :
  forall (ctx : Context) (author : User) (w : World) (guilds : list Guild),
    let gid := guild_id (ctx_guild ctx) in
    let disabled := snd (settings_disable ctx w) in
    fst (find_eligible_guilds author w) = Ok guilds ->
    fst (find_eligible_guilds author disabled)
    = Ok (List.filter (fun g => negb (guild_id g =? gid)) guilds).
Proof.
  intros ctx author w guilds gid disabled.
  rewrite !find_eligible_guilds_filter. cbn [fst]. intros [= <-]. f_equal.
  destruct (set_then_confirm_stores gid (with_enabled false)
              (channel_id (ctx_channel ctx))
              (PText "❌ Modmail system disabled.") w)
    as (Hg & Hother & Hsame & _).
  change (snd _) with disabled in Hg, Hother, Hsame.
  destruct Hsame as (_ & _ & _ & _ & _ & _ & Hguilds & _ & Hnow & _).
  rewrite Hguilds, <- filter_filter_comm. apply filter_ext. intros g.
  unfold eligible_guild. rewrite Hnow.
  destruct (Z.eqb_spec (guild_id g) gid) as [->|Hne]; cbn [negb andb].
  - fold gid. by rewrite Hg.
  - by rewrite (Hother _ Hne).
Qed.

(** X20, at guild 7, the only guild alice can write to. *)
Lemma settings_disable_stops_routing_witness :
  fst (find_eligible_guilds alice fresh_world) = Ok [guild_seven []]
  /\ fst (find_eligible_guilds alice
            (snd (settings_disable close_context fresh_world))) = Ok [].
Proof.
  assert (H : fst (find_eligible_guilds alice fresh_world)
              = Ok [guild_seven []]) by (vm_compute; reflexivity).
  split; [exact H|].
  apply (settings_disable_stops_routing close_context alice fresh_world
           [guild_seven []] H).
Defined.

(** X21. [modmail settings autoclose] takes zero and negative times; with such
    a time stored the sweep passes over the guild without reading its
    thread documents. *)
Theorem autoclose_off_stops_the_sweep :
  forall (humanize_timedelta : Z -> string) (ctx : Context) (time : Z)
         (w : World) (guild : Guild),
    let configured := snd (settings_autoclose humanize_timedelta ctx time w) in
    guild_id guild = guild_id (ctx_guild ctx) ->
    time <= 0 ->
    auto_close_after
      (thread_settings (guild_config (guild_id guild) configured)) = time
    /\ auto_close_guild guild configured = (Ok tt, configured).
Proof.
  intros humanize ctx time w guild configured Hgid Htime.
  destruct (settings_autoclose_stores humanize ctx time w) as [Hg _].
  fold configured in Hg. rewrite Hgid.
  assert (Hafter : auto_close_after
            (thread_settings
               (guild_config (guild_id (ctx_guild ctx)) configured)) = time)
    by by rewrite Hg.
  split; [exact Hafter|].
  unfold auto_close_guild. rewrite bind_gets, Hgid.
  destruct (enabled _); cbn [negb]; [|reflexivity].
  rewrite Hafter. by destruct (Z.leb_spec time 0); [|lia].
Qed.

(** X21, at [modmail settings autoclose 0] in guild 7. *)
Lemma autoclose_off_stops_the_sweep_witness :
  auto_close_guild (guild_seven sweep_channels)
    (snd (settings_autoclose (fun _ => EmptyString) close_context 0
            sweep_world))
  = (Ok tt,
     snd (settings_autoclose (fun _ => EmptyString) close_context 0
            sweep_world)).
Proof.
  apply (autoclose_off_stops_the_sweep (fun _ => EmptyString) close_context 0
           sweep_world (guild_seven sweep_channels)).
  - reflexivity.
  - discriminate.
Defined.

(** ** Unblocking *)

Lemma list_remove_NoDup x l : NoDup l -> ~ In x (list_remove x l).
Proof.
  induction 1 as [|y l Hy Hnd IH]; cbn [list_remove]; [tauto|].
  destruct (Z.eqb_spec x y) as [->|Hne].
  - intros Hin. apply Hy. by apply list_elem_of_In.
  - intros [->|Hin]; [done|by apply IH].
Qed.

Lemma existsb_eqb_In x l : existsb (Z.eqb x) l = true <-> In x l.
Proof.
  rewrite existsb_exists. split.
  - intros (y & Hin & Heq). apply Z.eqb_eq in Heq. by subst.
  - intros Hin. exists x. split; [done|apply Z.eqb_refl].
Qed.

Lemma is_user_blocked_eq user guild w :
  _is_user_blocked user guild w = (Ok (blocked_for user guild w), w).
Proof.
  unfold _is_user_blocked, blocked_for. rewrite bind_gets.
  destruct (bool_decide _); [reflexivity|]. rewrite bind_gets.
  destruct (blocked _); [reflexivity|]. cbn [orb].
  destruct guild as [g|]; [|reflexivity].
  destruct (truthy_id (Some g)); [|reflexivity]. rewrite bind_gets.
  by destruct (existsb _ _).
Qed.

Lemma modmail_unblock_world ctx user w :
  let uid := user_id user in
  let gid := guild_id (ctx_guild ctx) in
  let listed := blocked_users (guild_config gid w) in
  let result := modmail_unblock ctx user w in
  user_data uid (snd result)
  = with_blocked_by None
      (with_blocked_at None
         (with_block_reason None (with_blocked false (user_data uid w))))
  /\ (forall u, u <> uid -> user_data u (snd result) = user_data u w)
  /\ guild_config gid (snd result)
     = with_blocked_users
         (if existsb (Z.eqb uid) listed then list_remove uid listed
          else listed) (guild_config gid w)
  /\ (forall g, g <> gid -> guild_config g (snd result) = guild_config g w)
  /\ cfg_global (snd result) = cfg_global w.
Proof.
  intros uid gid listed result.
  set (w4 := user_set uid (with_blocked_by None)
               (user_set uid (with_blocked_at None)
                  (user_set uid (with_block_reason None)
                     (user_set uid (with_blocked false) w)))).
  set (w5 := guild_set gid
               (with_blocked_users
                  (if existsb (Z.eqb uid) listed then list_remove uid listed
                   else listed)) w4).
  assert (Hres : snd result = w5 \/ exists evs, snd result = emit_all evs w5).
  { subst result. unfold modmail_unblock. fold uid gid.
    rewrite !bind_modify. unfold ctx_send, channel_send, ext_call.
    destruct (ext_fail _ _); [left; reflexivity|right; eexists; reflexivity]. }
  assert (Hfacts :
    user_data uid w5
    = with_blocked_by None
        (with_blocked_at None
           (with_block_reason None (with_blocked false (user_data uid w))))
    /\ (forall u, u <> uid -> user_data u w5 = user_data u w)
    /\ guild_config gid w5
       = with_blocked_users
           (if existsb (Z.eqb uid) listed then list_remove uid listed
            else listed) (guild_config gid w)
    /\ (forall g, g <> gid -> guild_config g w5 = guild_config g w)
    /\ cfg_global w5 = cfg_global w).
  { split; [|split; [|split; [|split]]].
    - unfold w5, w4. change (user_data uid (guild_set ?g ?f ?x))
        with (user_data uid x).
      rewrite !user_data_user_set. by rewrite !decide_True.
    - intros u Hu. unfold w5, w4.
      change (user_data u (guild_set ?g ?f ?x)) with (user_data u x).
      rewrite !user_data_user_set. by rewrite !decide_False.
    - unfold w5. rewrite guild_config_guild_set, decide_True by done.
      reflexivity.
    - intros g Hg. unfold w5. rewrite guild_config_guild_set.
      by rewrite decide_False.
    - reflexivity. }
  destruct Hres as [->|[evs ->]]; exact Hfacts.
Qed.

(** X22. [modmail unblock] clears the block flag of the user record and takes
    the user off the block list of the guild where it is typed.  For a user
    who is not on the global list and appears at most once on the guild's
    list, [_is_user_blocked] then answers [False] for this guild; but the
    user stays blocked in every other guild that has them on its own
    list. *)
Theorem unblock_lifts_the_block_of_this_guild :
  forall (ctx : Context) (user : User) (w : World),
    let uid := user_id user in
    let gid := guild_id (ctx_guild ctx) in
    let unblocked := snd (modmail_unblock ctx user w) in
    str_Z uid ∉ globally_blocked_users (cfg_global w) ->
    NoDup (blocked_users (guild_config gid w)) ->
    fst (_is_user_blocked uid (Some gid) unblocked) = Ok false
    /\ (forall g, g <> gid -> g <> 0 ->
          In uid (blocked_users (guild_config g w)) ->
          fst (_is_user_blocked uid (Some g) unblocked) = Ok true).
Proof.
  intros ctx user w uid gid unblocked Hglobal Hnd.
  destruct (modmail_unblock_world ctx user w)
    as (Huser & _ & Hguild & Hother & Hglob).
  fold uid gid unblocked in Huser, Hguild, Hother, Hglob.
  rewrite !is_user_blocked_eq. cbn [fst]. unfold blocked_for.
  rewrite Hglob, Huser. cbn [blocked with_blocked_by with_blocked_at
                              with_block_reason with_blocked].
  rewrite bool_decide_eq_false_2 by exact Hglobal. cbn [orb]. split.
  - f_equal. rewrite Hguild. cbn [blocked_users with_blocked_users].
    apply andb_false_iff. right.
    destruct (existsb (Z.eqb uid) (blocked_users (guild_config gid w)))
      eqn:Hin.
    + apply not_true_is_false. rewrite existsb_eqb_In.
      by apply list_remove_NoDup.
    + exact Hin.
  - intros g Hg Hg0 Hin. rewrite is_user_blocked_eq. cbn [fst].
    unfold blocked_for. f_equal. rewrite (Hother g Hg).
    apply orb_true_iff. right. apply andb_true_iff. split.
    + cbn [truthy_id]. by destruct (Z.eqb_spec g 0).
    + by apply existsb_eqb_In.
Qed.

(** X22, at alice on the block list of guild 7. *)
Lemma unblock_lifts_the_block_of_this_guild_witness :
  fst (_is_user_blocked 42 (Some 7) blocking_world) = Ok true
  /\ fst (_is_user_blocked 42 (Some 7)
            (snd (modmail_unblock close_context alice blocking_world)))
     = Ok false.
Proof.
  split; [vm_compute; reflexivity|].
  apply (unblock_lifts_the_block_of_this_guild close_context alice
           blocking_world).
  - apply (bool_decide_unpack _). vm_compute. exact I.
  - apply (bool_decide_unpack _). vm_compute. exact I.
Defined.

(** ** The report commands *)

Lemma reads_ret {A} (a : A) : reads (ret a).
Proof. done. Qed.

Lemma reads_gets {A} (f : World -> A) : reads (gets f).
Proof. done. Qed.

Lemma reads_fromisoformat s : reads (fromisoformat s).
Proof. by destruct s. Qed.

Lemma reads_bind {A B} (m : M A) (k : A -> M B) :
  reads m -> (forall a, reads (k a)) -> reads (bind m k).
Proof.
  intros Hm Hk w. unfold bind. specialize (Hm w).
  destruct (m w) as [[a|e] w1]; cbn [snd] in *; subst w1; [apply Hk|done].
Qed.

Lemma reads_fold_m {A S} (step : S -> A -> M S) l :
  (forall acc x, reads (step acc x)) -> forall acc, reads (fold_m step l acc).
Proof.
  intros Hstep. induction l as [|x l IH]; intros acc; cbn [fold_m].
  - apply reads_ret.
  - apply reads_bind; [apply Hstep|exact IH].
Qed.

Lemma reads_user_or_thread_user ctx user :
  reads (user_or_thread_user ctx user).
Proof.
  unfold user_or_thread_user, _get_thread_data_from_channel.
  destruct user; [apply reads_ret|].
  destruct (_is_modmail_channel _); [|apply reads_ret].
  apply reads_bind; [apply reads_bind; [apply reads_gets|intros; apply reads_ret]|].
  intros [data|]; [apply reads_gets|apply reads_ret].
Qed.

Lemma answers_once_send ctx p :
  answers_once (channel_id (ctx_channel ctx)) (ctx_send ctx p).
Proof.
  intros w. unfold ctx_send, channel_send, ext_call.
  destruct (ext_fail w _); [by left|right; by eexists].
Qed.

Lemma answers_once_bind {A} cid (m : M A) (k : A -> M unit) :
  reads m -> (forall a, answers_once cid (k a)) -> answers_once cid (bind m k).
Proof.
  intros Hm Hk w. unfold bind. specialize (Hm w).
  destruct (m w) as [[a|e] w1]; cbn [snd] in *; subst w1; [apply Hk|by left].
Qed.

Ltac reads_step :=
  first
    [ apply reads_ret | apply reads_gets | apply reads_fromisoformat
    | apply reads_user_or_thread_user
    | apply reads_fold_m; intros ? ?
    | apply reads_bind; [|intros ?]
    | match goal with
      | |- reads (if ?b then _ else _) => destruct b
      | |- reads (match ?x with _ => _ end) => destruct x
      end ].

Ltac answers_step :=
  first
    [ apply answers_once_send
    | apply answers_once_bind; [repeat reads_step|intros ?]
    | match goal with
      | |- answers_once _ (if ?b then _ else _) => destruct b
      | |- answers_once _ (match ?x with _ => _ end) => destruct x
      | |- answers_once _ (let _ := _ in _) => cbv zeta
      end ].

(** X24. The report commands ([modmail block list], [modmail info],
    [modmail logs]) change nothing: whatever they find and whether they
    return or raise, the world is the one of before, except that at most
    one message was sent, to the channel of the command. *)
Theorem reports_only_answer :
  forall (ctx : Context) (user : option User),
    let cid := channel_id (ctx_channel ctx) in
    answers_once cid (block_list ctx)
    /\ answers_once cid (modmail_info ctx user)
    /\ answers_once cid (modmail_logs ctx user).
Proof.
  intros ctx user cid. split; [|split].
  - unfold block_list. repeat answers_step.
  - unfold modmail_info. repeat answers_step.
  - unfold modmail_logs. repeat answers_step.
Qed.

Lemma block_list_fields w l : forall embed,
  exists shown : Embed,
    fold_m (fun embed user_id =>
      let* user := gets (bot_get_user user_id) in
      let* data := gets (user_data user_id) in
      let user_str :=
        match user with
        | Some u => str_user u +:+ " (" +:+ str_Z user_id +:+ ")"
        | None => "Unknown User (" +:+ str_Z user_id +:+ ")"
        end in
      let reason := block_reason data in
      ret (add_field user_str ("Reason: " +:+ str_option reason) embed))
      l embed w = (Ok shown, w)
    /\ emb_fields shown = emb_fields embed ++ List.map (blocked_entry w) l
    /\ emb_title shown = emb_title embed
    /\ emb_footer shown = emb_footer embed.
Proof.
  induction l as [|u l IH]; intros embed.
  - exists embed. by rewrite app_nil_r.
  - cbn [fold_m]. unfold bind at 1. unfold bind at 1, gets at 1.
    unfold bind at 1, gets at 1, ret at 1.
    match goal with
    | |- context [fold_m _ l ?e w] =>
        destruct (IH e) as (shown & Hrun & Hf & Ht & Hfo)
    end.
    exists shown. split; [exact Hrun|]. split; [|split; [exact Ht|exact Hfo]].
    rewrite Hf. cbn [emb_fields add_field List.map].
    by rewrite <- app_assoc.
Qed.

(** X23. [modmail block list] shows the first ten users of the guild's block
    list, one field each, in list order (the name of a user the bot cannot
    see reads "Unknown User"); the footer tells the total when there are
    more than ten, and an empty list is answered with a plain message. *)
Theorem block_list_shows_ten :
  forall (ctx : Context) (w : World),
    let cid := channel_id (ctx_channel ctx) in
    let listed := blocked_users (guild_config (guild_id (ctx_guild ctx)) w) in
    ext_fail w (CallChannelSend cid) = None ->
    match listed with
    | [] =>
        block_list ctx w
        = (Ok tt,
           emit_all
             [EvChannelSend cid (PText "No users are currently blocked.")] w)
    | _ =>
        exists embed : Embed,
          block_list ctx w
          = (Ok tt, emit_all [EvChannelSend cid (PEmbed embed)] w)
          /\ emb_fields embed
             = List.map (blocked_entry w) (firstn 10 listed)
          /\ length (emb_fields embed) = Nat.min 10 (length listed)
          /\ emb_footer embed
             = if (10 <? length listed)%nat
               then "Showing 10 of " +:+ str_Z (Z.of_nat (length listed))
                    +:+ " blocked users"
               else EmptyString
    end.
Proof.
  intros ctx w cid listed Hsend.
  unfold block_list. rewrite bind_gets. fold listed.
  destruct listed as [|u rest] eqn:Hlisted.
  - unfold ctx_send, channel_send. fold cid. by rewrite ext_call_ok.
  - rewrite <- Hlisted.
    match goal with
    | |- context [fold_m _ _ ?e] =>
        destruct (block_list_fields w (firstn 10 listed) e)
          as (shown & Hrun & Hf & _ & Hfo)
    end.
    rewrite (bind_ok _ _ _ _ _ Hrun).
    unfold ctx_send, channel_send. fold cid. rewrite ext_call_ok by exact Hsend.
    eexists. split; [reflexivity|].
    cbn [emb_fields app] in Hf. cbn [emb_footer] in Hfo.
    destruct (10 <? length listed)%nat;
      cbn [emb_fields emb_footer set_footer];
      (split; [exact Hf|]); (split; [|done]);
      by rewrite Hf, length_map, length_firstn.
Qed.

(** X23, at the block list of guild 7 with alice on it. *)
Lemma block_list_shows_ten_witness :
  exists embed : Embed,
    block_list close_context blocking_world
    = (Ok tt, emit_all [EvChannelSend 5000 (PEmbed embed)] blocking_world)
    /\ emb_fields embed = [("alice#0001 (42)", "Reason: None")].
Proof.
  pose proof (block_list_shows_ten close_context blocking_world eq_refl) as H.
  cbv zeta in H.
  change (blocked_users (guild_config (guild_id (ctx_guild close_context))
                           blocking_world)) with [42] in H.
  destruct H as (embed & Hrun & Hfields & _).
  exists embed. split; [exact Hrun|]. rewrite Hfields. vm_compute. reflexivity.
Defined.

(** ** A DM for which no channel can be had *)

Lemma is_rate_limited_world user guild w :
  exists (b : bool) (m : gmap string (list Z)),
    _is_rate_limited user guild w = (Ok b, set_rate_limits m w).
Proof.
  destruct (rl_enabled (rate_limiting (guild_config guild w))) eqn:Hen.
  - rewrite (is_rate_limited_enabled _ _ _ Hen).
    destruct (_ <=? _); by eexists _, _.
  - rewrite (is_rate_limited_disabled _ _ _ Hen).
    exists false, (rate_limits w). by rewrite set_rate_limits_same.
Qed.

(** X12. A DM that gets through to a guild where no thread channel can be had
    (the user has no live thread and [_create_new_thread] cannot make
    one) is answered with "Unable to create modmail thread..." and ends at
    [NoThread]: beyond that answer, one line in the log, the timestamp
    the rate limiter took and the thread id that was drawn, nothing has
    changed; in particular no thread document is written and no hook is
    called. *)
Theorem dm_without_channel_is_answered :
  forall (message : Message) (w : World) (target : Guild)
         (others : list Guild),
    let author := msg_author message in
    let uid := user_id author in
    let gid := guild_id target in
    let pointer := active_thread (user_conv gid uid w) in
    let counted := snd (_is_rate_limited uid gid w) in
    msg_channel_kind message = DMChannel ->
    user_bot author = false ->
    fst (find_eligible_guilds author w) = Ok (target :: others) ->
    fst (_is_user_blocked uid (Some gid) w) = Ok false ->
    fst (_is_rate_limited uid gid w) = Ok false ->
    truthy_id pointer = false \/ guild_get_channel gid pointer w = None ->
    can_create_thread target w = false ->
    ext_fail w (CallUserSend uid) = None ->
    exists level msg e,
      on_message_without_command message w
      = (Ok NoThread,
         emit_all
           [EvLog level msg e;
            EvUserSend uid
              (PText "Unable to create modmail thread. Please contact an administrator.")]
           (set_uuid_count (S (uuid_count w)) counted)).
Proof.
  intros message w target others author uid gid pointer counted
    Hdm Hhuman Hel Hfree Hrl Hstale Hcannot Hsend.
  unfold on_message_without_command. fold author. rewrite Hdm, Hhuman.
  destruct (find_eligible_guilds_reads author w) as [gs Hgs].
  rewrite Hgs in Hel. injection Hel as ->.
  rewrite (bind_ok _ _ _ _ _ Hgs). fold uid gid.
  destruct (is_user_blocked_reads uid (Some gid) w) as [b Hb].
  rewrite Hb in Hfree. injection Hfree as ->.
  rewrite (bind_ok _ _ _ _ _ Hb).
  destruct (is_rate_limited_world uid gid w) as (limited & m & Hrun).
  subst counted. rewrite Hrun in Hrl |- *. cbn [fst snd] in *.
  injection Hrl as ->. rewrite (bind_ok _ _ _ _ _ Hrun).
  set (w1 := set_rate_limits m w).
  assert (Hthread : exists level msg e,
    _get_or_create_thread author target w1
    = (Ok None,
       emit_all [EvLog level msg e] (set_uuid_count (S (uuid_count w)) w1))).
  { rewrite get_or_create_thread_creates by exact Hstale.
    apply create_new_thread_fails. exact Hcannot. }
  destruct Hthread as (level & msg & e & Hthread).
  exists level, msg, e.
  unfold _process_modmail_message. cbv zeta. fold author uid.
  unfold try_except. unfold bind at 1.
  rewrite (bind_ok _ _ _ _ _ Hthread). unfold user_send.
  erewrite bind_ok; [|by apply ext_call_ok].
  cbn [ret]. rewrite emit_all_app. reflexivity.
Qed.

(** X12, at the first DM of alice to a guild without category. *)
Lemma dm_without_channel_is_answered_witness :
  can_create_thread (guild_seven []) uncategorised_world = false
  /\ fst (on_message_without_command first_dm uncategorised_world)
     = Ok NoThread
  /\ all_threads 7 (snd (on_message_without_command first_dm
                           uncategorised_world)) = [].
Proof.
  split; [reflexivity|].
  destruct (dm_without_channel_is_answered first_dm uncategorised_world
              (guild_seven []) []) as (level & msg & e & Hrun);
    try (vm_compute; reflexivity).
  - left. reflexivity.
  - rewrite Hrun. split; reflexivity.
Defined.

(** ** The channel of a closed thread *)

Lemma get_channel_same_guilds g c w w' :
  bot_guilds w' = bot_guilds w ->
  guild_get_channel g c w' = guild_get_channel g c w.
Proof. unfold guild_get_channel, find_guild. by intros ->. Qed.

Lemma find_on_channel_same c f l :
  (forall ch, channel_id (f ch) = channel_id ch) ->
  List.find (fun ch => channel_id ch =? c) (on_channel c f l)
  = option_map f (List.find (fun ch => channel_id ch =? c) l).
Proof.
  intros Hf. unfold on_channel.
  induction l as [|ch l IH]; cbn [List.map List.find]; [done|].
  destruct (channel_id ch =? c) eqn:Hc.
  - by rewrite Hf, Hc.
  - by rewrite Hc.
Qed.

Lemma find_filter_channel_same c l :
  List.find (fun ch => channel_id ch =? c)
    (List.filter (fun ch => negb (channel_id ch =? c)) l) = None.
Proof.
  induction l as [|ch l IH]; cbn [List.filter List.find]; [done|].
  destruct (channel_id ch =? c) eqn:Hc; cbn [negb List.find]; [exact IH|].
  by rewrite Hc.
Qed.

Lemma get_channel_map_guild_channels g c F w :
  guild_get_channel g (Some c) (map_guild_channels g F w)
  = match find_guild g w with
    | Some x => List.find (fun ch => channel_id ch =? c) (F (guild_channels x))
    | None => None
    end.
Proof.
  unfold guild_get_channel. rewrite find_guild_map_guild_channels.
  destruct (find_guild g w) as [x|] eqn:Hx; cbn [option_map]; [|done].
  apply find_guild_id in Hx. by rewrite Hx, Z.eqb_refl.
Qed.

Lemma get_channel_on_channel g c f w :
  (forall ch, channel_id (f ch) = channel_id ch) ->
  guild_get_channel g (Some c) (map_guild_channels g (on_channel c f) w)
  = option_map f (guild_get_channel g (Some c) w).
Proof.
  intros Hf. rewrite get_channel_map_guild_channels. unfold guild_get_channel.
  destruct (find_guild g w); [|done]. by apply find_on_channel_same.
Qed.

#[local] Instance same_channel_name_frame g c : FrameRel (same_channel_name g c).
Proof.
  split; unfold same_channel_name.
  - intros w ch Hch. by exists ch.
  - intros w1 w2 w3 H12 H23 ch Hch.
    destruct (H12 ch Hch) as (ch2 & Hch2 & Hn2).
    destruct (H23 ch2 Hch2) as (ch3 & Hch3 & Hn3).
    exists ch3. split; [done|congruence].
  - intros evs w ch Hch. by exists ch.
Qed.

Lemma try_except_assoc {A B C} (m : M A) (k1 : A -> M B) (k2 : B -> M C)
    handles handler w :
  try_except (bind (bind m k1) k2) handles handler w
  = try_except (bind m (fun a => bind (k1 a) k2)) handles handler w.
Proof. unfold try_except, bind. by destruct (m w) as [[a|e] w1]. Qed.

(** X6. Once the notices of a close are out, the channel leaves service.
    With [delete_on_close] it is deleted (when Discord lets it be) and no
    longer resolves.  Otherwise it is renamed (when Discord lets it be) to
    "closed-" followed by the name it was called with, and keeps that name
    whatever fails afterwards: [_is_modmail_channel] no longer holds of it,
    so that [modmail close] typed there again is turned down. *)
Theorem close_takes_the_channel_out_of_service :
  forall (channel : Channel) (closer : Member) (reason : option string)
         (thread_data : ThreadData) (w : World) (u : Z),
    let gid := channel_guild channel in
    let cid := channel_id channel in
    let closed := snd (_close_thread channel closer reason thread_data w) in
    td_user_id thread_data = Some u ->
    u <> 0 ->
    ext_fail w (CallChannelSend cid) = None ->
    (ext_fail w (CallUserSend u) = None
     \/ ext_fail w (CallUserSend u) = Some Forbidden) ->
    if delete_on_close (thread_settings (guild_config gid w)) then
      ext_fail w (CallChannelDelete cid) = None ->
      guild_get_channel gid (Some cid) closed = None
    else
      ext_fail w (CallChannelEdit cid) = None ->
      forall cached, guild_get_channel gid (Some cid) w = Some cached ->
      exists archived,
        guild_get_channel gid (Some cid) closed = Some archived
        /\ channel_name archived = "closed-" +:+ channel_name channel
        /\ _is_modmail_channel archived = false.
Proof.
  intros channel closer reason thread_data w u gid cid closed
    Hu Hu0 Hsend Hdm.
  destruct (close_thread_reaches_tail channel closer reason thread_data w u
              Hu Hu0 Hsend Hdm) as (w3 & Hrun & _ & Hguilds & _ & Hfail & _).
  fold gid in Hrun. subst closed. rewrite Hrun. unfold close_thread_tail.
  destruct (delete_on_close (thread_settings (guild_config gid w))).
  - intros Hdelete. unfold channel_delete. rewrite !try_except_assoc.
    erewrite try_except_bind_ok; [|reflexivity].
    rewrite ?try_except_assoc.
    erewrite try_except_bind_ok;
      [|apply ext_call_ok; cbn; by rewrite Hfail].
    erewrite try_except_bind_ok; [|reflexivity].
    match goal with
    | |- guild_get_channel _ _ (snd (try_except ?body _ _ ?w4)) = None =>
        assert (Hrest : same_stores w4
                  (snd (try_except body any_exception
                          (close_thread_handler channel) w4)));
        [ apply frame_try_except; [exact _| |intros e];
          unfold close_thread_handler; repeat frame_step
        | assert (Hgone : guild_get_channel gid (Some cid) w4 = None) ]
    end.
    { fold gid cid. rewrite get_channel_map_guild_channels.
      destruct (find_guild gid _); [|done]. apply find_filter_channel_same. }
    destruct Hrest as (_ & _ & _ & _ & _ & Hbg).
    by rewrite (get_channel_same_guilds _ _ _ _ Hbg).
  - intros Hedit cached Hcached. unfold channel_edit.
    rewrite !try_except_assoc.
    erewrite try_except_bind_ok; [|apply ext_call_ok; by rewrite Hfail].
    erewrite try_except_bind_ok; [|reflexivity].
    match goal with
    | |- exists _, guild_get_channel _ _ (snd (try_except ?body _ _ ?w4)) = _
                   /\ _ =>
        assert (Hrest : same_channel_name gid cid w4
                  (snd (try_except body any_exception
                          (close_thread_handler channel) w4)));
        [ apply frame_try_except; [exact _| |intros e];
          unfold close_thread_handler;
          repeat first
            [ frame_step
            | frame_write ltac:(
                intros ch Hch; fold gid cid;
                rewrite get_channel_on_channel by done;
                rewrite Hch; by eexists) ]
        | assert (Hnamed : guild_get_channel gid (Some cid) w4
                           = Some (rename_channel
                                     ("closed-" +:+ channel_name channel)
                                     cached)) ]
    end.
    { fold gid cid. rewrite get_channel_on_channel by done.
      change (guild_get_channel gid (Some cid) (emit_all ?evs w3))
        with (guild_get_channel gid (Some cid) w3).
      by rewrite (get_channel_same_guilds _ _ _ _ Hguilds), Hcached. }
    destruct (Hrest _ Hnamed) as (archived & Harch & Hname).
    exists archived. split; [exact Harch|]. split; [exact Hname|].
    unfold _is_modmail_channel. by rewrite Hname.
Qed.

(** X6, at the first close of alice's thread, without [delete_on_close]. *)
Lemma close_takes_the_channel_out_of_service_witness :
  _is_modmail_channel alice_channel = true
  /\ exists archived : Channel,
       guild_get_channel 7 (Some 5000) after_first_close = Some archived
       /\ channel_name archived = "closed-modmail-alice-0001"
       /\ _is_modmail_channel archived = false.
Proof.
  split; [reflexivity|].
  pose proof (close_takes_the_channel_out_of_service alice_channel moderator
                (Some "resolved") alice_thread
                (set_now first_close_at after_first_dm) 42) as H.
  cbv zeta in H.
  change (delete_on_close _) with false in H. cbv iota in H.
  eapply (H eq_refl); try (vm_compute; reflexivity).
  - discriminate.
  - left. vm_compute; reflexivity.
Defined.
(** * The live hook table, the thread statistics and the sweep after a DM *)

(** ** The dispatcher over the live hook table *)

Lemma live_registered_emit_all hook_name evs cog :
  Live.registered hook_name (Live.emit_all evs cog)
  = Live.registered hook_name cog.
Proof. reflexivity. Qed.





(** Unregistering never lengthens the list of a hook name. *)
Lemma live_list_remove_length x l :
  (length (Live.list_remove x l) <= length l)%nat.
Proof.
  induction l as [|y l IH]; simpl; [lia|].
  destruct (Live.bound_eqb y x); simpl; lia.
Qed.

Lemma live_unregister_length hook_name name cog :
  (length (Live.registered hook_name (Live.unregister_extension name cog))
   <= length (Live.registered hook_name cog))%nat.
Proof.
  unfold Live.unregister_extension, Live.registered.
  destruct (Live.extensions cog !! name) as [extension|]; [|lia].
  simpl. rewrite map_lookup_imap.
  destruct (Live.hooks cog !! hook_name) as [l|]; simpl; [|lia].
  destruct (Live.ext_method extension hook_name); simpl; [|lia].
  apply live_list_remove_length.
Qed.

Lemma live_unregister_all_length hook_name names : forall cog,
  (length (Live.registered hook_name
             (foldl (fun c name => Live.unregister_extension name c)
                cog names))
   <= length (Live.registered hook_name cog))%nat.
Proof.
  induction names as [|name names IH]; intros cog; simpl; [lia|].
  etrans; [apply IH|apply live_unregister_length].
Qed.

(** The loop of [_trigger_hook] is over within as many rounds as the list
    had items when it started: further rounds change nothing. *)
Lemma live_dispatch_rounds hook_name args rounds : forall index cog,
  (length (Live.registered hook_name cog) <= rounds + index)%nat ->
  Live.dispatch (S rounds) hook_name args index cog
  = Live.dispatch rounds hook_name args index cog.
Proof.
  induction rounds as [|rounds IH]; intros index cog Hlen.
  - cbn [Live.dispatch].
    rewrite (proj2 (lookup_ge_None _ _)) by (simpl in Hlen; lia). done.
  - change (Live.dispatch (S (S rounds)) hook_name args index cog)
      with (match Live.registered hook_name cog !! index with
            | None => (Live.Completed, cog)
            | Some hook =>
                let '(unregistered, outcome) := Live.bm_call hook args in
                let cog :=
                  Live.emit_all
                    [EvHookCall hook_name (Live.bm_owner hook) args] cog in
                let cog :=
                  foldl (fun c name => Live.unregister_extension name c)
                    cog unregistered in
                match outcome with
                | Live.Returns =>
                    Live.dispatch (S rounds) hook_name args (S index) cog
                | Live.RaisesException e =>
                    Live.dispatch (S rounds) hook_name args (S index)
                      (Live.emit_all
                         [EvLog LogError
                            ("Error in extension hook " +:+ hook_name)
                            (Some e)] cog)
                | Live.RaisesBaseException cls => (Live.Propagated cls, cog)
                end
            end).
    cbn [Live.dispatch].
    destruct (Live.registered hook_name cog !! index) as [hook|]; [|done].
    destruct (Live.bm_call hook args) as [names outcome].
    pose proof (live_unregister_all_length hook_name names
                  (Live.emit_all
                     [EvHookCall hook_name (Live.bm_owner hook) args] cog))
      as Hshort.
    rewrite live_registered_emit_all in Hshort.
    destruct outcome as [|e|cls]; [| |done].
    + apply IH. lia.
    + apply IH. rewrite live_registered_emit_all. lia.
Qed.



(** ** Thread creation and the thread statistics *)

(** C6 (code defect).  [_create_new_thread] never writes [thread_history],
    [total_threads] or [last_thread_at], whether it succeeds or not.  At
    the creation of the thread of alice the document is stored, the
    pointer set (to the channel id) and the global counter incremented,
    but the history of alice is still empty and her record still says no
    thread: [modmail logs] answers that she has no modmail history and
    [modmail info] shows "Total Threads" 0 and no "Last Thread". *)
Theorem creation_feeds_no_reader :
  (forall (user : User) (guild : Guild) (thread_id : string) (w : World),
     let created := snd (_create_new_thread user guild thread_id w) in
     same_history w created /\ same_totals w created)
  /\ fst (_create_new_thread alice (guild_seven []) alice_thread_id
            fresh_world) = Ok (Some alice_channel)
  /\ dict_get alice_thread_id (all_threads 7 created_world)
     = Some alice_thread
  /\ active_thread (user_conv 7 42 created_world) = Some 5000
  /\ total_threads_created (cfg_global created_world)
     = total_threads_created (cfg_global fresh_world) + 1
  /\ thread_history (user_conv 7 42 created_world) = []
  /\ total_threads (user_data 42 created_world) = 0
  /\ last_thread_at (user_data 42 created_world) = None
  /\ new_events created_world
       (snd (modmail_logs close_context (Some alice) created_world))
     = [EvChannelSend 5000
          (PText "<@42> has no modmail history in this server.")]
  /\ fields_sent 5000
       (new_events created_world
          (snd (modmail_info close_context (Some alice) created_world)))
     = [("User ID", "42"); ("Account Created", "<t:0:R>");
        ("Total Threads", "0"); ("Status", "✅ Active")].
Proof.
  split.
  - intros user guild thread_id w created. split.
    + apply (writes_create_new_thread same_history).
    + apply (writes_create_new_thread same_totals).
  - repeat apply conj; vm_compute; reflexivity.
Qed.

(** ** The sweep and the documents a delivered DM leaves *)

Lemma for_each_raises {A} (body : A -> M unit) (x : A) l :
  In x l ->
  (forall w, exists e, fst (body x w) = Raise e) ->
  forall w, exists e, fst (for_each l body w) = Raise e.
Proof.
  intros Hin Hx. induction l as [|y l IH]; intros w; [done|].
  cbn [for_each]. unfold bind.
  destruct Hin as [->|Hin].
  - destruct (Hx w) as [e He]. destruct (body x w) as [r w'].
    simpl in He. subst r. by exists e.
  - destruct (body y w) as [[[]|e] w']; [by apply IH|by exists e].
Qed.

(** The sweep of a guild never gets past an open document without
    [created_at]: whatever the documents before it, it raises. *)
Lemma auto_close_guild_raises guild w thread_id data :
  sweep_active (guild_id guild) w = true ->
  In (thread_id, data) (all_threads (guild_id guild) w) ->
  td_status data = st_open ->
  td_created_at data = None ->
  exists e, fst (auto_close_guild guild w) = Raise e.
Proof.
  intros Hactive Hin Hopen Hundated.
  unfold sweep_active in Hactive. apply andb_true_iff in Hactive as [Hen Hpos].
  unfold auto_close_guild. rewrite bind_gets, Hen. cbn [negb].
  apply Z.ltb_lt in Hpos.
  destruct (Z.leb_spec (auto_close_after
                          (thread_settings (guild_config (guild_id guild) w)))
              0); [lia|].
  rewrite bind_gets. unfold utcnow. rewrite bind_gets.
  apply (for_each_raises _ (thread_id, data)); [exact Hin|].
  intros w'. unfold auto_close_thread. rewrite Hopen, Hundated.
  by eexists.
Qed.

(** C9 (code defect).  Guild 7 is enabled with [auto_close_after = 3600];
    alice and bob each send a first DM, and the task runs four hours
    later.  Each delivered DM has left, beside the thread, an open
    document without [created_at] (the defect of C2).  The sweep closes
    the thread of alice, then reads the creation time of the next document
    and raises [TypeError]: the thread of bob, open, created 14340 seconds
    ago and with its channel in place, is left open.  [cleanup_task] logs
    the error and returns; the next run raises at the same document, so
    the thread of bob is never closed. *)
Theorem sweep_stops_behind_a_delivered_dm :
  enabled (guild_config 7 four_hours_later) = true
  /\ auto_close_after (thread_settings (guild_config 7 four_hours_later))
     = 3600
  /\ thread_summary (all_threads 7 four_hours_later)
     = [("42-7-aaaaaaaa", Some 42, st_open, 0);
        ("42-7-bbbbbbbb", None, st_open, 1);
        ("43-7-cccccccc", Some 43, st_open, 0);
        ("43-7-dddddddd", None, st_open, 1)]
  /\ dict_get "43-7-cccccccc" (all_threads 7 four_hours_later)
     = Some bob_thread
  /\ td_created_at bob_thread
     = Some (now four_hours_later - timedelta_seconds 14340)
  /\ sweep_due 7 four_hours_later bob_thread = true
  /\ fst (_auto_close_threads four_hours_later)
     = Raise (TypeError "fromisoformat: argument must be str")
  /\ thread_summary
       (all_threads 7 (snd (_auto_close_threads four_hours_later)))
     = [("42-7-aaaaaaaa", Some 42, st_closed, 0);
        ("42-7-bbbbbbbb", None, st_open, 1);
        ("43-7-cccccccc", Some 43, st_open, 0);
        ("43-7-dddddddd", None, st_open, 1)]
  /\ fst (cleanup_task four_hours_later) = Ok tt
  /\ new_events (snd (_auto_close_threads four_hours_later))
       (snd (cleanup_task four_hours_later))
     = [EvLog LogException "Error in cleanup task"
          (Some (TypeError "fromisoformat: argument must be str"))]
  /\ sweep_due 7 next_run bob_thread = true
  /\ fst (_auto_close_threads next_run)
     = Raise (TypeError "fromisoformat: argument must be str")
  /\ dict_get "43-7-cccccccc"
       (all_threads 7 (snd (_auto_close_threads next_run)))
     = Some bob_thread.
Proof. repeat apply conj; vm_compute; reflexivity. Qed.
